(** * NTPsecDispatcher: the drift decision engine, embedded and verified

    The repository holds four variants of one dispatcher:
    - [dispatcher.py]              (modules [Correction], [Dispatcher],
                                    [Config], [DispatcherMain]),
    - [dispatchService.py]         (modules [Correction], [Service],
                                    [Config], [ServiceMain]),
    - [ToDo/driftMonitor.py]       (modules [Monitor], [MonitorGraph]),
    - [ToDo/driftMonitorDual.py]   (modules [Dual], [Graph]).

    Each module is a shallow embedding of its file: the probes that turn
    the text of a tool into a skew, the band of a skew, the command of a
    band, the memo store, the history buffer and the dispatch loop.

    How Python is modelled:
    - a [str] is a [string] whose characters are the code points below
      256; the methods used ([splitlines], [strip], [split], [in], ...)
      are in [Str];
    - an [int] is a [Z]; a [float] is a binary64 [spec_float], with the
      correctly rounded [float(str)], [*] and [int(float)] of [Float];
    - an exception is a result [Raise e]; stateful code is a function of
      the [world] (disk, memo, history, what happened so far);
    - a [collections.deque(maxlen=n)] is a list, see [Deque];
    - a subprocess is decided by the environment: [shell] tells, for each
      subprocess of a run, what it printed or how it failed; the streams
      are taken after [decode(errors="ignore")];
    - the [json] module is a parameter of the environment; [MiniJson] is
      an instance to run the programs with;
    - a log line is its message without the time stamp; [log] is taken
      over sinks (the console, [status.log]) that accept every line,
      and [log_to] is [log] over sinks that may refuse one;
    - in the loops a frame of the TUI is one event, [Draw], with the
      history it is drawn from; the text of its graph is [render_graph]
      of [Graph] and of [MonitorGraph], where a text with characters
      beyond Latin-1 is a list of code points; a frame of
      [driftMonitor.py] is drawn when its graph can be made, and the
      console is taken to print what it is given;
    - the service configuration of [dispatcher.py] and
      [dispatchService.py] is in [Config]; the reports it appends to the
      log file are kept beside the [world]. *)

From Stdlib Require Import ZArith List String Ascii Bool Lia.
From Stdlib Require Import Floats.SpecFloat.
Import ListNotations.
Local Open Scope string_scope.
Local Open Scope list_scope.
Local Open Scope Z_scope.

(* ===================================================================== *)
(** * Part I: definitions                                                 *)
(* ===================================================================== *)

(** ** Python exceptions and results

    Every class below derives from [Exception], so [except Exception]
    and a bare [except] catch all of them; [except ValueError] catches
    [ValueError] and its subclass [JSONDecodeError] only. *)

Inductive exn :=
| ValueError
| JSONDecodeError
| OverflowError
| IndexError
| AttributeError
| TypeError
| TimeoutError
| UnboundLocalError
| ZeroDivisionError
| OSError (msg : string).

Inductive result (A : Type) :=
| Ok (a : A)
| Raise (e : exn).
Arguments Ok {A} a.
Arguments Raise {A} e.

Definition is_ValueError (e : exn) : bool :=
  match e with ValueError | JSONDecodeError => true | _ => false end.

Definition bind {A B} (r : result A) (k : A -> result B) : result B :=
  match r with Ok a => k a | Raise e => Raise e end.

Notation "'let*' x ':=' r 'in' k" := (bind r (fun x => k))
  (at level 10, x name, r at level 200, k at level 200).

(** ** Python [str] methods used by the parsers *)

Module Str.

Definition cat (a b : string) : string := String.append a b.

Definition snoc (s : string) (c : ascii) : string := String.append s (String c "").

(** The line feed, as a string. *)
Definition LF : string := String "010" "".

Definition is_empty (s : string) : bool :=
  match s with EmptyString => true | _ => false end.

Definition in_range (lo hi : nat) (c : ascii) : bool :=
  let n := nat_of_ascii c in ((lo <=? n) && (n <=? hi))%nat.

(** [c.isspace()]: U+0009..U+000D, U+001C..U+0020, U+0085, U+00A0. *)
Definition isspace (c : ascii) : bool :=
  in_range 9 13 c || in_range 28 32 c || in_range 133 133 c || in_range 160 160 c.

Definition isdigit (c : ascii) : bool := in_range 48 57 c.

(** Line boundaries of [str.splitlines]: LF, VT, FF, CR, FS, GS, RS, NEL
    (CR LF counts once). *)
Definition islinebreak (c : ascii) : bool :=
  in_range 10 13 c || in_range 28 30 c || in_range 133 133 c.

Fixpoint splitlines_from (cur : string) (s : string) : list string :=
  match s with
  | EmptyString => if is_empty cur then [] else [cur]
  | String c rest =>
      if islinebreak c then
        match rest with
        | String c2 rest2 =>
            if (Ascii.eqb c "013" && Ascii.eqb c2 "010")%bool
            then cur :: splitlines_from "" rest2
            else cur :: splitlines_from "" rest
        | EmptyString => cur :: splitlines_from "" rest
        end
      else splitlines_from (snoc cur c) rest
  end.

(** [s.splitlines()] *)
Definition splitlines (s : string) : list string := splitlines_from "" s.

(** [s.startswith(p)] *)
Fixpoint startswith (p s : string) {struct p} : bool :=
  match p with
  | EmptyString => true
  | String a p' =>
      match s with
      | String b s' => (Ascii.eqb a b && startswith p' s')%bool
      | EmptyString => false
      end
  end.

(** [needle in s] *)
Fixpoint contains (needle s : string) : bool :=
  startswith needle s
  || match s with EmptyString => false | String _ r => contains needle r end.

Fixpoint lstrip_by (p : ascii -> bool) (s : string) : string :=
  match s with
  | String c r => if p c then lstrip_by p r else s
  | EmptyString => EmptyString
  end.

Fixpoint rstrip_by (p : ascii -> bool) (s : string) : string :=
  match s with
  | String c r =>
      let r' := rstrip_by p r in
      if (is_empty r' && p c)%bool then EmptyString else String c r'
  | EmptyString => EmptyString
  end.

(** [s.strip()] *)
Definition strip (s : string) : string := rstrip_by isspace (lstrip_by isspace s).

(** [s.rstrip(chars)] for a one-character [chars] *)
Definition rstrip_char (ch : ascii) (s : string) : string :=
  rstrip_by (Ascii.eqb ch) s.

(** [s.split(sep, maxsplit)] for a one-character [sep]; [None] is the
    default [maxsplit = -1]. *)
Fixpoint split_from (sep : ascii) (maxsplit : option nat) (cur s : string)
  : list string :=
  match s with
  | EmptyString => [cur]
  | String c r =>
      if Ascii.eqb c sep then
        match maxsplit with
        | None => cur :: split_from sep None "" r
        | Some (S n) => cur :: split_from sep (Some n) "" r
        | Some O => split_from sep maxsplit (snoc cur c) r
        end
      else split_from sep maxsplit (snoc cur c) r
  end.

Definition split (sep : ascii) (maxsplit : option nat) (s : string) : list string :=
  split_from sep maxsplit "" s.

Fixpoint split_ws_from (cur s : string) : list string :=
  match s with
  | EmptyString => if is_empty cur then [] else [cur]
  | String c r =>
      if isspace c
      then (if is_empty cur then split_ws_from "" r else cur :: split_ws_from "" r)
      else split_ws_from (snoc cur c) r
  end.

(** [s.split()] *)
Definition split_ws (s : string) : list string := split_ws_from "" s.

(** [s.replace(old, new)] for a one-character [old] *)
Fixpoint replace (old : ascii) (new : string) (s : string) : string :=
  match s with
  | EmptyString => EmptyString
  | String c r =>
      if Ascii.eqb c old then cat new (replace old new r)
      else String c (replace old new r)
  end.

(** [l[i]] for [i >= 0], and [l[-1]] *)
Definition item {A} (l : list A) (i : nat) : result A :=
  match nth_error l i with Some x => Ok x | None => Raise IndexError end.

Definition item_last {A} (l : list A) : result A :=
  match rev l with x :: _ => Ok x | [] => Raise IndexError end.

(** A maximal run of characters satisfying [p], and what follows it. *)
Fixpoint span (p : ascii -> bool) (s : string) : string * string :=
  match s with
  | String c r =>
      if p c then let '(a, b) := span p r in (String c a, b) else (EmptyString, s)
  | EmptyString => (EmptyString, EmptyString)
  end.

End Str.

(** ** Python [float]: IEEE 754 binary64 *)

Module Float.

Definition prec : Z := 53.
Definition emax : Z := 1024.

(** The float nearest to [(-1)^neg * d * 10^k] (ties to even), as the
    literal reader and [float(str)] compute it. *)
Definition of_decimal (neg : bool) (d : Z) (k : Z) : spec_float :=
  match d with
  | Zpos p =>
      if 0 <=? k
      then binary_normalize prec emax (if neg then - (d * 10 ^ k) else d * 10 ^ k) 0 neg
      else
        let '(q, e, l) := SFdiv_core_binary prec emax d 0 (10 ^ (- k)) 0 in
        binary_round_aux prec emax neg q e l
  | _ => S754_zero neg
  end.

(** [float(z)] for an integer [z]. *)
Definition of_Z (z : Z) : spec_float := binary_normalize prec emax z 0 false.

(** The mantissa and exponent of the float of a positive integer of at
    most 53 bits: the integer shifted up to 53 bits. *)
Definition norm (p : positive) : positive * Z :=
  match Z.pos (digits2_pos p) - 53 with
  | Zneg k => (Pos.iter xO p k, Z.pos (digits2_pos p) - 53)
  | _ => (p, 0)
  end.

(** The literals of the sources. *)
Definition f1e3 : spec_float := of_decimal false 1 3.
Definition f1e5 : spec_float := of_decimal false 1 5.
Definition f1e6 : spec_float := of_decimal false 1 6.
Definition f1e8 : spec_float := of_decimal false 1 8.
Definition f1e9 : spec_float := of_decimal false 1 9.

Definition mul (x y : spec_float) : spec_float := SFmul prec emax x y.
Definition abs (x : spec_float) : spec_float := SFabs x.
Definition ltb (x y : spec_float) : bool := SFltb x y.

(** [int(x)]: truncation toward zero; [OverflowError] on an infinity,
    [ValueError] on a NaN. *)
Definition to_int (x : spec_float) : result Z :=
  match x with
  | S754_zero _ => Ok 0
  | S754_infinity _ => Raise OverflowError
  | S754_nan => Raise ValueError
  | S754_finite s m e =>
      let v := if 0 <=? e then Zpos m * 2 ^ e else Zpos m / 2 ^ (- e) in
      Ok (if s then - v else v)
  end.

(** *** [float(str)] *)

Definition digit_val (c : ascii) : Z := Z.of_nat (nat_of_ascii c) - 48.

Fixpoint digits_val (acc : Z) (s : string) : Z :=
  match s with
  | String c r => digits_val (10 * acc + digit_val c) r
  | EmptyString => acc
  end.

(** After a first digit: more digits, each optionally preceded by one
    underscore. Returns the digits read and the unread rest. *)
Fixpoint digits_tail (s : string) : string * string :=
  match s with
  | String c r =>
      if Str.isdigit c then let '(d, r') := digits_tail r in (String c d, r')
      else if Ascii.eqb c "_" then
        match r with
        | String c2 r2 =>
            if Str.isdigit c2
            then let '(d, r') := digits_tail r2 in (String c2 d, r')
            else (EmptyString, s)
        | EmptyString => (EmptyString, s)
        end
      else (EmptyString, s)
  | EmptyString => (EmptyString, EmptyString)
  end.

(** [digitpart ::= digit (["_"] digit)*] *)
Definition digitpart (s : string) : option (string * string) :=
  match s with
  | String c r =>
      if Str.isdigit c then let '(d, r') := digits_tail r in Some (String c d, r')
      else None
  | EmptyString => None
  end.

Definition sign_of (s : string) : bool * string :=
  match s with
  | String "-" r => (true, r)
  | String "+" r => (false, r)
  | _ => (false, s)
  end.

Definition lower (c : ascii) : ascii :=
  if Str.in_range 65 90 c then ascii_of_nat (nat_of_ascii c + 32) else c.

Fixpoint lowercase (s : string) : string :=
  match s with
  | String c r => String (lower c) (lowercase r)
  | EmptyString => EmptyString
  end.

(** The optional exponent part; [None] when an [e] is not followed by a
    well-formed exponent. *)
Definition exponent (s : string) : option (Z * string) :=
  match s with
  | String c r =>
      if (Ascii.eqb c "e" || Ascii.eqb c "E")%bool then
        let '(neg, r1) := sign_of r in
        match digitpart r1 with
        | Some (ds, r2) =>
            let v := digits_val 0 ds in Some (if neg then - v else v, r2)
        | None => None
        end
      else Some (0, s)
  | EmptyString => Some (0, s)
  end.

(** The mantissa [int "." frac], either part possibly absent but not
    both: the digits of both parts and the unread rest. *)
Definition mantissa (s : string) : option (string * string * string) :=
  match digitpart s with
  | Some (ip, String "." r) =>
      match digitpart r with
      | Some (fp, r') => Some (ip, fp, r')
      | None => Some (ip, EmptyString, r)
      end
  | Some (ip, r) => Some (ip, EmptyString, r)
  | None =>
      match s with
      | String "." r =>
          match digitpart r with
          | Some (fp, r') => Some (EmptyString, fp, r')
          | None => None
          end
      | _ => None
      end
  end.

(** The blanks [float] skips around its argument: the ASCII ones of C
    ([isspace]) and the non-ASCII Unicode ones. *)
Definition isblank (c : ascii) : bool :=
  Str.in_range 9 13 c || Str.in_range 32 32 c || Str.in_range 133 133 c
  || Str.in_range 160 160 c.

(** [float(s)] for a string [s]. *)
Definition of_string (s : string) : result spec_float :=
  let '(neg, body) := sign_of (Str.rstrip_by isblank (Str.lstrip_by isblank s)) in
  let word := lowercase body in
  if (String.eqb word "inf" || String.eqb word "infinity")%bool
  then Ok (S754_infinity neg)
  else if String.eqb word "nan" then Ok S754_nan
  else
    match mantissa body with
    | Some (ip, fp, r) =>
        match exponent r with
        | Some (ex, EmptyString) =>
            Ok (of_decimal neg (digits_val 0 (Str.cat ip fp))
                  (ex - Z.of_nat (String.length fp)))
        | _ => Raise ValueError
        end
    | None => Raise ValueError
    end.

(** [int(float(text) * 1e9)], the conversion every probe of
    [driftMonitorDual.py] and [driftMonitor.py] applies. *)
Definition seconds_to_ns (skew_s : spec_float) : result Z :=
  to_int (mul skew_s f1e9).

End Float.

(** ** Python values that cross the JSON boundary *)

#[local] Set Warnings "-register-all".

Inductive pyval :=
| VNone
| VBool (b : bool)
| VInt (z : Z)
| VFloat (f : spec_float)
| VStr (s : string)
| VList (l : list pyval)
| VDict (d : list (string * pyval)).

Module Dict.

Fixpoint lookup (d : list (string * pyval)) (key : string) : option pyval :=
  match d with
  | (k, v) :: rest => if String.eqb k key then Some v else lookup rest key
  | [] => None
  end.

(** Assignment keeps the position of a key already present and appends
    a new key at the end, as a Python [dict] does. *)
Fixpoint update (d : list (string * pyval)) (key : string) (v : pyval)
  : list (string * pyval) :=
  match d with
  | (k, v0) :: rest =>
      if String.eqb k key then (k, v) :: rest else (k, v0) :: update rest key v
  | [] => [(key, v)]
  end.

(** A pair read before the pairs of [d]: a later pair with the same key
    wins and keeps the earlier position. *)
Definition update_front (key : string) (v : pyval) (d : list (string * pyval))
  : list (string * pyval) :=
  match lookup d key with
  | Some v' => (key, v') :: filter (fun kv => negb (String.eqb (fst kv) key)) d
  | None => (key, v) :: d
  end.

(** [obj.get(key, default)]: only a [dict] has the method. *)
Definition get (obj : pyval) (key : string) (default : pyval) : result pyval :=
  match obj with
  | VDict d => Ok (match lookup d key with Some v => v | None => default end)
  | _ => Raise AttributeError
  end.

(** [obj[key] = v] *)
Definition setitem (obj : pyval) (key : string) (v : pyval) : result pyval :=
  match obj with
  | VDict d => Ok (VDict (update d key v))
  | _ => Raise TypeError
  end.

End Dict.

(** ** The memo file and its temporary sibling

    [LOG_DIR] exists (every variant creates it at start-up), so
    [os.makedirs(LOG_DIR, exist_ok=True)] does nothing. A file is absent,
    present with a text, or present but not readable by the process;
    [writable] tells whether the process may create, truncate and rename
    files in [LOG_DIR].

    The text of a file is what [open] of the variant that reads it makes
    of its bytes: [driftMonitor.py] opens the memo without [encoding=]
    and decodes with the encoding of the locale, the other variants
    decode UTF-8. The readings agree on ASCII, which is all that
    [json.dump] writes; a [disk] is the disk as the variant at hand reads
    it. *)

Inductive path := MEMO_FILE | MEMO_TMP.

Inductive file :=
| Absent
| Present (text : string)
| Unreadable.

Record disk := {
  memo_json : file;
  memo_tmp : file;
  writable : bool
}.

Definition get_file (d : disk) (p : path) : file :=
  match p with MEMO_FILE => memo_json d | MEMO_TMP => memo_tmp d end.

Definition set_file (d : disk) (p : path) (f : file) : disk :=
  match p with
  | MEMO_FILE => {| memo_json := f; memo_tmp := memo_tmp d; writable := writable d |}
  | MEMO_TMP => {| memo_json := memo_json d; memo_tmp := f; writable := writable d |}
  end.

(** [os.path.exists(p)] *)
Definition exists_ (d : disk) (p : path) : bool :=
  match get_file d p with Absent => false | _ => true end.

(** [open(p, "r").read()] *)
Definition read_text (d : disk) (p : path) : result string :=
  match get_file d p with
  | Present t => Ok t
  | Absent => Raise (OSError "No such file or directory")
  | Unreadable => Raise (OSError "Permission denied")
  end.

(** The steps a write is made of. [OpenW] creates or truncates, [Put]
    appends one character to an open file, [Replace] is [os.replace]. A
    process that is stopped has performed a prefix of its steps. *)
Inductive fs_op :=
| OpenW (p : path)
| Put (p : path) (c : ascii)
| Replace (src dst : path).

Definition exec_op (o : fs_op) (d : disk) : result disk :=
  match o with
  | OpenW p =>
      if writable d then Ok (set_file d p (Present ""))
      else Raise (OSError "Permission denied")
  | Put p c =>
      match get_file d p with
      | Present t => Ok (set_file d p (Present (Str.snoc t c)))
      | _ => Raise (OSError "Bad file descriptor")
      end
  | Replace src dst =>
      if writable d then
        match get_file d src with
        | Absent => Raise (OSError "No such file or directory")
        | f => Ok (set_file (set_file d dst f) src Absent)
        end
      else Raise (OSError "Permission denied")
  end.

(** Runs the steps in order and stops at the first one that raises. *)
Fixpoint exec_ops (ops : list fs_op) (d : disk) : disk * option exn :=
  match ops with
  | [] => (d, None)
  | o :: rest =>
      match exec_op o d with
      | Ok d' => exec_ops rest d'
      | Raise e => (d, Some e)
      end
  end.

(** [f.write(text)] *)
Definition write_text (p : path) (text : string) : list fs_op :=
  map (Put p) (list_ascii_of_string text).

(** [with open(p, "w") as f: json.dump(v, f)], [text] being the dump *)
Definition write_in_place (p : path) (text : string) : list fs_op :=
  OpenW p :: write_text p text.

(** The same into [tmp], then [os.replace(tmp, p)] *)
Definition write_replace (tmp p : path) (text : string) : list fs_op :=
  write_in_place tmp text ++ [Replace tmp p].

(** The disk a process leaves behind when it is stopped after [k] of the
    steps [ops]. *)
Definition interrupted (k : nat) (ops : list fs_op) (d : disk) : disk :=
  fst (exec_ops (firstn k ops) d).

(** A step that leaves the memo file alone. *)
Definition spares_memo (o : fs_op) : bool :=
  match o with
  | OpenW MEMO_TMP | Put MEMO_TMP _ => true
  | _ => false
  end.

(** ** What a run does, in order *)

Inductive arg :=
| AVal (v : pyval)
| AExn (e : exn).

(** [Log msg args]: one [log(...)] call; [msg] is the message with [{}]
    where a non-string value is interpolated, [args] these values (the
    time stamp in front is left out). *)
Inductive event :=
| Spawn (cmd : string) (timeout : option Z)
| Log (msg : string) (args : list arg)
| Draw (history : list Z)
| Sleep (seconds : Z).

(** What a subprocess does: it completes with its two decoded streams,
    exceeds the timeout, or cannot be run. *)
Inductive outcome :=
| Completed (out err : string)
| TimedOut
| Failed (e : exn).

(** The collaborators of a dispatcher: the [json] module,
    [platform.system()], [shutil.which] (is the tool on the path?), the
    shell, and the terminal. [shell n cmd timeout] is the outcome of the
    [n]-th subprocess of the run; [columns] is
    [shutil.get_terminal_size((80, 20)).columns]. *)
Record env := {
  json_loads : string -> result pyval;
  json_dumps : pyval -> string;
  system : string;
  which : string -> bool;
  shell : nat -> string -> option Z -> outcome;
  columns : Z
}.

Definition IS_WINDOWS (E : env) : bool := String.eqb (system E) "Windows".

Record world := {
  files : disk;
  memo : pyval;
  skew_history : list Z;
  trace : list event;
  spawned : nat
}.

(** ** State and exceptions *)

Definition M (A : Type) : Type := world -> result A * world.

Definition ret {A} (a : A) : M A := fun w => (Ok a, w).

Definition raise {A} (e : exn) : M A := fun w => (Raise e, w).

Definition bindM {A B} (c : M A) (k : A -> M B) : M B :=
  fun w => match c w with
           | (Ok a, w') => k a w'
           | (Raise e, w') => (Raise e, w')
           end.

Notation "x <- c ;; k" := (bindM c (fun x => k))
  (at level 61, c at next level, right associativity).
Notation "c ;;; k" := (bindM c (fun _ => k))
  (at level 61, right associativity).

(** [try: body / except Exception as e: handler e] *)
Definition try_except {A} (body : M A) (handler : exn -> M A) : M A :=
  fun w => match body w with
           | (Ok a, w') => (Ok a, w')
           | (Raise e, w') => handler e w'
           end.

Definition lift {A} (r : result A) : M A := fun w => (r, w).

(** [w] after the events [evs], [k] of which started a subprocess. *)
Definition and_then (w : world) (evs : list event) (k : nat) : world :=
  {| files := files w; memo := memo w; skew_history := skew_history w;
     trace := trace w ++ evs; spawned := (k + spawned w)%nat |}.

Definition emit (ev : event) : M unit :=
  fun w => (Ok tt, and_then w [ev] 0).

Definition get_disk : M disk := fun w => (Ok (files w), w).

Definition put_disk (d : disk) : M unit :=
  fun w => (Ok tt, {| files := d; memo := memo w;
                      skew_history := skew_history w;
                      trace := trace w; spawned := spawned w |}).

Definition get_memo : M pyval := fun w => (Ok (memo w), w).

Definition put_memo (m : pyval) : M unit :=
  fun w => (Ok tt, {| files := files w; memo := m;
                      skew_history := skew_history w;
                      trace := trace w; spawned := spawned w |}).

Definition get_history : M (list Z) := fun w => (Ok (skew_history w), w).

Definition put_history (h : list Z) : M unit :=
  fun w => (Ok tt, {| files := files w; memo := memo w;
                      skew_history := h;
                      trace := trace w; spawned := spawned w |}).

(** Starts the next subprocess and waits for what the shell makes of it. *)
Definition spawn (E : env) (cmd : string) (timeout : option Z) : M (string * string) :=
  fun w =>
    let w' := and_then w [Spawn cmd timeout] 1 in
    match shell E (spawned w) cmd timeout with
    | Completed out err => (Ok (out, err), w')
    | TimedOut => (Raise TimeoutError, w')
    | Failed e => (Raise e, w')
    end.

(** Performs file steps; the first failing step raises. *)
Definition perform (ops : list fs_op) : M unit :=
  fun w =>
    let '(d, r) := exec_ops ops (files w) in
    let w' := {| files := d; memo := memo w;
                 skew_history := skew_history w;
                 trace := trace w; spawned := spawned w |} in
    match r with
    | None => (Ok tt, w')
    | Some e => (Raise e, w')
    end.

(** [log(msg)] over its sinks. [log] prints the line and appends it to
    [status.log] ([os.makedirs], [open], [write]), outside any [try] of
    its own: [sink w] tells what becomes of a line in the state [w], [Ok]
    when it is printed and appended, and the exception otherwise, which
    [log] then raises into its caller. *)
Definition log_to (sink : world -> result unit) (msg : string) (args : list arg)
  : M unit :=
  fun w => match sink w with
           | Ok _ => emit (Log msg args) w
           | Raise e => (Raise e, w)
           end.

(** The sinks that take every line. *)
Definition accepting : world -> result unit := fun _ => Ok tt.

(** [log(msg)] where the console and the status log take every line,
    [log_to accepting]: a dispatcher that cannot write its log stops at
    the first line of [main]. The definitions below are over this [log];
    [Dual.WithLog] has [run_cmd] and [load_memo] of [driftMonitorDual.py],
    whose handlers call [log], over any other. *)
Definition log (msg : string) (args : list arg) : M unit := emit (Log msg args).

Definition nonempty (s : string) : bool := negb (Str.is_empty s).

(** ** The three decision bands *)

Inductive Decision := NoAction | SmallAdjust | ForceStep.

(** ** [collections.deque(maxlen=n)] *)

Module Deque.

  (** [d.append(x)]: the new item goes to the right end; when the deque
    is then longer than [maxlen], one item is dropped from the left. *)
Definition append {A} (maxlen : nat) (d : list A) (x : A) : list A :=
  let d' := d ++ [x] in
  if (maxlen <? List.length d')%nat then tl d' else d'.

  (** A run of appends, oldest first. *)
Definition extend {A} (maxlen : nat) (d : list A) (xs : list A) : list A :=
  fold_left (append maxlen) xs d.

  (** The last [n] items of a list. *)
Definition lastn {A} (n : nat) (l : list A) : list A :=
  skipn (List.length l - n) l.

End Deque.

(** The state a process starts in on the disk [d]. *)
Definition fresh (d : disk) : world :=
  {| files := d; memo := VNone; skew_history := []; trace := []; spawned := O |}.

(** A process either is refused at start-up, with an exit status and a
    message, or runs. *)
Inductive run :=
| Refused (status : Z) (message : string)
| Ran (r : result unit) (w : world).

(** ** The band of a skew, as the [if]/[elif]/[else] chains of
    [driftMonitorDual.py] compute it on integers *)

Definition band (threshold abs_skew : Z) : Decision :=
  if (threshold <? abs_skew) && (abs_skew <? 1000000) then SmallAdjust
  else if (100000000 <? abs_skew) && (abs_skew <? 1000000000) then ForceStep
  else NoAction.

(** The same chain on floats, as [dispatchService.py] and
    [dispatcher.py] compute it. *)
Definition band_float (threshold abs_skew : spec_float) : Decision :=
  if (Float.ltb threshold abs_skew && Float.ltb abs_skew Float.f1e6)%bool then SmallAdjust
  else if (Float.ltb Float.f1e8 abs_skew && Float.ltb abs_skew Float.f1e9)%bool then ForceStep
  else NoAction.

(** ** [argparse]: [--mode] with [choices] and a default

    [parse_args] ends the process with status 2 and an error on the
    standard error stream when the value given for [--mode] is not one of
    the choices; without the option the default holds. [given] is the
    value found on the command line, if any. *)

Inductive startup :=
| Started (MODE : string)
| Exited (status : Z) (message : string).

Definition parse_mode (choices : list string) (default : string)
  (given : option string) : startup :=
  match given with
  | None => Started default
  | Some v =>
      if existsb (String.eqb v) choices then Started v
      else Exited 2 (Str.cat "argument --mode: invalid choice: " v)
  end.

(* ===================================================================== *)
(** * [ToDo/driftMonitorDual.py]                                          *)
(* ===================================================================== *)

(** The file ends in a line that holds a markdown fence (line 447),
    which the interpreter refuses before it runs anything; the module
    embeds the file without that line. *)
Module Dual.

Definition MODE_of (given : option string) : startup :=
  parse_mode ["fast"; "ultrafast"; "lazy"] "fast" given.

Definition CHECK_INTERVAL (MODE : string) : Z :=
  if String.eqb MODE "ultrafast" then 1
  else if String.eqb MODE "lazy" then 300
  else 60.

Definition PRECISION_THRESHOLD_NS (MODE : string) : Z :=
  if String.eqb MODE "ultrafast" then 1000
  else if String.eqb MODE "lazy" then 1000000
  else 100000.

Definition HISTORY_LEN : nat := 80.

(** [run_cmd] and [load_memo] over the [log] they call. A [log] that
    raises inside the [try] of [run_cmd] is caught by its
    [except Exception]; the [log] of a handler is under no [try], and
    what it raises leaves the function. *)
Module WithLog.

Section Program.
Variable E : env.
Variable log : string -> list arg -> M unit.

Definition run_cmd (cmd : string) (timeout : option Z) : M string :=
  try_except
    (oe <- spawn E cmd timeout ;;
     let out_s := Str.strip (fst oe) in
     let err_s := Str.strip (snd oe) in
     (if nonempty err_s
      then log (Str.cat "[CMD-ERR] " (Str.cat cmd (Str.cat " => " err_s))) []
      else ret tt) ;;;
     ret out_s)
    (fun e =>
       match e with
       | TimeoutError =>
           log (Str.cat "[CMD-ERR] Timeout running: " cmd) [] ;;; ret ""
       | _ =>
           log (Str.cat "[CMD-ERR] Exception running: " (Str.cat cmd " => {}")) [AExn e] ;;;
           ret ""
       end).

Definition load_memo : M pyval :=
  loaded <- try_except
    (d <- get_disk ;;
     if exists_ d MEMO_FILE then
       text <- lift (read_text d MEMO_FILE) ;;
       v <- lift (json_loads E text) ;;
       ret (Some v)
     else ret None)
    (fun e => log "[WARN] Could not load memo: {}" [AExn e] ;;; ret None) ;;
  match loaded with
  | Some v => ret v
  | None => ret (VDict [])
  end.

End Program.

End WithLog.

Section Program.
Variable E : env.
Variable MODE : string.

Definition run_cmd (cmd : string) (timeout : option Z) : M string :=
  WithLog.run_cmd E log cmd timeout.

Definition load_memo : M pyval := WithLog.load_memo E log.

(** The file steps of [save_memo]: write [tmp], then replace. *)
Definition save_memo_steps (d : pyval) : list fs_op :=
  write_replace MEMO_TMP MEMO_FILE (json_dumps E d).

Definition save_memo (d : pyval) : M unit :=
  try_except
    (perform (save_memo_steps d))
    (fun e => log "[WARN] Could not save memo: {}" [AExn e]).

(** The [try] block of [measure_skew_windows_stripchart] on the chosen
    line: the field after the first comma, without its unit, in ns. *)
Definition stripchart_line (last : string) : option Z :=
  match
    (let* field := Str.item (Str.split "," (Some 1%nat) last) 1 in
     let parts := Str.strip field in
     let secs_text := Str.strip (Str.rstrip_char "s" parts) in
     let* skew_s := Float.of_string secs_text in
     Float.seconds_to_ns skew_s)
  with
  | Ok skew_ns => Some skew_ns
  | Raise _ => None
  end.

(** What [measure_skew_windows_stripchart] makes of the text [run_cmd]
    returned. *)
Definition stripchart_sample (out : string) : option Z :=
  if negb (nonempty out) then None
  else
    let lines := map Str.strip (filter (Str.contains ",") (Str.splitlines out)) in
    match rev lines with
    | [] => None
    | last :: _ => stripchart_line last
    end.

Definition measure_skew_windows_stripchart : M (option Z) :=
  out <- run_cmd "w32tm /stripchart /computer:time.windows.com /dataonly /samples:1"
           (Some 10) ;;
  ret (stripchart_sample out).

(** [re.search(r"([-+]?\d+\.\d+)\s*s", line)]: group 1 of a match that
    starts at the head of [s]. Every quantifier of the pattern is followed
    by a character it cannot match, so the greedy match is the only one. *)
Definition offset_match_here (s : string) : option string :=
  let '(sign, s1) :=
    match s with
    | String "-" r => ("-", r)
    | String "+" r => ("+", r)
    | _ => ("", s)
    end in
  let '(d1, s2) := Str.span Str.isdigit s1 in
  match s2 with
  | String "." s3 =>
      let '(d2, s4) := Str.span Str.isdigit s3 in
      match Str.lstrip_by Str.isspace s4 with
      | String "s" _ =>
          if (nonempty d1 && nonempty d2)%bool
          then Some (Str.cat sign (Str.cat d1 (Str.cat "." d2)))
          else None
      | _ => None
      end
  | _ => None
  end.

(** The leftmost match. *)
Fixpoint offset_search (s : string) : option string :=
  match offset_match_here s with
  | Some g => Some g
  | None =>
      match s with
      | String _ r => offset_search r
      | EmptyString => None
      end
  end.

Fixpoint status_scan (lines : list string) : result (option Z) :=
  match lines with
  | [] => Ok None
  | line :: rest =>
      if (Str.contains "Offset" line || Str.contains "Local Clock" line)%bool then
        match offset_search line with
        | Some g =>
            match (let* skew_s := Float.of_string g in Float.seconds_to_ns skew_s) with
            | Ok n => Ok (Some n)
            | Raise e => if is_ValueError e then status_scan rest else Raise e
            end
        | None => status_scan rest
        end
      else status_scan rest
  end.

Definition status_sample (out : string) : result (option Z) :=
  if negb (nonempty out) then Ok None else status_scan (Str.splitlines out).

Definition measure_skew_windows_status : M (option Z) :=
  out <- run_cmd "w32tm /query /status" (Some 6) ;;
  lift (status_sample out).

Definition measure_skew_windows : M (option Z) :=
  ns <- measure_skew_windows_stripchart ;;
  match ns with
  | Some _ => ret ns
  | None => measure_skew_windows_status
  end.

(** The [try] block of [measure_skew_chrony] on a [Last offset] line. *)
Definition chrony_line (line : string) : option Z :=
  match
    (let* field := Str.item (Str.split ":" (Some 1%nat) line) 1 in
     let* value := Str.item (Str.split_ws (Str.strip field)) 0 in
     let* skew_s := Float.of_string value in
     Float.seconds_to_ns skew_s)
  with
  | Ok n => Some n
  | Raise _ => None
  end.

(** [for line in ...: if "Last offset" in line: return ...] *)
Fixpoint chrony_scan (lines : list string) : option Z :=
  match lines with
  | [] => None
  | line :: rest =>
      if Str.contains "Last offset" line then chrony_line line
      else chrony_scan rest
  end.

Definition chrony_sample (out : string) : option Z :=
  if negb (nonempty out) then None else chrony_scan (Str.splitlines out).

Definition measure_skew_chrony : M (option Z) :=
  out <- run_cmd "chronyc tracking" (Some 6) ;;
  ret (chrony_sample out).

Definition ntpd_token (token : string) : option Z :=
  match
    (let* field := Str.item (Str.split "=" (Some 1%nat) token) 1 in
     let* skew_s := Float.of_string field in
     Float.seconds_to_ns skew_s)
  with
  | Ok n => Some n
  | Raise _ => None
  end.

Fixpoint ntpd_scan (tokens : list string) : option Z :=
  match tokens with
  | [] => None
  | token :: rest =>
      if Str.startswith "offset=" token then ntpd_token token
      else ntpd_scan rest
  end.

Definition ntpd_sample (out : string) : option Z :=
  if negb (nonempty out) then None
  else ntpd_scan (Str.split_ws (Str.replace "," " " out)).

Definition measure_skew_ntpd : M (option Z) :=
  out <- run_cmd "ntpq -c rv" (Some 6) ;;
  ret (ntpd_sample out).

Definition apply_windows_small : M unit :=
  run_cmd "w32tm /resync /nowait" (Some 15) ;;;
  log "[ACTION] w32tm /resync /nowait issued (small adjustment)" [].

Definition apply_windows_force : M unit :=
  run_cmd "w32tm /resync /force" (Some 15) ;;;
  log "[ACTION] w32tm /resync /force issued (forced step)" [].

Definition apply_chrony_small : M unit :=
  run_cmd "chronyc makestep 0.001 3" (Some 15) ;;;
  log "[ACTION] chronyc makestep 0.001 3 issued (small adjustment)" [].

Definition apply_chrony_force : M unit :=
  run_cmd "chronyc makestep" (Some 15) ;;;
  log "[ACTION] chronyc makestep issued (forced step)" [].

(** [last = memo.get(...)], [memo[...] = skew_ns], [save_memo(memo)],
    [skew_history.append(skew_ns)] on the module's memo, as
    [drift_check_and_correct_unix] has them; returns [last]. *)
Definition memoize (skew_ns : Z) : M pyval :=
  m <- get_memo ;;
  last <- lift (Dict.get m "last_skew_ns" (VInt 0)) ;;
  m' <- lift (Dict.setitem m "last_skew_ns" (VInt skew_ns)) ;;
  put_memo m' ;;;
  save_memo m' ;;;
  h <- get_history ;;
  put_history (Deque.append HISTORY_LEN h skew_ns) ;;;
  ret last.

(** A local variable: its value, and [UnboundLocalError] when it is read
    before it is assigned. *)
Definition local {A} (v : option A) : M A :=
  lift (match v with Some a => Ok a | None => Raise UnboundLocalError end).

(** In this function [memo] is a local variable: the assignment
    expression of [save_memo(memo := memo)] binds the name in the
    function, so that every [memo] of the body is the local, and the
    first one, in [memo.get], is read before any assignment. The module's
    memo is not reached. *)
Definition drift_check_and_correct_windows : M (option Z) :=
  skew <- measure_skew_windows ;;
  match skew with
  | None => log "[WARN] Could not measure skew on Windows" [] ;;; ret None
  | Some skew_ns =>
      m <- local None ;;
      last <- lift (Dict.get m "last_skew_ns" (VInt 0)) ;;
      m' <- lift (Dict.setitem m "last_skew_ns" (VInt skew_ns)) ;;
      save_memo m' ;;;
      h <- get_history ;;
      put_history (Deque.append HISTORY_LEN h skew_ns) ;;;
      log "[MEASURE] Windows skew = {} ns (previous {} ns)"
          [AVal (VInt skew_ns); AVal last] ;;;
      match band (PRECISION_THRESHOLD_NS MODE) (Z.abs skew_ns) with
      | SmallAdjust => apply_windows_small
      | ForceStep => apply_windows_force
      | NoAction =>
          log "[DECISION] No adjustment required for Windows (skew within negligible range)" []
      end ;;;
      ret (Some skew_ns)
  end.

Definition drift_check_and_correct_unix : M (option Z) :=
  if which E "chronyc" then
    skew <- measure_skew_chrony ;;
    match skew with
    | None => log "[WARN] Could not parse skew from Unix tool output" [] ;;; ret None
    | Some skew_ns =>
        last <- memoize skew_ns ;;
        log "[MEASURE] chrony skew = {} ns (previous {} ns)"
            [AVal (VInt skew_ns); AVal last] ;;;
        match band (PRECISION_THRESHOLD_NS MODE) (Z.abs skew_ns) with
        | SmallAdjust => apply_chrony_small
        | ForceStep => apply_chrony_force
        | NoAction =>
            log "[DECISION] No adjustment required for Unix (skew within negligible range)" []
        end ;;;
        ret (Some skew_ns)
    end
  else if which E "ntpq" then
    skew <- measure_skew_ntpd ;;
    match skew with
    | None => log "[WARN] Could not parse skew from Unix tool output" [] ;;; ret None
    | Some skew_ns =>
        last <- memoize skew_ns ;;
        log "[MEASURE] ntpd skew = {} ns (previous {} ns)"
            [AVal (VInt skew_ns); AVal last] ;;;
        match band (PRECISION_THRESHOLD_NS MODE) (Z.abs skew_ns) with
        | SmallAdjust =>
            run_cmd "sudo ntpdate -u pool.ntp.org || true" (Some 15) ;;;
            log "[ACTION] ntpdate attempted for small skew" []
        | ForceStep =>
            run_cmd "sudo ntpdate -u pool.ntp.org || true" (Some 15) ;;;
            log "[ACTION] ntpdate attempted for large skew" []
        | NoAction =>
            log "[DECISION] No adjustment required for Unix (skew within negligible range)" []
        end ;;;
        ret (Some skew_ns)
    end
  else
    log "[WARN] No chronyc or ntpq available to measure skew" [] ;;; ret None.

(** One measure/correct pass on the platform of the run. *)
Definition cycle : M (option Z) :=
  if IS_WINDOWS E then drift_check_and_correct_windows
  else drift_check_and_correct_unix.

(** [draw_tui()]: the frame is drawn from the history. The graph of this
    file, [Graph.render_graph], divides by a width of at least 9 columns
    and is taken to be drawn. *)
Definition draw_tui : M unit :=
  h <- get_history ;; emit (Draw h).

(** [while True: ...]: the loop has no exit of its own; [n] is the number
    of rounds completed before the process is interrupted. *)
Fixpoint ultrafast_loop_rounds (n : nat) : M unit :=
  match n with
  | O => ret tt
  | S n' =>
      cycle ;;;
      draw_tui ;;;
      emit (Sleep (CHECK_INTERVAL MODE)) ;;;
      ultrafast_loop_rounds n'
  end.

Definition ultrafast_loop (n : nat) : M unit :=
  log "[ULTRAFAST] Entering continuous monitoring loop..." [] ;;;
  ultrafast_loop_rounds n.

Definition one_shot_run : M unit :=
  log (Str.cat "[ONE-SHOT] Running one-shot check (mode=" (Str.cat MODE ")")) [] ;;;
  cycle ;;;
  log "[ONE-SHOT] Completed" [].

Definition main (n : nat) : M unit :=
  log (Str.cat "Starting dispatchTUI on "
         (Str.cat (system E) (Str.cat " | Mode=" MODE))) [] ;;;
  h <- get_history ;;
  (match h with
   | [] => put_history (Deque.extend HISTORY_LEN h [0; 0; 0; 0])
   | _ => ret tt
   end) ;;;
  if String.eqb MODE "ultrafast" then ultrafast_loop n else one_shot_run.

(** The module body ([memo = load_memo()]), then [main()]. *)
Definition script (n : nat) : M unit :=
  m <- load_memo ;;
  put_memo m ;;;
  main n.

End Program.

(** The state after the module body, before [main()]. *)
Definition imported (E : env) (d : disk) : world :=
  snd ((m <- load_memo E ;; put_memo m) (fresh d)).

(** A restart: the memory of the process is lost, the disk stays, and
    the module body loads the memo again. *)
Definition restart (E : env) (w : world) : result pyval * world :=
  load_memo E (fresh (files w)).

End Dual.

(* ===================================================================== *)
(** * A JSON codec to run the programs with                               *)
(* ===================================================================== *)

(** The programs take the [json] module through [env]. [MiniJson] is a
    codec to instantiate it with: [loads] reads JSON texts (with the
    [NaN] and [Infinity] words of Python) whose strings stay below code
    point 256; [dumps] writes what [json.dumps] writes for [None],
    booleans, integers, strings, lists and dicts, and writes a finite
    float with all its decimal digits. *)
Module MiniJson.

Definition digit_char (n : Z) : ascii := ascii_of_nat (Z.to_nat (48 + n)).

(** The decimal digits of [n >= 0], most significant first. *)
Fixpoint digits_of (fuel : nat) (n : Z) (acc : string) : string :=
  match fuel with
  | O => acc
  | S fuel' =>
      let acc' := String (digit_char (n mod 10)) acc in
      if n / 10 =? 0 then acc' else digits_of fuel' (n / 10) acc'
  end.

Definition nat_digits (n : Z) : string :=
  digits_of (S (Z.to_nat (Z.log2 n))) n "".

Definition int_text (z : Z) : string :=
  if z <? 0 then String "-" (nat_digits (- z)) else nat_digits z.

(** [k] fractional digits of [num / 2^e] for [0 <= num < 2^e]. *)
Fixpoint frac_digits (k : nat) (num : Z) (e : Z) : string :=
  match k with
  | O => ""
  | S k' =>
      if num =? 0 then ""
      else String (digit_char ((10 * num) / 2 ^ e))
             (frac_digits k' ((10 * num) mod 2 ^ e) e)
  end.

Definition float_text (x : spec_float) : string :=
  match x with
  | S754_nan => "NaN"
  | S754_infinity s => if s then "-Infinity" else "Infinity"
  | S754_zero s => if s then "-0.0" else "0.0"
  | S754_finite s m e =>
      let sign := if s then "-" else "" in
      if 0 <=? e then Str.cat sign (Str.cat (nat_digits (Zpos m * 2 ^ e)) ".0")
      else
        let ip := Zpos m / 2 ^ (- e) in
        let fp := Zpos m mod 2 ^ (- e) in
        Str.cat sign
          (Str.cat (nat_digits ip)
             (Str.cat "."
                (if fp =? 0 then "0" else frac_digits (Z.to_nat (- e)) fp (- e))))
  end.

Definition hex_char (n : nat) : ascii :=
  if (n <? 10)%nat then ascii_of_nat (48 + n) else ascii_of_nat (87 + n).

Definition escape_char (c : ascii) : string :=
  let n := nat_of_ascii c in
  if Ascii.eqb c "034" then String "\" (String "034" "")
  else if Ascii.eqb c "\" then "\\"
  else if (n =? 10)%nat then "\n"
  else if (n =? 13)%nat then "\r"
  else if (n =? 9)%nat then "\t"
  else if (n =? 8)%nat then "\b"
  else if (n =? 12)%nat then "\f"
  else if ((n <? 32) || (126 <? n))%nat
  then Str.cat "\u00" (String (hex_char (n / 16)) (String (hex_char (n mod 16)) ""))
  else String c "".

Fixpoint escape (s : string) : string :=
  match s with
  | String c r => Str.cat (escape_char c) (escape r)
  | EmptyString => ""
  end.

Definition quote (s : string) : string :=
  String "034" (Str.cat (escape s) (String "034" "")).

Fixpoint dumps (v : pyval) : string :=
  match v with
  | VNone => "null"
  | VBool b => if b then "true" else "false"
  | VInt z => int_text z
  | VFloat f => float_text f
  | VStr s => quote s
  | VList l =>
      Str.cat "["
        (Str.cat
           ((fix items (l : list pyval) : string :=
               match l with
               | [] => ""
               | x :: r =>
                   match r with
                   | [] => dumps x
                   | _ => Str.cat (dumps x) (Str.cat ", " (items r))
                   end
               end) l) "]")
  | VDict d =>
      Str.cat "{"
        (Str.cat
           ((fix members (d : list (string * pyval)) : string :=
               match d with
               | [] => ""
               | (k, x) :: r =>
                   let one := Str.cat (quote k) (Str.cat ": " (dumps x)) in
                   match r with
                   | [] => one
                   | _ => Str.cat one (Str.cat ", " (members r))
                   end
               end) d) "}")
  end.

(** *** Reading *)

Definition is_ws (c : ascii) : bool :=
  let n := nat_of_ascii c in ((n =? 32) || (n =? 9) || (n =? 10) || (n =? 13))%nat.

Definition skip_ws (s : string) : string := Str.lstrip_by is_ws s.

Definition hex_val (c : ascii) : option nat :=
  let n := nat_of_ascii c in
  if Str.in_range 48 57 c then Some (n - 48)%nat
  else if Str.in_range 97 102 c then Some (n - 87)%nat
  else if Str.in_range 65 70 c then Some (n - 55)%nat
  else None.

(** The characters after an opening quote, up to the closing one. *)
Fixpoint string_body (s : string) : option (string * string) :=
  match s with
  | EmptyString => None
  | String c r =>
      if Ascii.eqb c "034" then Some ("", r)
      else if Ascii.eqb c "\" then
        match r with
        | String "u" (String a (String b (String c1 (String c2 r')))) =>
            match hex_val a, hex_val b, hex_val c1, hex_val c2 with
            | Some 0%nat, Some 0%nat, Some h, Some l =>
                match string_body r' with
                | Some (t, rest) => Some (String (ascii_of_nat (16 * h + l)) t, rest)
                | None => None
                end
            | _, _, _, _ => None
            end
        | String e r' =>
            let plain (x : ascii) :=
              match string_body r' with
              | Some (t, rest) => Some (String x t, rest)
              | None => None
              end in
            if Ascii.eqb e "034" then plain "034"%char
            else if Ascii.eqb e "\" then plain "\"%char
            else if Ascii.eqb e "/" then plain "/"%char
            else if Ascii.eqb e "n" then plain "010"%char
            else if Ascii.eqb e "r" then plain "013"%char
            else if Ascii.eqb e "t" then plain "009"%char
            else if Ascii.eqb e "b" then plain "008"%char
            else if Ascii.eqb e "f" then plain "012"%char
            else None
        | EmptyString => None
        end
      else if (nat_of_ascii c <? 32)%nat then None
      else
        match string_body r with
        | Some (t, rest) => Some (String c t, rest)
        | None => None
        end
  end.

(** A number: an optional minus sign, then [0] or a run of digits that
    does not start with [0], then an optional fraction (a point and
    digits) and an optional exponent ([e] or [E], an optional sign and
    digits); an integer when it has neither fraction nor exponent. *)
Definition number (s : string) : option (pyval * string) :=
  let '(neg, s1) := match s with String "-" r => (true, r) | _ => (false, s) end in
  let '(ip, s2) :=
    match s1 with
    | String "0" r => ("0", r)
    | _ => Str.span Str.isdigit s1
    end in
  if Str.is_empty ip then None
  else
    let '(fp, s3) :=
      match s2 with
      | String "." r =>
          let '(d, r') := Str.span Str.isdigit r in
          if Str.is_empty d then ("", s2) else (d, r')
      | _ => ("", s2)
      end in
    let '(ex, s4) :=
      match s3 with
      | String c r =>
          if (Ascii.eqb c "e" || Ascii.eqb c "E")%bool then
            let '(sg, r1) :=
              match r with
              | String "-" r0 => ("-", r0)
              | String "+" r0 => ("+", r0)
              | _ => ("", r)
              end in
            let '(d, r2) := Str.span Str.isdigit r1 in
            if Str.is_empty d then ("", s3)
            else (String c (Str.cat sg d), r2)
          else ("", s3)
      | EmptyString => ("", s3)
      end in
    if (Str.is_empty fp && Str.is_empty ex)%bool
    then Some (VInt (let v := Float.digits_val 0 ip in if neg then - v else v), s4)
    else
      let text := Str.cat (if neg then "-" else "")
                    (Str.cat ip (Str.cat (if Str.is_empty fp then "" else String "." fp) ex)) in
      match Float.of_string text with
      | Ok f => Some (VFloat f, s4)
      | Raise _ => None
      end.

Definition after (word : string) (s : string) : option string :=
  if Str.startswith word s
  then Some (String.substring (String.length word) (String.length s - String.length word) s)
  else None.

Fixpoint value (fuel : nat) (s : string) : option (pyval * string) :=
  match fuel with
  | O => None
  | S fuel' =>
      match s with
      | String "{" r =>
          match skip_ws r with
          | String "}" r' => Some (VDict [], r')
          | r1 =>
              match members fuel' r1 with
              | Some (d, r') => Some (VDict d, r')
              | None => None
              end
          end
      | String "[" r =>
          match skip_ws r with
          | String "]" r' => Some (VList [], r')
          | r1 =>
              match elements fuel' r1 with
              | Some (l, r') => Some (VList l, r')
              | None => None
              end
          end
      | String "034" r =>
          match string_body r with
          | Some (t, r') => Some (VStr t, r')
          | None => None
          end
      | _ =>
          match after "null" s, after "true" s, after "false" s with
          | Some r, _, _ => Some (VNone, r)
          | _, Some r, _ => Some (VBool true, r)
          | _, _, Some r => Some (VBool false, r)
          | _, _, _ =>
              match after "NaN" s, after "Infinity" s, after "-Infinity" s with
              | Some r, _, _ => Some (VFloat S754_nan, r)
              | _, Some r, _ => Some (VFloat (S754_infinity false), r)
              | _, _, Some r => Some (VFloat (S754_infinity true), r)
              | _, _, _ => number s
              end
          end
      end
  end

with elements (fuel : nat) (s : string) : option (list pyval * string) :=
  match fuel with
  | O => None
  | S fuel' =>
      match value fuel' s with
      | Some (x, r) =>
          match skip_ws r with
          | String "," r' =>
              match elements fuel' (skip_ws r') with
              | Some (l, rest) => Some (x :: l, rest)
              | None => None
              end
          | String "]" r' => Some ([x], r')
          | _ => None
          end
      | None => None
      end
  end

with members (fuel : nat) (s : string) : option (list (string * pyval) * string) :=
  match fuel with
  | O => None
  | S fuel' =>
      match s with
      | String "034" r =>
          match string_body r with
          | Some (k, r1) =>
              match skip_ws r1 with
              | String ":" r2 =>
                  match value fuel' (skip_ws r2) with
                  | Some (x, r3) =>
                      match skip_ws r3 with
                      | String "," r4 =>
                          match members fuel' (skip_ws r4) with
                          | Some (d, rest) => Some (Dict.update_front k x d, rest)
                          | None => None
                          end
                      | String "}" r4 => Some ([(k, x)], r4)
                      | _ => None
                      end
                  | None => None
                  end
              | _ => None
              end
          | None => None
          end
      | _ => None
      end
  end.

Definition loads (s : string) : result pyval :=
  match value (S (String.length s)) (skip_ws s) with
  | Some (v, r) => if Str.is_empty (skip_ws r) then Ok v else Raise JSONDecodeError
  | None => Raise JSONDecodeError
  end.

End MiniJson.

(* ===================================================================== *)
(** * The graph of [ToDo/driftMonitorDual.py]                             *)
(* ===================================================================== *)

Module Graph.

(** What a step of [render_graph] gives: a value, or the exception
    Python raises. *)
Inductive outcome (A : Type) :=
| Value (a : A)
| Raises (e : exn)
| RaisesZeroDivisionError.

Arguments Value {A} a.
Arguments Raises {A} e.
Arguments RaisesZeroDivisionError {A}.

Definition and_after {A B} (r : outcome A) (k : A -> outcome B) : outcome B :=
  match r with
  | Value a => k a
  | Raises e => Raises e
  | RaisesZeroDivisionError => RaisesZeroDivisionError
  end.

(** The same as a [result]. *)
Definition to_result {A} (r : outcome A) : result A :=
  match r with
  | Value a => Ok a
  | Raises e => Raise e
  | RaisesZeroDivisionError => Raise ZeroDivisionError
  end.

(** A Python number: [scale] is an [int] or a [float]. *)
Inductive number :=
| Int (z : Z)
| Flt (f : spec_float).

(** A float computed from integers: too large a result is an
    [OverflowError]. *)
Definition finite_or_overflow (f : spec_float) : outcome spec_float :=
  match f with
  | S754_infinity _ => Raises OverflowError
  | _ => Value f
  end.

(** [a / b] on integers: the float nearest to the quotient. *)
Definition truediv_int (a b : Z) : outcome spec_float :=
  if b =? 0 then RaisesZeroDivisionError
  else
    let neg := xorb (a <? 0) (b <? 0) in
    if a =? 0 then Value (S754_zero neg)
    else
      let '(q, e, l) :=
        SFdiv_core_binary Float.prec Float.emax (Z.abs a) 0 (Z.abs b) 0 in
      finite_or_overflow (binary_round_aux Float.prec Float.emax neg q e l).

(** [x / y] on floats. *)
Definition truediv_float (x y : spec_float) : outcome spec_float :=
  match y with
  | S754_zero _ => RaisesZeroDivisionError
  | _ => Value (SFdiv Float.prec Float.emax x y)
  end.

(** [val / scale], [val] being an [int]. *)
Definition truediv (val : Z) (scale : number) : outcome spec_float :=
  match scale with
  | Int z => truediv_int val z
  | Flt f => and_after (finite_or_overflow (Float.of_Z val)) (fun x => truediv_float x f)
  end.

(** [scale <= 0] *)
Definition le_zero (scale : number) : bool :=
  match scale with
  | Int z => z <=? 0
  | Flt f => SFleb f (S754_zero false)
  end.

(** [int(round(x))]: to the nearest integer, ties to the even one. *)
Definition round (x : spec_float) : outcome Z :=
  match x with
  | S754_zero _ => Value 0
  | S754_infinity _ => Raises OverflowError
  | S754_nan => Raises ValueError
  | S754_finite s m e =>
      let v :=
        if 0 <=? e then Z.pos m * 2 ^ e
        else
          let d := 2 ^ (- e) in
          let q := Z.pos m / d in
          let r := Z.pos m mod d in
          if 2 * r <? d then q
          else if d <? 2 * r then q + 1
          else if Z.even q then q else q + 1 in
      Value (if s then - v else v)
  end.

(** [max((abs(x) for x in skew_history), default=1)] *)
Definition max_abs (skew_history : list Z) : Z :=
  match skew_history with
  | [] => 1
  | x :: rest => fold_left Z.max (map Z.abs rest) (Z.abs x)
  end.

Definition plot_w (width : Z) : Z := Z.max 20 (width - 20).

Definition center (width : Z) : Z := plot_w width / 2.

(** [max_abs / (center - 1) if max_abs > 0 else 1] *)
Definition scale (width : Z) (skew_history : list Z) : outcome number :=
  if 0 <? max_abs skew_history
  then and_after (truediv_int (max_abs skew_history) (center width - 1))
         (fun f => Value (Flt f))
  else Value (Int 1).

(** The offset of a sample in columns. *)
Definition offs (scale : number) (val : Z) : outcome Z :=
  if le_zero scale then Value 0
  else and_after (truediv val scale) round.

(** The axis and the right block are the broken bar, U+00A6. *)
Definition bar : ascii := "166"%char.

(** One cell of a row. *)
Definition cell (center offs c : Z) : ascii :=
  let left := center + Z.min offs 0 in
  let right := center + Z.max offs 0 in
  if c =? center then bar
  else if (left <=? c) && (c <? center) && (offs <? 0) then "?"%char
  else if (center <? c) && (c <=? right) && (0 <? offs) then bar
  else " "%char.

(** [range(n)] *)
Definition range (n : Z) : list Z := map Z.of_nat (seq 0 (Z.to_nat n)).

Definition row (width : Z) (offs : Z) : string :=
  string_of_list_ascii (map (cell (center width) offs) (range (plot_w width))).

(** [f"Scale: ±{int(max_abs)} ns (center=0)"] *)
Definition header (skew_history : list Z) : string :=
  Str.cat "Scale: "
    (String "177" (Str.cat (MiniJson.int_text (max_abs skew_history)) " ns (center=0)")).

(** The rows of the samples, in order; the first sample that raises ends
    the loop. *)
Fixpoint rows (width : Z) (scale : number) (samples : list Z) : outcome (list string) :=
  match samples with
  | [] => Value []
  | val :: rest =>
      and_after (offs scale val) (fun o =>
      and_after (rows width scale rest) (fun rs =>
      Value (row width o :: rs)))
  end.

(** [lines[-k:]] *)
Definition last_lines {A} (k : nat) (lines : list A) : list A :=
  match k with
  | O => lines
  | _ => skipn (List.length lines - k) lines
  end.

(** ["\n".join(lines)] *)
Fixpoint join (lines : list string) : string :=
  match lines with
  | [] => ""
  | [l] => l
  | l :: rest => Str.cat l (Str.cat Str.LF (join rest))
  end.

(** [render_graph()], [width] being the columns of the terminal. *)
Definition render_graph (width : Z) (skew_history : list Z) : outcome string :=
  and_after (scale width skew_history) (fun sc =>
  and_after (rows width sc skew_history) (fun rs =>
  let lines := header skew_history :: rs in
  let max_lines := Nat.min 40 (List.length lines) in
  Value (join (last_lines max_lines lines)))).

End Graph.

(* ===================================================================== *)
(** * The graph of [ToDo/driftMonitor.py]                                 *)
(* ===================================================================== *)

(** The glyphs of this graph lie outside Latin-1: its text is kept as a
    list of code points. *)
Module MonitorGraph.

Definition blank : N := 32.
(** U+2502, the axis; U+2584, a positive cell; U+2580, a negative one. *)
Definition axis : N := 9474.
Definition lower_block : N := 9604.
Definition upper_block : N := 9600.

(** [line[i] = x] on a list: a negative index counts from the end. *)
Definition setitem (line : list N) (i : Z) (x : N) : Graph.outcome (list N) :=
  let n := Z.of_nat (List.length line) in
  let j := if i <? 0 then n + i else i in
  if (0 <=? j) && (j <? n)
  then Graph.Value (firstn (Z.to_nat j) line ++ x :: skipn (S (Z.to_nat j)) line)
  else Graph.Raises IndexError.

(** [range(a, b)] *)
Definition range (a b : Z) : list Z :=
  map (fun k => a + Z.of_nat k) (seq 0 (Z.to_nat (b - a))).

(** [for i in indices: line[i] = x] *)
Fixpoint fill (line : list N) (indices : list Z) (x : N) : Graph.outcome (list N) :=
  match indices with
  | [] => Graph.Value line
  | i :: rest => Graph.and_after (setitem line i x) (fun line' => fill line' rest x)
  end.

(** [max([abs(x) for x in skew_history] + [1])] *)
Definition max_val (skew_history : list Z) : Z :=
  fold_left Z.max (map Z.abs skew_history ++ [1]) 0.

(** [max_val / (cols//2)] *)
Definition scale (cols : Z) (skew_history : list Z) : Graph.outcome spec_float :=
  Graph.truediv_int (max_val skew_history) (cols / 2).

(** [int(val / scale) if scale > 0 else 0] *)
Definition offset (scale : spec_float) (val : Z) : Graph.outcome Z :=
  if SFltb (S754_zero false) scale then
    Graph.and_after (Graph.truediv val (Graph.Flt scale)) (fun q =>
    match Float.to_int q with
    | Ok n => Graph.Value n
    | Raise e => Graph.Raises e
    end)
  else Graph.Value 0.

(** The row of an offset. *)
Definition row (cols : Z) (offset : Z) : Graph.outcome (list N) :=
  let center := cols / 2 in
  let line := repeat blank (Z.to_nat cols) in
  Graph.and_after (setitem line center axis) (fun line =>
  if 0 <? offset then
    fill line (range center (Z.min (center + offset) (cols - 1))) lower_block
  else if offset <? 0 then
    fill line (range (center + offset) center) upper_block
  else Graph.Value line).

Fixpoint rows (cols : Z) (scale : spec_float) (samples : list Z)
  : Graph.outcome (list (list N)) :=
  match samples with
  | [] => Graph.Value []
  | val :: rest =>
      Graph.and_after (offset scale val) (fun o =>
      Graph.and_after (row cols o) (fun r =>
      Graph.and_after (rows cols scale rest) (fun rs =>
      Graph.Value (r :: rs))))
  end.

(** ["\n".join(lines)] *)
Fixpoint join (lines : list (list N)) : list N :=
  match lines with
  | [] => []
  | [l] => l
  | l :: rest => l ++ 10%N :: join rest
  end.

(** [render_graph()], [cols] being the columns of the terminal. *)
Definition render_graph (cols : Z) (skew_history : list Z) : Graph.outcome (list N) :=
  Graph.and_after (scale cols skew_history) (fun sc =>
  Graph.and_after (rows cols sc skew_history) (fun rs =>
  Graph.Value (join rs))).

End MonitorGraph.

(* ===================================================================== *)
(** * [ToDo/driftMonitor.py]                                              *)
(* ===================================================================== *)

(** [str(e)]: the message an exception carries. *)
Definition exn_text (e : exn) : string :=
  match e with OSError msg => msg | _ => "" end.

Module Monitor.

(** [MODE], read off [sys.argv] by membership tests. *)
Definition MODE_of (argv : list string) : string :=
  if existsb (String.eqb "--mode=ultrafast") argv then "ultrafast"
  else if existsb (String.eqb "--mode=lazy") argv then "lazy"
  else "fast".

Definition CHECK_INTERVAL (MODE : string) : Z :=
  if String.eqb MODE "ultrafast" then 1
  else if String.eqb MODE "lazy" then 300
  else 30.

Definition HISTORY_LEN : nat := 50.

Section Program.
Variable E : env.
Variable MODE : string.

Definition load_memo : M pyval :=
  d <- get_disk ;;
  if exists_ d MEMO_FILE then
    try_except
      (text <- lift (read_text d MEMO_FILE) ;;
       lift (json_loads E text))
      (fun _ => ret (VDict []))
  else ret (VDict []).

(** The file steps of [save_memo]: the memo file is written in place. *)
Definition save_memo_steps (data : pyval) : list fs_op :=
  write_in_place MEMO_FILE (json_dumps E data).

Definition save_memo (data : pyval) : M unit :=
  perform (save_memo_steps data).

Definition run_cmd (cmd : string) : M string :=
  try_except
    (oe <- spawn E cmd None ;;
     ret (Str.strip (fst oe)))
    (fun e => ret (exn_text e)).

(** The loop over the lines: every [Offset] line that parses overwrites
    [ns]; one that does not is passed over. *)
Fixpoint offset_scan (ns : Z) (lines : list string) : Z :=
  match lines with
  | [] => ns
  | line :: rest =>
      if Str.contains "Offset" line then
        match
          (let* field := Str.item (Str.split ":" None line) 1 in
           let parts := Str.strip field in
           let parts := if Str.contains "s" parts then Str.replace "s" "" parts else parts in
           let* offset_sec := Float.of_string parts in
           Float.seconds_to_ns offset_sec)
        with
        | Ok n => offset_scan n rest
        | Raise _ => offset_scan ns rest
        end
      else offset_scan ns rest
  end.

Definition measure_skew_windows : M Z :=
  out <- run_cmd "w32tm /query /status" ;;
  ret (offset_scan 0 (Str.splitlines out)).

(** The chain of this file: no threshold, no upper bound. *)
Definition band_of (skew_ns : Z) : Decision :=
  if Z.abs skew_ns <? 1000000 then SmallAdjust
  else if 100000000 <? Z.abs skew_ns then ForceStep
  else NoAction.

Definition drift_correction_windows : M unit :=
  skew_ns <- measure_skew_windows ;;
  m <- get_memo ;;
  last_skew <- lift (Dict.get m "last_skew" (VInt 0)) ;;
  h <- get_history ;;
  put_history (Deque.append HISTORY_LEN h skew_ns) ;;;
  log "[INFO] Current skew: {} ns (last: {} ns)" [AVal (VInt skew_ns); AVal last_skew] ;;;
  match band_of skew_ns with
  | SmallAdjust =>
      log "[INFO] Small skew -> gradual resync" [] ;;;
      run_cmd "w32tm /resync /nowait" ;;; ret tt
  | ForceStep =>
      log "[WARN] Large skew -> forced step" [] ;;;
      run_cmd "w32tm /resync /force" ;;; ret tt
  | NoAction => log "[INFO] Skew negligible; no action" []
  end ;;;
  m' <- lift (Dict.setitem m "last_skew" (VInt skew_ns)) ;;
  put_memo m' ;;;
  save_memo m'.

(** [draw_tui()]: the screen is cleared and the header printed, then the
    graph, which [render_graph] makes for the terminal of the run and may
    fail to make; [Draw] is a frame that was drawn. *)
Definition draw_tui : M unit :=
  h <- get_history ;;
  lift (Graph.to_result (MonitorGraph.render_graph (columns E) h)) ;;;
  emit (Draw h).

Definition cycle : M unit :=
  if IS_WINDOWS E then drift_correction_windows else ret tt.

Fixpoint ultrafast_loop (n : nat) : M unit :=
  match n with
  | O => ret tt
  | S n' =>
      cycle ;;;
      draw_tui ;;;
      emit (Sleep (CHECK_INTERVAL MODE)) ;;;
      ultrafast_loop n'
  end.

Definition main (n : nat) : M unit :=
  log (Str.cat "Dispatcher start on " (Str.cat (system E) (Str.cat " | Mode=" MODE))) [] ;;;
  if String.eqb MODE "ultrafast" then ultrafast_loop n
  else cycle ;;; log "Dispatcher complete." [].

Definition script (n : nat) : M unit :=
  m <- load_memo ;;
  put_memo m ;;;
  main n.

End Program.

(** The process started with the command line [argv]. *)
Definition program (E : env) (argv : list string) (n : nat) (d : disk) : run :=
  let '(r, w) := script E (MODE_of argv) n (fresh d) in Ran r w.

Definition restart (E : env) (w : world) : result pyval * world :=
  load_memo E (fresh (files w)).

End Monitor.

(* ===================================================================== *)
(** * [dispatcher.py] and [dispatchService.py]                            *)
(* ===================================================================== *)

(** [f"{v:.0f}"] is defined on numbers only, and formats an [int] as
    the [float] it converts to: an [int] beyond the range of [float] is
    an [OverflowError]. *)
Definition format_f (v : pyval) : result pyval :=
  match v with
  | VInt z =>
      match Float.of_Z z with
      | S754_infinity _ => Raise OverflowError
      | _ => Ok v
      end
  | VFloat _ | VBool _ => Ok v
  | VStr _ => Raise ValueError
  | _ => Raise TypeError
  end.

(** The drift correction the two files share, [threshold] being [1e3] in
    [dispatcher.py] and [PRECISION_THRESHOLD_NS] in [dispatchService.py].
    Service configuration ([windows_config], [unix_config],
    [create_windows_task], [create_windows_service]) is not part of the
    decision engine; it is in [Config]. *)
Module Correction.

Section Program.
Variable E : env.
Variable threshold : spec_float.

Definition run_cmd (cmd : string) : M string :=
  oe <- spawn E cmd None ;;
  let result := Str.strip (fst oe) in
  let err_str := Str.strip (snd oe) in
  (if nonempty err_str
   then log (Str.cat "[CMD-ERR] " (Str.cat cmd (Str.cat " => " err_str))) []
   else ret tt) ;;;
  ret result.

(** The second comma-separated field of a line, in ns. *)
Definition stripchart_line (offset_line : string) : result spec_float :=
  let* field := Str.item (Str.split "," None offset_line) 1 in
  let* skew_s := Float.of_string (Str.replace "s" "" (Str.strip field)) in
  Ok (Float.mul skew_s Float.f1e9).

(** The [try] block of [drift_correction_windows]: the last line with a
    comma. *)
Definition stripchart_skew (output : string) : result spec_float :=
  let* offset_line := Str.item_last (filter (Str.contains ",") (Str.splitlines output)) in
  stripchart_line offset_line.

(** The memo as [drift_correction_windows] reads it: no handler around
    [open] and [json.load]. *)
Definition read_last_skew : M pyval :=
  d <- get_disk ;;
  if exists_ d MEMO_FILE then
    text <- lift (read_text d MEMO_FILE) ;;
    data <- lift (json_loads E text) ;;
    lift (Dict.get data "last_skew_ns" (VInt 0))
  else ret (VInt 0).

(** The file steps of the memo write: in place. *)
Definition write_memo_steps (skew_ns : spec_float) : list fs_op :=
  write_in_place MEMO_FILE (json_dumps E (VDict [("last_skew_ns", VFloat skew_ns)])).

Definition write_memo (skew_ns : spec_float) : M unit :=
  perform (write_memo_steps skew_ns).

Definition drift_correction_windows : M unit :=
  log "[INFO] Checking clock skew for high-precision adjustment..." [] ;;;
  output <- run_cmd "w32tm /stripchart /computer:time.windows.com /dataonly /samples:1" ;;
  skew <- match stripchart_skew output with
          | Ok x => ret (Some x)
          | Raise _ =>
              log "[WARN] Could not parse skew, defaulting to forced resync" [] ;;;
              ret None
          end ;;
  last_skew_ns <- read_last_skew ;;
  match skew with
  | None => ret tt
  | Some skew_ns =>
      shown <- lift (format_f last_skew_ns) ;;
      log "[INFO] Current skew: {} ns (last: {} ns)" [AVal (VFloat skew_ns); AVal shown] ;;;
      match band_float threshold (Float.abs skew_ns) with
      | SmallAdjust =>
          run_cmd "w32tm /resync /nowait" ;;;
          log "[INFO] Applied precise incremental resync for small skew" []
      | ForceStep =>
          run_cmd "w32tm /resync /force" ;;;
          log "[INFO] Applied forced resync for large skew" []
      | NoAction => log "[INFO] Skew negligible; no adjustment needed" []
      end ;;;
      write_memo skew_ns
  end.

Definition tracking_line (line : string) : result (option spec_float) :=
  let* field := Str.item (Str.split ":" None line) 1 in
  let* value := Str.item (Str.split_ws field) 0 in
  let* skew_s := Float.of_string value in
  Ok (Some (Float.mul skew_s Float.f1e9)).

(** [for line ...: if "Last offset" in line: ...; break / else: None] *)
Fixpoint tracking_scan (lines : list string) : result (option spec_float) :=
  match lines with
  | [] => Ok None
  | line :: rest =>
      if Str.contains "Last offset" line then tracking_line line
      else tracking_scan rest
  end.

Definition tracking_skew (output : string) : option spec_float :=
  match tracking_scan (Str.splitlines output) with
  | Ok r => r
  | Raise _ => None
  end.

Definition drift_correction_unix (tool : string) : M unit :=
  log "[INFO] Checking clock skew for high-precision adjustment..." [] ;;;
  output <- run_cmd (Str.cat tool " tracking") ;;
  match tracking_skew output with
  | None => ret tt
  | Some skew_ns =>
      log "[INFO] Current skew: {} ns" [AVal (VFloat skew_ns)] ;;;
      match band_float threshold (Float.abs skew_ns) with
      | SmallAdjust =>
          run_cmd (Str.cat tool " makestep 0.001 3") ;;;
          log "[INFO] Applied precise incremental adjustment" []
      | ForceStep =>
          run_cmd (Str.cat tool " makestep") ;;;
          log "[INFO] Applied forced step for large skew" []
      | NoAction => log "[INFO] Skew negligible; no adjustment needed" []
      end
  end.

End Program.

End Correction.

Module Dispatcher.

Definition threshold : spec_float := Float.f1e3.

Definition drift_correction_windows (E : env) : M unit :=
  Correction.drift_correction_windows E threshold.

Definition drift_correction_unix (E : env) : M unit :=
  Correction.drift_correction_unix E threshold "chronyc".

End Dispatcher.

Module Service.

Definition MODE_of (given : option string) : startup :=
  parse_mode ["fast"; "ultrafast"; "lazy"] "fast" given.

Definition CHECK_INTERVAL (MODE : string) : Z :=
  if String.eqb MODE "ultrafast" then 5
  else if String.eqb MODE "lazy" then 1800
  else 60.

Definition PRECISION_THRESHOLD_NS (MODE : string) : spec_float :=
  if String.eqb MODE "ultrafast" then Float.f1e3
  else if String.eqb MODE "lazy" then Float.f1e6
  else Float.f1e5.

Definition drift_correction_windows (E : env) (MODE : string) : M unit :=
  Correction.drift_correction_windows E (PRECISION_THRESHOLD_NS MODE).

Definition drift_correction_unix (E : env) (MODE : string) (tool : string) : M unit :=
  Correction.drift_correction_unix E (PRECISION_THRESHOLD_NS MODE) tool.

End Service.

(** An environment over [MiniJson], on a terminal of 80 columns. *)
Definition env_of (system : string) (which : string -> bool)
  (shell : nat -> string -> option Z -> outcome) : env :=
  {| json_loads := MiniJson.loads; json_dumps := MiniJson.dumps;
     system := system; which := which; shell := shell; columns := 80 |}.

(** The same host on a terminal of [cols] columns. *)
Definition on_terminal (cols : Z) (E : env) : env :=
  {| json_loads := json_loads E; json_dumps := json_dumps E;
     system := system E; which := which E; shell := shell E; columns := cols |}.

(** The commands that measure and the commands that correct. *)
Definition probe_commands : list string :=
  ["w32tm /stripchart /computer:time.windows.com /dataonly /samples:1";
   "w32tm /query /status"; "chronyc tracking"; "ntpq -c rv"].

Definition executor_commands : list string :=
  ["w32tm /resync /nowait"; "w32tm /resync /force";
   "chronyc makestep 0.001 3"; "chronyc makestep";
   "sudo ntpdate -u pool.ntp.org || true"].

(** The probe-failure lines of [driftMonitorDual.py]. *)
Definition probe_failure_lines : list string :=
  ["[WARN] Could not measure skew on Windows";
   "[WARN] Could not parse skew from Unix tool output";
   "[WARN] No chronyc or ntpq available to measure skew"].

(** An event of a probe: a measuring command, or a [[CMD-ERR]] line of
    [run_cmd]. *)
Definition probe_event (ev : event) : bool :=
  match ev with
  | Spawn cmd _ => existsb (String.eqb cmd) probe_commands
  | Log msg _ => Str.startswith "[CMD-ERR] " msg
  | _ => false
  end.

(** What [Dual.run_cmd] returns and what it logs after the [Spawn], for
    each outcome of the subprocess. *)
Definition run_cmd_output (o : outcome) : string :=
  match o with
  | Completed out _ => Str.strip out
  | _ => ""
  end.

Definition run_cmd_log (cmd : string) (o : outcome) : list event :=
  match o with
  | Completed _ err =>
      if nonempty (Str.strip err)
      then [Log (Str.cat "[CMD-ERR] " (Str.cat cmd (Str.cat " => " (Str.strip err)))) []]
      else []
  | TimedOut | Failed TimeoutError =>
      [Log (Str.cat "[CMD-ERR] Timeout running: " cmd) []]
  | Failed e =>
      [Log (Str.cat "[CMD-ERR] Exception running: " (Str.cat cmd " => {}")) [AExn e]]
  end.

(** A computation that never returns [None]. *)
Definition returns_sample (c : M (option Z)) : Prop :=
  forall w r w', c w = (r, w') -> r <> Ok None.

(** The probe of a run of [driftMonitorDual.py], as [cycle] selects it. *)
Definition dual_probe (E : env) : M (option Z) :=
  if IS_WINDOWS E then Dual.measure_skew_windows E
  else if which E "chronyc" then Dual.measure_skew_chrony E
  else if which E "ntpq" then Dual.measure_skew_ntpd E
  else ret None.

(** What [Monitor.run_cmd] returns, for each outcome of the subprocess. *)
Definition monitor_run_cmd_output (o : outcome) : string :=
  match o with
  | Completed out _ => Str.strip out
  | TimedOut => exn_text TimeoutError
  | Failed e => exn_text e
  end.

(** What [Correction.run_cmd] logs after the [Spawn] of a completed
    command. *)
Definition correction_run_cmd_log (cmd err : string) : list event :=
  if nonempty (Str.strip err)
  then [Log (Str.cat "[CMD-ERR] " (Str.cat cmd (Str.cat " => " (Str.strip err)))) []]
  else [].

(** ** Sample inputs *)

Definition stripchart_command : string :=
  "w32tm /stripchart /computer:time.windows.com /dataonly /samples:1".

(** A Windows host whose [w32tm] answers every command with [out]. *)
Definition windows_host (out : string) : env :=
  env_of "Windows" (fun _ => false) (fun _ _ _ => Completed out "").

(** A Linux host with [chronyc], which answers every command with
    [out]. *)
Definition chrony_host (out : string) : env :=
  env_of "Linux" (fun tool => String.eqb tool "chronyc") (fun _ _ _ => Completed out "").

(** A Linux host with [chronyc], every command timing out. *)
Definition linux_host_timing_out : env :=
  env_of "Linux" (fun tool => String.eqb tool "chronyc") (fun _ _ _ => TimedOut).

Definition service_not_started : string :=
  "The following error occurred: The service has not been started. (0x80070426)".

(** Sinks that refuse a line when [LOG_DIR] cannot be written: the
    append to [status.log] fails. *)
Definition refusing : world -> result unit :=
  fun w => if writable (files w) then Ok tt else Raise (OSError "Permission denied").

(** A [LOG_DIR] that cannot be written, without a memo. *)
Definition read_only_disk : disk :=
  {| memo_json := Absent; memo_tmp := Absent; writable := false |}.

(** A writable [LOG_DIR] without a memo, and one whose memo holds [v]. *)
Definition empty_disk : disk :=
  {| memo_json := Absent; memo_tmp := Absent; writable := true |}.

Definition disk_with (v : pyval) : disk :=
  {| memo_json := Present (MiniJson.dumps v); memo_tmp := Absent; writable := true |}.

(** A digit string too long for a finite float: 310 nines. *)
Fixpoint nines (n : nat) : string :=
  match n with
  | O => ""
  | S n' => String "9" (nines n')
  end.

Definition huge_offset_line : string :=
  Str.cat "Phase Offset: " (Str.cat (nines 310) ".0s").

(** A Windows host whose stripchart prints nothing and whose status
    prints [huge_offset_line]. *)
Definition windows_host_huge_offset : env :=
  env_of "Windows" (fun _ => false)
    (fun _ cmd _ =>
       if String.eqb cmd "w32tm /query /status" then Completed huge_offset_line ""
       else Completed "" "").

(* ===================================================================== *)
(** * Vocabulary for properties of whole runs                             *)
(* ===================================================================== *)

(** The commands started, in order. *)
Fixpoint commands_of (evs : list event) : list string :=
  match evs with
  | [] => []
  | Spawn cmd _ :: rest => cmd :: commands_of rest
  | _ :: rest => commands_of rest
  end.

(** [c] only appends to what happened, and every event it appends
    satisfies [Q]. *)
Definition emits_only {A} (Q : event -> bool) (c : M A) : Prop :=
  forall w, exists evs,
    trace (snd (c w)) = trace w ++ evs /\ forallb Q evs = true.

(** [c] keeps the property [P] of the state, however it ends. *)
Definition keeps {A} (P : world -> Prop) (c : M A) : Prop :=
  forall w r w', P w -> c w = (r, w') -> P w'.

(** The subprocesses of [driftMonitorDual.py], each with the timeout it
    is given: the probes theirs, the correcting commands the default of
    [run_cmd]. *)
Definition dual_commands : list (string * Z) :=
  [("w32tm /stripchart /computer:time.windows.com /dataonly /samples:1", 10);
   ("w32tm /query /status", 6);
   ("chronyc tracking", 6);
   ("ntpq -c rv", 6);
   ("w32tm /resync /nowait", 15);
   ("w32tm /resync /force", 15);
   ("chronyc makestep 0.001 3", 15);
   ("chronyc makestep", 15);
   ("sudo ntpdate -u pool.ntp.org || true", 15)].

(** A subprocess that is one of [dual_commands], or any other event. *)
Definition dual_spawn (ev : event) : bool :=
  match ev with
  | Spawn cmd (Some t) =>
      existsb (fun ct => String.eqb cmd (fst ct) && (t =? snd ct)) dual_commands
  | Spawn _ None => false
  | _ => true
  end.

(** A subprocess started without a timeout, or any other event. *)
Definition unbounded_spawn (ev : event) : bool :=
  match ev with
  | Spawn _ (Some _) => false
  | _ => true
  end.


(** Anything but a subprocess. *)
Definition not_spawn (ev : event) : bool :=
  match ev with
  | Spawn _ _ => false
  | _ => true
  end.

(** A frame of the TUI drawn from at most [n] samples, or any other
    event. *)
Definition frame_within (n : nat) (ev : event) : bool :=
  match ev with
  | Draw h => (List.length h <=? n)%nat
  | _ => true
  end.

(** The history holds at most [n] samples, and so did the history of
    every frame drawn so far. *)
Definition frames_within (n : nat) (w : world) : Prop :=
  (List.length (skew_history w) <= n)%nat
  /\ forallb (frame_within n) (trace w) = true.

(** The disk is [d]. *)
Definition disk_is (d : disk) (w : world) : Prop := files w = d.

(** The correcting command of [drift_check_and_correct_unix] for a
    decision, with the tools of the run. *)
Definition dual_correction (E : env) (dec : Decision) : list string :=
  match dec with
  | NoAction => []
  | SmallAdjust =>
      [if which E "chronyc" then "chronyc makestep 0.001 3"
       else "sudo ntpdate -u pool.ntp.org || true"]
  | ForceStep =>
      [if which E "chronyc" then "chronyc makestep"
       else "sudo ntpdate -u pool.ntp.org || true"]
  end.

(** The disk after [memo.json] was replaced by the text [text]. *)
Definition disk_after_save (text : string) : disk :=
  {| memo_json := Present text; memo_tmp := Absent; writable := true |}.

(** The [w32tm] command of a decision, in [driftMonitor.py],
    [dispatcher.py] and [dispatchService.py]. *)
Definition windows_correction (dec : Decision) : list string :=
  match dec with
  | NoAction => []
  | SmallAdjust => ["w32tm /resync /nowait"]
  | ForceStep => ["w32tm /resync /force"]
  end.

(** What a guarded [load_memo] makes of the disk: the value [memo.json]
    parses to, and the default memo when the file is missing, unreadable
    or does not parse. *)
Definition memo_on_disk (E : env) (d : disk) : pyval :=
  match memo_json d with
  | Present text =>
      match json_loads E text with
      | Ok v => v
      | Raise _ => VDict []
      end
  | _ => VDict []
  end.

(** [f] holds of the [n] integers from [k] on. *)
Fixpoint holds_from (n : nat) (k : Z) (f : Z -> bool) : bool :=
  match n with
  | O => true
  | S n' => f k && holds_from n' (k + 1) f
  end.

(** [isinstance(v, dict)] *)
Definition is_dict (v : pyval) : bool :=
  match v with
  | VDict _ => true
  | _ => false
  end.

(** The state of [driftMonitor.py] after the module body. *)
Definition monitor_imported (E : env) (d : disk) : world :=
  snd ((m <- Monitor.load_memo E ;; put_memo m) (fresh d)).

(** The [try] block of [measure_skew_windows] of [driftMonitor.py] on one
    line. *)
Definition monitor_offset_line (line : string) : result Z :=
  let* field := Str.item (Str.split ":" None line) 1 in
  let parts := Str.strip field in
  let parts := if Str.contains "s" parts then Str.replace "s" "" parts else parts in
  let* offset_sec := Float.of_string parts in
  Float.seconds_to_ns offset_sec.

(** A line that [measure_skew_windows] of [driftMonitor.py] takes a skew
    from. *)
Definition monitor_offset_parses (line : string) : bool :=
  Str.contains "Offset" line
  && match monitor_offset_line line with Ok _ => true | Raise _ => false end.

(** What the status probe of [driftMonitorDual.py] finds on a line: the
    first match of the pattern, on a line that mentions an offset. *)
Definition status_candidate (line : string) : option string :=
  if (Str.contains "Offset" line || Str.contains "Local Clock" line)%bool
  then Dual.offset_search line
  else None.

(* ===================================================================== *)
(** * The service configuration of [dispatcher.py] and [dispatchService.py] *)
(* ===================================================================== *)

(** [c.upper()] in code points: the capitals of [U+00B5] and [U+00FF]
    lie outside Latin-1, and that of [U+00DF] is two letters. *)
Definition upper_points (c : ascii) : list N :=
  let n := N_of_ascii c in
  if (Str.in_range 97 122 c || Str.in_range 224 246 c || Str.in_range 248 254 c)%bool
  then [(n - 32)%N]
  else if (n =? 181)%N then [924%N]
  else if (n =? 223)%N then [83%N; 83%N]
  else if (n =? 255)%N then [376%N]
  else [n].

(** [s.upper()] *)
Fixpoint upper (s : string) : list N :=
  match s with
  | String c r => upper_points c ++ upper r
  | EmptyString => []
  end.

Fixpoint points (s : string) : list N :=
  match s with
  | String c r => N_of_ascii c :: points r
  | EmptyString => []
  end.

Fixpoint starts_with_points (p t : list N) : bool :=
  match p, t with
  | [], _ => true
  | a :: p', b :: t' => (a =? b)%N && starts_with_points p' t'
  | _ :: _, [] => false
  end.

(** [word in text], on code points *)
Fixpoint contains_points (word text : list N) : bool :=
  starts_with_points word text
  || match text with
     | [] => false
     | _ :: rest => contains_points word rest
     end.

Module Config.

(** A block appended to [status.log] beside the lines of [log]: the
    [Sync Report] header (its time stamp left out) and two outputs. It is
    kept with the number of events that came before it. *)
Record report := {
  events_before : nat;
  first_output : string;
  second_output : string
}.

Record state := {
  run_state : world;
  reports : list report
}.

Definition C (A : Type) : Type := state -> result A * state.

Definition retC {A} (a : A) : C A := fun s => (Ok a, s).

Definition bindC {A B} (c : C A) (k : A -> C B) : C B :=
  fun s => match c s with
           | (Ok a, s') => k a s'
           | (Raise e, s') => (Raise e, s')
           end.

Notation "x <~ c ;; k" := (bindC c (fun x => k))
  (at level 61, c at next level, right associativity).
Notation "c ;;~ k" := (bindC c (fun _ => k))
  (at level 61, right associativity).

(** A step of the drift correction, inside the configuration. *)
Definition liftC {A} (c : M A) : C A :=
  fun s =>
    let '(r, w) := c (run_state s) in
    (r, {| run_state := w; reports := reports s |}).

(** [with open(LOG_FILE, "a") as f: f.write(...)] *)
Definition write_report (first second : string) : C unit :=
  fun s =>
    (Ok tt,
     {| run_state := run_state s;
        reports := reports s
                   ++ [{| events_before := List.length (trace (run_state s));
                          first_output := first; second_output := second |}] |}).

Definition dq : string := String "034" "".

Definition quoted (s : string) : string := Str.cat dq (Str.cat s dq).

(** A backslash and a double quote. *)
Definition bq : string := Str.cat "\" dq.

Section Program.
Variable E : env.
Variable POOLS : list string.
(** [sys.executable] and [os.path.abspath(__file__)] *)
Variable python_path : string.
Variable script_path : string.

Definition LOG_FILE : string :=
  if IS_WINDOWS E then "C:\ProgramData\TimeSync\status.log"
  else "/var/log/time-sync/status.log".

Definition log (msg : string) : C unit := liftC (log msg []).

Definition run_cmd (cmd : string) : C string := liftC (Correction.run_cmd E cmd).

Definition reg_cmds : list string :=
  [Str.cat "reg add "
     (Str.cat (quoted "HKLM\SYSTEM\CurrentControlSet\Services\W32Time\Config")
        " /v MinPollInterval /t REG_DWORD /d 0x6 /f");
   Str.cat "reg add "
     (Str.cat (quoted "HKLM\SYSTEM\CurrentControlSet\Services\W32Time\Config")
        " /v MaxPollInterval /t REG_DWORD /d 0xa /f");
   Str.cat "reg add "
     (Str.cat (quoted "HKLM\SYSTEM\CurrentControlSet\Services\W32Time\Parameters")
        " /v Type /t REG_SZ /d NTP /f")].

(** [for cmd in cmds: await run_cmd(cmd)] *)
Fixpoint run_all (cmds : list string) : C unit :=
  match cmds with
  | [] => retC tt
  | cmd :: rest => run_cmd cmd ;;~ run_all rest
  end.

(** [" ".join([f"{i}.{pool},0x8" for i in range(4)])] *)
Definition servers (pool : string) : string :=
  Str.cat "0." (Str.cat pool (Str.cat ",0x8 1." (Str.cat pool
    (Str.cat ",0x8 2." (Str.cat pool (Str.cat ",0x8 3." (Str.cat pool ",0x8"))))))).

Definition windows_pool_cmd (pool : string) : string :=
  Str.cat "w32tm /config /manualpeerlist:"
    (Str.cat (quoted (servers pool)) " /syncfromflags:manual /update").

(** The loop over [POOLS] of [windows_config]; returns [success]. *)
Fixpoint windows_pools (pools : list string) : C bool :=
  match pools with
  | [] => retC false
  | pool :: rest =>
      result <~ run_cmd (windows_pool_cmd pool) ;;
      if nonempty result then
        log (Str.cat "[OK] Configured " pool) ;;~
        run_cmd "w32tm /resync /force" ;;~
        retC true
      else
        log (Str.cat "[FAIL] Could not configure " pool) ;;~
        windows_pools rest
  end.

Definition log_windows_status : C unit :=
  log "[INFO] Logging telemetry..." ;;~
  status_out <~ run_cmd "w32tm /query /status" ;;
  peers_out <~ run_cmd "w32tm /query /peers" ;;
  write_report status_out peers_out ;;~
  log (Str.cat "[INFO] Telemetry written to " LOG_FILE).

(** [windows_config], up to the steps that differ between the two
    files, which [rest] stands for. *)
Definition windows_config (rest : C unit) : C unit :=
  log "Configuring Windows Time Service..." ;;~
  run_all reg_cmds ;;~
  status <~ run_cmd "sc query w32time" ;;
  (if (Str.contains "STOPPED" status
       || contains_points (points "DISABLED") (upper status))%bool
   then
     log "[WARN] Windows Time service not running or disabled, enabling..." ;;~
     run_cmd "sc config w32time start= auto" ;;~
     run_cmd "sc start w32time" ;;~
     retC tt
   else retC tt) ;;~
  run_cmd "net stop w32time" ;;~
  run_cmd "net start w32time" ;;~
  success <~ windows_pools POOLS ;;
  (if success then retC tt else log "[FAIL] No NTP pools could be configured.") ;;~
  rest.

(** The command of [create_windows_task]. *)
Definition task_cmd (task_name : string) : string :=
  Str.cat "schtasks /Create /F /SC MINUTE /MO 30 /TN "
    (Str.cat task_name
       (Str.cat " /TR "
          (quoted
             (Str.cat bq (Str.cat python_path (Str.cat bq
                (Str.cat " " (Str.cat bq (Str.cat script_path (Str.cat bq
                   " --mode=fast")))))))))).

Definition create_windows_task : C unit :=
  let task_name := "TimeSyncTelemetry" in
  let cmd := task_cmd task_name in
  run_cmd cmd ;;~
  log (Str.cat "[TASK] Scheduled telemetry every 30 minutes under task '"
         (Str.cat task_name "'")).

Definition nssm_path : string := "C:\nssm\nssm.exe".

(** [nssm_found] is [os.path.exists(nssm_path)]. *)
Definition create_windows_service (MODE : string) (nssm_found : bool) : C unit :=
  if nssm_found then
    run_cmd (Str.cat (quoted nssm_path)
               (Str.cat " install TimeSyncAgent "
                  (Str.cat (quoted python_path)
                     (Str.cat " "
                        (quoted (Str.cat script_path (Str.cat " --mode=" MODE))))))) ;;~
    run_cmd (Str.cat (quoted nssm_path) " set TimeSyncAgent Start SERVICE_AUTO_START") ;;~
    run_cmd (Str.cat (quoted nssm_path) " start TimeSyncAgent") ;;~
    log "[TASK] Dispatcher installed as SYSTEM service via NSSM"
  else
    log "[WARN] NSSM not found, fallback to scheduled task or manual service install".

(** [for bin in [...]: if await run_cmd(f"which {bin}"): tool = bin; break] *)
Fixpoint find_tool (bins : list string) : C (option string) :=
  match bins with
  | [] => retC None
  | bin :: rest =>
      result <~ run_cmd (Str.cat "which " bin) ;;
      if nonempty result then retC (Some bin) else find_tool rest
  end.

Definition unix_pool_cmd (tool pool : string) : string :=
  Str.cat tool (Str.cat " -a makestep; " (Str.cat tool
    (Str.cat " add server " (Str.cat pool " iburst")))).

(** The loop over [POOLS] of [unix_config]; returns [success]. *)
Fixpoint unix_pools (tool : string) (pools : list string) : C bool :=
  match pools with
  | [] => retC false
  | pool :: rest =>
      result <~ run_cmd (unix_pool_cmd tool pool) ;;
      if nonempty result then
        log (Str.cat "[OK] Configured " pool) ;;~ retC true
      else
        log (Str.cat "[FAIL] Pool " (Str.cat pool ": could not configure")) ;;~
        unix_pools tool rest
  end.

(** [unix_config]; [rest tool] stands for what [dispatchService.py] does
    after the telemetry. *)
Definition unix_config (rest : string -> C unit) : C unit :=
  log "Configuring Unix NTP client..." ;;~
  found <~ find_tool ["chronyc"; "ntpsec-ntpdate"] ;;
  match found with
  | None => log "[ERR] No chrony or ntpsec found"
  | Some tool =>
      success <~ unix_pools tool POOLS ;;
      (if success then retC tt else log "[FAIL] No NTP pools could be configured") ;;~
      status <~ run_cmd (Str.cat tool " tracking") ;;
      sources <~ run_cmd (Str.cat tool " sources -v") ;;
      write_report status sources ;;~
      log (Str.cat "[INFO] Telemetry written to " LOG_FILE) ;;~
      rest tool
  end.

End Program.

End Config.

Module DispatcherMain.

Definition POOLS : list string :=
  ["pool.chrony.eu"; "pool.ntp.org"; "time.cloudflare.com"; "time.google.com"].

Section Program.
Variable E : env.
Variable python_path : string.
Variable script_path : string.

Definition windows_config : Config.C unit :=
  Config.windows_config E POOLS
    (Config.bindC (Config.log_windows_status E)
       (fun _ => Config.create_windows_task E python_path script_path)).

Definition unix_config : Config.C unit :=
  Config.unix_config E POOLS (fun _ => Config.retC tt).

Definition main : Config.C unit :=
  Config.bindC (Config.log (Str.cat "Dispatcher start on " (system E))) (fun _ =>
  Config.bindC
    (if IS_WINDOWS E then
       Config.bindC windows_config (fun _ =>
       Config.liftC (Dispatcher.drift_correction_windows E))
     else
       Config.bindC unix_config (fun _ =>
       Config.liftC (Dispatcher.drift_correction_unix E)))
    (fun _ => Config.log "Dispatcher complete.")).

End Program.

End DispatcherMain.

Module ServiceMain.

Definition POOLS : list string :=
  ["pool.chrony.eu"; "pool.ntp.org"; "time.cloudflare.com"; "time.google.com";
   "0.europe.pool.ntpsec.org"; "1.north-america.pool.ntpsec.org";
   "2.asia.pool.ntpsec.org"].

Section Program.
Variable E : env.
Variable MODE : string.
Variable python_path : string.
Variable script_path : string.
Variable nssm_found : bool.

Definition windows_config : Config.C unit :=
  Config.windows_config E POOLS
    (Config.bindC (Config.log_windows_status E) (fun _ =>
     Config.bindC (Config.liftC (Service.drift_correction_windows E MODE)) (fun _ =>
     Config.create_windows_service E python_path script_path MODE nssm_found))).

Definition unix_config : Config.C unit :=
  Config.unix_config E POOLS
    (fun tool => Config.liftC (Service.drift_correction_unix E MODE tool)).

Definition main : Config.C unit :=
  Config.bindC
    (Config.log (Str.cat "Dispatcher start on "
                   (Str.cat (system E) (Str.cat " | Mode=" MODE)))) (fun _ =>
  Config.bindC (if IS_WINDOWS E then windows_config else unix_config) (fun _ =>
  Config.log "Dispatcher complete.")).

End Program.

End ServiceMain.

(** ** Vocabulary for the configuration *)

(** The state a configuration starts in on the disk [d]. *)
Definition config_start (d : disk) : Config.state :=
  {| Config.run_state := fresh d; Config.reports := [] |}.

(** The commands started so far. *)
Definition config_commands (s : Config.state) : list string :=
  commands_of (trace (Config.run_state s)).

(** The messages logged so far. *)
Fixpoint messages_of (evs : list event) : list string :=
  match evs with
  | [] => []
  | Log msg _ :: rest => msg :: messages_of rest
  | _ :: rest => messages_of rest
  end.

Definition config_messages (s : Config.state) : list string :=
  messages_of (trace (Config.run_state s)).

(** [c] returns [a] from every state, having started the commands
    [cmds], appended [n] reports and left the disk alone. *)
Definition performs {A} (c : Config.C A) (a : A) (cmds : list string) (n : nat) : Prop :=
  forall s, exists s',
    c s = (Ok a, s')
    /\ config_commands s' = config_commands s ++ cmds
    /\ List.length (Config.reports s') = (List.length (Config.reports s) + n)%nat
    /\ files (Config.run_state s') = files (Config.run_state s).

(** A pool whose configuring command printed something. *)
Definition answered (out : string -> string) (cmd_of : string -> string)
  (pool : string) : bool :=
  nonempty (Str.strip (out (cmd_of pool))).

(** The pools up to the first that satisfies [ok], this one included. *)
Fixpoint tried (ok : string -> bool) (pools : list string) : list string :=
  match pools with
  | [] => []
  | pool :: rest => if ok pool then [pool] else pool :: tried ok rest
  end.

(** The lines logged for the pools tried: a failure line for each pool
    that did not answer, and the success line of the one that did. *)
Fixpoint pool_lines (ok : string -> bool) (failure : string -> string)
  (pools : list string) : list string :=
  match pools with
  | [] => []
  | pool :: rest =>
      if ok pool then [Str.cat "[OK] Configured " pool]
      else failure pool :: pool_lines ok failure rest
  end.

(** The correcting command of the Unix correction of [dispatcher.py] and
    [dispatchService.py], from the output of [tool tracking]. *)
Definition unix_correction (threshold : spec_float) (tool : string)
  (tracking : string) : list string :=
  match Correction.tracking_skew tracking with
  | None => []
  | Some skew_ns =>
      match band_float threshold (Float.abs skew_ns) with
      | SmallAdjust => [Str.cat tool " makestep 0.001 3"]
      | ForceStep => [Str.cat tool " makestep"]
      | NoAction => []
      end
  end.

(** The lines logged so far, the [[CMD-ERR]] lines of [run_cmd] left
    out. *)
Definition config_lines (s : Config.state) : list string :=
  filter (fun m => negb (Str.startswith "[CMD-ERR] " m)) (config_messages s).

(** The failure lines of the two pool loops. *)
Definition unix_pool_failure (pool : string) : string :=
  Str.cat "[FAIL] Pool " (Str.cat pool ": could not configure").

Definition windows_pool_failure (pool : string) : string :=
  Str.cat "[FAIL] Could not configure " pool.

(** A shell that answers [text] to the commands that mention [word] and
    prints nothing for the others. *)
Definition answers_to (word text : string) (cmd : string) : string :=
  if Str.contains word cmd then text else "".

Definition host_answering (system word text : string) : env :=
  env_of system (fun _ => false)
    (fun _ cmd _ => Completed (answers_to word text cmd) "").

(** [windows_config] finds the time service stopped or disabled. *)
Definition service_stopped (status : string) : bool :=
  Str.contains "STOPPED" status
  || contains_points (points "DISABLED") (upper status).

(** The commands of [windows_config] of [dispatcher.py], in order. *)
Definition windows_config_commands (out : string -> string)
  (python_path script_path : string) : list string :=
  Config.reg_cmds
  ++ ["sc query w32time"]
  ++ (if service_stopped (Str.strip (out "sc query w32time"))
      then ["sc config w32time start= auto"; "sc start w32time"] else [])
  ++ ["net stop w32time"; "net start w32time"]
  ++ map Config.windows_pool_cmd
       (tried (answered out Config.windows_pool_cmd) DispatcherMain.POOLS)
  ++ (if existsb (answered out Config.windows_pool_cmd) DispatcherMain.POOLS
      then ["w32tm /resync /force"] else [])
  ++ ["w32tm /query /status"; "w32tm /query /peers";
      Config.task_cmd python_path script_path "TimeSyncTelemetry"].

(** The commands of [unix_config] up to the telemetry, [tool] being the
    tool found, if any. *)
Definition which_cmd (bin : string) : string := Str.cat "which " bin.

Definition unix_tool (out : string -> string) : option string :=
  find (answered out which_cmd) ["chronyc"; "ntpsec-ntpdate"].

Definition unix_config_commands (out : string -> string) (POOLS : list string)
  : list string :=
  map which_cmd (tried (answered out which_cmd) ["chronyc"; "ntpsec-ntpdate"])
  ++ match unix_tool out with
     | None => []
     | Some tool =>
         map (Config.unix_pool_cmd tool)
           (tried (answered out (Config.unix_pool_cmd tool)) POOLS)
         ++ [Str.cat tool " tracking"; Str.cat tool " sources -v"]
     end.

(** A host on which no command can be started. *)
Definition host_without_shell (system : string) : env :=
  env_of system (fun _ => false) (fun _ _ _ => Failed (OSError "No such file or directory")).

(* ===================================================================== *)
(** * Part II: properties                                                 *)
(* ===================================================================== *)

Section DequeFacts.
Context {A : Type}.
Implicit Types (d xs : list A) (x : A).

Lemma append_length maxlen d x :
  (List.length d <= maxlen)%nat ->
  (List.length (Deque.append maxlen d x) <= maxlen)%nat.
Proof.
  intros H. unfold Deque.append.
  destruct (Nat.ltb_spec maxlen (List.length (d ++ [x]))) as [Hlt|Hge]; [|exact Hge].
  rewrite length_app in Hlt. simpl in Hlt.
  destruct d as [|y d']; simpl in *; [lia|].
  rewrite length_app. simpl. lia.
Qed.

Lemma extend_length maxlen xs : forall d,
  (List.length d <= maxlen)%nat ->
  (List.length (Deque.extend maxlen d xs) <= maxlen)%nat.
Proof.
  induction xs as [|x xs IH]; intros d H; simpl; [exact H|].
  apply IH, append_length, H.
Qed.

End DequeFacts.

Section DequeOrder.
Context {A : Type}.
Implicit Types (d xs l : list A) (x : A).

Lemma lastn_all n l : (List.length l <= n)%nat -> Deque.lastn n l = l.
Proof.
  intros H. unfold Deque.lastn.
  replace (List.length l - n)%nat with O by lia. reflexivity.
Qed.

Lemma lastn_length n l : (List.length (Deque.lastn n l) <= n)%nat.
Proof. unfold Deque.lastn. rewrite length_skipn. lia. Qed.

Lemma lastn_snoc n l x :
  Deque.lastn n (Deque.lastn n l ++ [x]) = Deque.lastn n (l ++ [x]).
Proof.
  destruct (Nat.le_gt_cases (List.length l) n) as [Hle|Hgt].
  - rewrite (lastn_all n l Hle). reflexivity.
  - unfold Deque.lastn.
    rewrite !length_app, length_skipn. simpl List.length.
    rewrite !skipn_app, length_skipn, skipn_skipn.
    f_equal; f_equal; lia.
Qed.

Lemma append_lastn maxlen d x :
  (List.length d <= maxlen)%nat ->
  Deque.append maxlen d x = Deque.lastn maxlen (d ++ [x]).
Proof.
  intros H. unfold Deque.append, Deque.lastn.
  rewrite length_app. simpl.
  destruct (Nat.ltb_spec maxlen (List.length d + 1)) as [Hlt|Hge].
  - replace (List.length d + 1 - maxlen)%nat with 1%nat by lia.
    destruct d; reflexivity.
  - replace (List.length d + 1 - maxlen)%nat with O by lia. reflexivity.
Qed.

Lemma extend_snoc maxlen d xs x :
  Deque.extend maxlen d (xs ++ [x])
  = Deque.append maxlen (Deque.extend maxlen d xs) x.
Proof. unfold Deque.extend. rewrite fold_left_app. reflexivity. Qed.

Lemma extend_lastn maxlen xs : forall d,
  (List.length d <= maxlen)%nat ->
  Deque.extend maxlen d xs = Deque.lastn maxlen (d ++ xs).
Proof.
  induction xs as [|x xs IH] using rev_ind; intros d H.
  - rewrite app_nil_r. simpl. symmetry. apply lastn_all, H.
  - rewrite extend_snoc, IH by exact H.
    rewrite append_lastn by apply lastn_length.
    rewrite lastn_snoc, app_assoc. reflexivity.
Qed.

Lemma lastn_app_long n d xs :
  (n <= List.length xs)%nat -> Deque.lastn n (d ++ xs) = Deque.lastn n xs.
Proof.
  intros H. unfold Deque.lastn.
  rewrite length_app, skipn_app.
  replace (List.length d + List.length xs - n - List.length d)%nat
    with (List.length xs - n)%nat by lia.
  rewrite skipn_all2 by lia. reflexivity.
Qed.

End DequeOrder.

(** C6. Whatever the History Buffer holds at most [HISTORY_LEN] samples
    of (80 in [driftMonitorDual.py], 50 in [driftMonitor.py]), after any
    number of the pushes [xs] it still holds at most [HISTORY_LEN], and
    once more than [HISTORY_LEN] samples were pushed it holds exactly the
    last [HISTORY_LEN] of them, oldest first. *)
Theorem history_buffer_keeps_last_samples :
  forall (maxlen : nat) (d xs : list Z),
    maxlen = Dual.HISTORY_LEN \/ maxlen = Monitor.HISTORY_LEN ->
    (List.length d <= maxlen)%nat ->
    (maxlen < List.length xs)%nat ->
    (forall k, (List.length (Deque.extend maxlen d (firstn k xs)) <= maxlen)%nat)
    /\ Deque.extend maxlen d xs = Deque.lastn maxlen xs
    /\ List.length (Deque.extend maxlen d xs) = maxlen.
Proof.
  intros maxlen d xs _ Hd Hxs. split; [|split].
  - intros k. apply extend_length, Hd.
  - rewrite extend_lastn by exact Hd. apply lastn_app_long. lia.
  - rewrite extend_lastn by exact Hd. rewrite lastn_app_long by lia.
    unfold Deque.lastn. rewrite length_skipn. lia.
Qed.

Lemma history_buffer_keeps_last_samples_witness :
  let xs := map Z.of_nat (seq 0 51) in
  (forall k, (List.length (Deque.extend Monitor.HISTORY_LEN [0%Z; 0%Z; 0%Z; 0%Z] (firstn k xs))
              <= Monitor.HISTORY_LEN)%nat)
  /\ Deque.extend Monitor.HISTORY_LEN [0%Z; 0%Z; 0%Z; 0%Z] xs = Deque.lastn Monitor.HISTORY_LEN xs
  /\ List.length (Deque.extend Monitor.HISTORY_LEN [0%Z; 0%Z; 0%Z; 0%Z] xs) = Monitor.HISTORY_LEN.
Proof.
  apply (history_buffer_keeps_last_samples Monitor.HISTORY_LEN [0%Z; 0%Z; 0%Z; 0%Z]
           (map Z.of_nat (seq 0 51))).
  - right. reflexivity.
  - vm_compute. lia.
  - vm_compute. lia.
Defined.

(* ===================================================================== *)
(** * Integers as floats                                                  *)
(* ===================================================================== *)

(** An integer of magnitude below 2^53 is a float exactly, and floats of
    such integers compare as the integers do. *)

Lemma digits2_iter_xO p k :
  digits2_pos (Pos.iter xO p k) = (digits2_pos p + k)%positive.
Proof.
  induction k using Pos.peano_ind.
  - simpl. lia.
  - rewrite Pos.iter_succ. simpl. rewrite IHk. lia.
Qed.

Lemma shr_fexp_exact m e :
  Zdigits2 m = 53 -> -1074 <= e ->
  shr_fexp 53 1024 m e loc_Exact = ({| shr_m := m; shr_r := false; shr_s := false |}, e).
Proof.
  intros Hm He. unfold shr_fexp, fexp, emin. rewrite Hm.
  replace (Z.max (53 + e - 53) (3 - 1024 - 53) - e) with 0 by lia.
  reflexivity.
Qed.

Lemma round_exact sx m e :
  digits2_pos m = 53%positive -> -1074 <= e <= 971 ->
  binary_round_aux 53 1024 sx (Z.pos m) e loc_Exact = S754_finite sx m e.
Proof.
  intros Hm He. unfold binary_round_aux.
  rewrite shr_fexp_exact by (simpl; try rewrite Hm; lia).
  cbn [shr_m loc_of_shr_record round_nearest_even].
  rewrite shr_fexp_exact by (simpl; try rewrite Hm; lia).
  cbn [shr_m].
  destruct (Z.leb_spec e (1024 - 53)); [reflexivity|lia].
Qed.

Lemma binary_round_small sx p :
  Z.pos (digits2_pos p) <= 53 ->
  binary_round 53 1024 sx p 0 = S754_finite sx (fst (Float.norm p)) (snd (Float.norm p)).
Proof.
  intros H.
  unfold binary_round, shl_align, Float.norm.
  unfold fexp, emin.
  rewrite !Z.add_0_r.
  rewrite !Z.max_l by lia.
  rewrite Z.sub_0_r.
  destruct (Z.pos (digits2_pos p) - 53) as [|k|k] eqn:Hd; [ | lia | ].
  - cbn [fst snd]. apply round_exact; lia.
  - cbn [fst snd]. apply round_exact; [rewrite digits2_iter_xO; lia|lia].
Qed.

Lemma of_Z_pos p :
  Z.pos (digits2_pos p) <= 53 ->
  Float.of_Z (Z.pos p) = S754_finite false (fst (Float.norm p)) (snd (Float.norm p)).
Proof. intros H. unfold Float.of_Z, binary_normalize. apply binary_round_small, H. Qed.

Lemma of_Z_neg p :
  Z.pos (digits2_pos p) <= 53 ->
  Float.of_Z (Z.neg p) = S754_finite true (fst (Float.norm p)) (snd (Float.norm p)).
Proof. intros H. unfold Float.of_Z, binary_normalize. apply binary_round_small, H. Qed.

Lemma digits2_size p : digits2_pos p = Pos.size p.
Proof. induction p; simpl; congruence. Qed.

Lemma digits_lower p : 2 ^ (Z.pos (digits2_pos p) - 1) <= Z.pos p.
Proof.
  rewrite digits2_size.
  pose proof (Pos.size_le p) as H.
  assert (H' : 2 ^ Z.pos (Pos.size p) <= 2 * Z.pos p).
  { rewrite <- (Pos2Z.inj_pow 2 (Pos.size p)). change (2 * Z.pos p) with (Z.pos p~0).
    apply Pos2Z.pos_le_pos, H. }
  replace (Z.pos (Pos.size p)) with (Z.succ (Z.pos (Pos.size p) - 1)) in H' by lia.
  rewrite Z.pow_succ_r in H' by lia. lia.
Qed.

Lemma digits_upper p : Z.pos p < 2 ^ Z.pos (digits2_pos p).
Proof.
  rewrite digits2_size. rewrite <- (Pos2Z.inj_pow 2 (Pos.size p)).
  apply Pos2Z.pos_lt_pos, Pos.size_gt.
Qed.

Lemma digits_bound p : Z.pos p < 2 ^ 53 -> Z.pos (digits2_pos p) <= 53.
Proof.
  intros H. pose proof (digits_lower p) as Hl.
  destruct (Z.le_gt_cases (Z.pos (digits2_pos p)) 53) as [|Hgt]; [assumption|].
  exfalso.
  assert (2 ^ 53 <= 2 ^ (Z.pos (digits2_pos p) - 1)) by (apply Z.pow_le_mono_r; lia).
  lia.
Qed.

Lemma iter_xO_mul p k : Z.pos (Pos.iter xO p k) = Z.pos p * 2 ^ Z.pos k.
Proof.
  induction k using Pos.peano_ind.
  - simpl. lia.
  - rewrite Pos.iter_succ, Pos2Z.inj_succ, Z.pow_succ_r by lia.
    rewrite Pos2Z.inj_xO, IHk. lia.
Qed.

Lemma norm_exponent p :
  Z.pos (digits2_pos p) <= 53 -> snd (Float.norm p) = Z.pos (digits2_pos p) - 53.
Proof.
  intros H. unfold Float.norm.
  destruct (Z.pos (digits2_pos p) - 53) eqn:Hd; simpl; lia.
Qed.

Lemma norm_mantissa p :
  Z.pos (digits2_pos p) <= 53 ->
  Z.pos (fst (Float.norm p)) = Z.pos p * 2 ^ (53 - Z.pos (digits2_pos p)).
Proof.
  intros H. unfold Float.norm.
  destruct (Z.pos (digits2_pos p) - 53) as [|k|k] eqn:Hd; cbn [fst].
  - replace (53 - Z.pos (digits2_pos p)) with 0 by lia. lia.
  - lia.
  - rewrite iter_xO_mul. f_equal. f_equal. lia.
Qed.

Lemma switch_Eq_Eq c : Pos.switch_Eq Eq c = c.
Proof. destruct c; reflexivity. Qed.

Lemma compare_scaled a b k : 0 < k -> (a * k ?= b * k) = (a ?= b).
Proof.
  intros Hk. destruct (Z.compare_spec a b) as [E|L|G].
  - subst. apply Z.compare_refl.
  - apply Z.compare_lt_iff. nia.
  - apply Z.compare_gt_iff. nia.
Qed.

Lemma compare_norm p q :
  Z.pos (digits2_pos p) <= 53 -> Z.pos (digits2_pos q) <= 53 ->
  SFcompare (S754_finite false (fst (Float.norm p)) (snd (Float.norm p)))
            (S754_finite false (fst (Float.norm q)) (snd (Float.norm q)))
  = Some (Z.pos p ?= Z.pos q).
Proof.
  intros Hp Hq. unfold SFcompare.
  rewrite !norm_exponent by assumption.
  pose proof (digits_lower p). pose proof (digits_upper p).
  pose proof (digits_lower q). pose proof (digits_upper q).
  f_equal.
  destruct (Z.compare_spec (Z.pos (digits2_pos p) - 53) (Z.pos (digits2_pos q) - 53))
    as [He|He|He].
  - rewrite Pos.compare_cont_spec, switch_Eq_Eq.
    change (fst (Float.norm p) ?= fst (Float.norm q))%positive
      with (Z.pos (fst (Float.norm p)) ?= Z.pos (fst (Float.norm q))).
    rewrite !norm_mantissa by assumption.
    replace (Z.pos (digits2_pos q)) with (Z.pos (digits2_pos p)) by lia.
    apply compare_scaled, Z.pow_pos_nonneg; lia.
  - symmetry. apply Z.compare_lt_iff.
    assert (2 ^ Z.pos (digits2_pos p) <= 2 ^ (Z.pos (digits2_pos q) - 1))
      by (apply Z.pow_le_mono_r; lia).
    lia.
  - symmetry. apply Z.compare_gt_iff.
    assert (2 ^ Z.pos (digits2_pos q) <= 2 ^ (Z.pos (digits2_pos p) - 1))
      by (apply Z.pow_le_mono_r; lia).
    lia.
Qed.

Lemma ltb_of_Z a b :
  0 <= a < 2 ^ 53 -> 0 <= b < 2 ^ 53 ->
  Float.ltb (Float.of_Z a) (Float.of_Z b) = (a <? b).
Proof.
  intros Ha Hb. unfold Float.ltb, SFltb, Z.ltb.
  destruct a as [|p|p], b as [|q|q]; try lia; try reflexivity.
  - rewrite of_Z_pos by (apply digits_bound; lia). reflexivity.
  - rewrite of_Z_pos by (apply digits_bound; lia). reflexivity.
  - rewrite !of_Z_pos by (apply digits_bound; lia).
    rewrite compare_norm by (apply digits_bound; lia). reflexivity.
Qed.

Lemma abs_of_Z z :
  Z.abs z < 2 ^ 53 -> Float.abs (Float.of_Z z) = Float.of_Z (Z.abs z).
Proof.
  intros H. destruct z as [|p|p]; [reflexivity| |].
  - simpl Z.abs. rewrite of_Z_pos by (apply digits_bound; exact H). reflexivity.
  - simpl Z.abs. rewrite of_Z_neg, of_Z_pos by (apply digits_bound; exact H). reflexivity.
Qed.

Lemma band_float_of_Z t s :
  0 <= t < 2 ^ 53 -> Z.abs s < 2 ^ 53 ->
  band_float (Float.of_Z t) (Float.abs (Float.of_Z s)) = band t (Z.abs s).
Proof.
  intros Ht Hs. unfold band_float, band.
  rewrite abs_of_Z by exact Hs.
  change Float.f1e6 with (Float.of_Z 1000000).
  change Float.f1e8 with (Float.of_Z 100000000).
  change Float.f1e9 with (Float.of_Z 1000000000).
  rewrite !ltb_of_Z by lia. reflexivity.
Qed.

(* ===================================================================== *)
(** * The decision bands                                                  *)
(* ===================================================================== *)

Lemma band_small t a : band t a = SmallAdjust <-> t < a < 1000000.
Proof.
  unfold band.
  destruct (Z.ltb_spec t a), (Z.ltb_spec a 1000000),
    (Z.ltb_spec 100000000 a), (Z.ltb_spec a 1000000000);
    simpl; split; intros Hx; try discriminate; try reflexivity; lia.
Qed.

Lemma band_force t a : band t a = ForceStep <-> 100000000 < a < 1000000000.
Proof.
  unfold band.
  destruct (Z.ltb_spec t a), (Z.ltb_spec a 1000000),
    (Z.ltb_spec 100000000 a), (Z.ltb_spec a 1000000000);
    simpl; split; intros Hx; try discriminate; try reflexivity; lia.
Qed.

Lemma band_none t a :
  band t a = NoAction
  <-> ~ (t < a < 1000000) /\ ~ (100000000 < a < 1000000000).
Proof.
  unfold band.
  destruct (Z.ltb_spec t a), (Z.ltb_spec a 1000000),
    (Z.ltb_spec 100000000 a), (Z.ltb_spec a 1000000000);
    simpl; split; intros Hx; try discriminate; try reflexivity;
    try (split; lia); try (exfalso; lia).
Qed.

(** The thresholds a run can have: whatever [MODE] is, one of three. *)
Lemma threshold_cases MODE :
  (MODE = "ultrafast" /\ Dual.PRECISION_THRESHOLD_NS MODE = 1000
     /\ Service.PRECISION_THRESHOLD_NS MODE = Float.f1e3)
  \/ (MODE = "lazy" /\ Dual.PRECISION_THRESHOLD_NS MODE = 1000000
     /\ Service.PRECISION_THRESHOLD_NS MODE = Float.f1e6)
  \/ (String.eqb MODE "lazy" = false
     /\ Dual.PRECISION_THRESHOLD_NS MODE = 100000
     /\ Service.PRECISION_THRESHOLD_NS MODE = Float.f1e5).
Proof.
  unfold Dual.PRECISION_THRESHOLD_NS, Service.PRECISION_THRESHOLD_NS.
  destruct (String.eqb_spec MODE "ultrafast") as [->|Hu];
    [left; repeat split; reflexivity|].
  destruct (String.eqb_spec MODE "lazy") as [->|Hl].
  - right; left; repeat split; reflexivity.
  - right; right; repeat split; reflexivity.
Qed.

(** C1, the claim as stated fails: in [lazy] mode the threshold is
    1_000_000, and a skew of magnitude [threshold + 1] is left alone. *)
Lemma band_lazy_threshold_plus_one_is_no_action :
  let t := Dual.PRECISION_THRESHOLD_NS "lazy" in
  let s := 1000001 in
  Z.abs s = t + 1 /\ band t (Z.abs s) = NoAction /\ band t (Z.abs s) <> SmallAdjust.
Proof. vm_compute. repeat split; discriminate. Qed.

(** C1, amended. For every signed skew [s] and threshold [t] the chain of
    [driftMonitorDual.py] gives SmallAdjust iff [t < |s| < 1_000_000],
    ForceStep iff [100_000_000 < |s| < 1_000_000_000] and NoAction
    otherwise; the magnitudes 1_000_000, 100_000_000 and 1_000_000_000
    give NoAction; for the threshold of every mode [|s| = threshold] gives
    NoAction; [|s| = t + 1] gives SmallAdjust exactly when
    [t + 1 < 1_000_000], that is in the fast and ultrafast modes and not
    in lazy mode; and the float chain of [dispatchService.py], whose
    thresholds are the same numbers, gives the same band as the integer
    chain for every integer skew of magnitude below 2^53 ns. *)
Theorem band_classification :
  forall (t s : Z) (MODE : string),
    let a := Z.abs s in
    let p := Dual.PRECISION_THRESHOLD_NS MODE in
    (band t a = SmallAdjust <-> t < a < 1000000)
    /\ (band t a = ForceStep <-> 100000000 < a < 1000000000)
    /\ (band t a = NoAction
        <-> ~ (t < a < 1000000) /\ ~ (100000000 < a < 1000000000))
    /\ band t 1000000 = NoAction
    /\ band t 100000000 = NoAction
    /\ band t 1000000000 = NoAction
    /\ (band t (t + 1) = SmallAdjust <-> t + 1 < 1000000)
    /\ band p (Z.abs p) = NoAction
    /\ band p (Z.abs (- p)) = NoAction
    /\ band p (p + 1) = (if String.eqb MODE "lazy" then NoAction else SmallAdjust)
    /\ Service.PRECISION_THRESHOLD_NS MODE = Float.of_Z p
    /\ (Z.abs s < 2 ^ 53 ->
        band_float (Service.PRECISION_THRESHOLD_NS MODE) (Float.abs (Float.of_Z s))
        = band p a).
Proof.
  intros t s MODE a p.
  split; [apply band_small|].
  split; [apply band_force|].
  split; [apply band_none|].
  split; [apply band_none; lia|].
  split; [apply band_none; lia|].
  split; [apply band_none; lia|].
  split; [rewrite band_small; lia|].
  assert (Hf : Service.PRECISION_THRESHOLD_NS MODE = Float.of_Z p /\ 0 <= p < 2 ^ 53).
  { subst p.
    destruct (threshold_cases MODE) as [(-> & Hd & Hs)|[(-> & Hd & Hs)|(Hl & Hd & Hs)]];
      rewrite Hd, Hs; vm_compute; repeat split; intros H; discriminate H. }
  destruct Hf as [Hf Hp].
  split; [|split; [|split; [|split; [exact Hf|]]]].
  - subst p.
    destruct (threshold_cases MODE) as [(-> & Hd & Hs)|[(-> & Hd & Hs)|(Hl & Hd & Hs)]];
      rewrite Hd; reflexivity.
  - subst p.
    destruct (threshold_cases MODE) as [(-> & Hd & Hs)|[(-> & Hd & Hs)|(Hl & Hd & Hs)]];
      rewrite Hd; reflexivity.
  - subst p.
    destruct (threshold_cases MODE) as [(-> & Hd & Hs)|[(-> & Hd & Hs)|(Hl & Hd & Hs)]];
      rewrite ?Hl, Hd; reflexivity.
  - intros Hs. rewrite Hf. apply band_float_of_Z; assumption.
Qed.

Lemma band_classification_witness :
  band (Dual.PRECISION_THRESHOLD_NS "ultrafast") (Z.abs (-50000)) = SmallAdjust
  /\ band_float (Service.PRECISION_THRESHOLD_NS "ultrafast")
       (Float.abs (Float.of_Z (-50000)))
     = band (Dual.PRECISION_THRESHOLD_NS "ultrafast") (Z.abs (-50000)).
Proof.
  destruct (band_classification (Dual.PRECISION_THRESHOLD_NS "ultrafast") (-50000)
              "ultrafast")
    as (Hsmall & _ & _ & _ & _ & _ & _ & _ & _ & _ & _ & Hfloat).
  split.
  - apply Hsmall. vm_compute. split; reflexivity.
  - apply Hfloat. vm_compute. reflexivity.
Defined.

(** C2, the claim as stated fails: the lazy threshold is 1_000_000 in
    both files, which is not below 1_000_000. *)
Lemma lazy_threshold_is_one_millisecond :
  Dual.PRECISION_THRESHOLD_NS "lazy" = 1000000
  /\ ~ (Dual.PRECISION_THRESHOLD_NS "lazy" < 1000000)
  /\ Service.PRECISION_THRESHOLD_NS "lazy" = Float.f1e6
  /\ Float.ltb (Service.PRECISION_THRESHOLD_NS "lazy") Float.f1e6 = false.
Proof. vm_compute. repeat split; intros H; discriminate H. Qed.

(** C2, amended. In every mode the threshold is at most 1_000_000 ns; it
    is strictly below 1_000_000 in every mode but lazy, where it is
    1_000_000 exactly. This holds of the integers of
    [driftMonitorDual.py] and of the floats of [dispatchService.py]. *)
Theorem threshold_at_most_one_millisecond :
  forall MODE : string,
    Dual.PRECISION_THRESHOLD_NS MODE <= 1000000
    /\ (Dual.PRECISION_THRESHOLD_NS MODE <? 1000000) = negb (String.eqb MODE "lazy")
    /\ Float.ltb (Service.PRECISION_THRESHOLD_NS MODE) Float.f1e6
       = negb (String.eqb MODE "lazy")
    /\ Dual.PRECISION_THRESHOLD_NS "lazy" = 1000000
    /\ Service.PRECISION_THRESHOLD_NS "lazy" = Float.f1e6
    /\ Dual.PRECISION_THRESHOLD_NS "fast" = 100000
    /\ Dual.PRECISION_THRESHOLD_NS "ultrafast" = 1000
    /\ Service.PRECISION_THRESHOLD_NS "fast" = Float.f1e5
    /\ Service.PRECISION_THRESHOLD_NS "ultrafast" = Float.f1e3.
Proof.
  intros MODE.
  destruct (threshold_cases MODE) as [(-> & Hd & Hs)|[(-> & Hd & Hs)|(Hl & Hd & Hs)]];
    rewrite ?Hl, Hd, Hs; vm_compute; repeat split; intros H; discriminate H.
Qed.

(* ===================================================================== *)
(** * Mode selection                                                      *)
(* ===================================================================== *)

(** [parse_args] of [driftMonitorDual.py] and of [dispatchService.py]
    refuses a mode outside the three: status 2 and an error that names
    the value. *)
Lemma argparse_refuses_unknown_mode :
  forall (v : string),
    existsb (String.eqb v) ["fast"; "ultrafast"; "lazy"] = false ->
    Dual.MODE_of (Some v)
    = Exited 2 (Str.cat "argument --mode: invalid choice: " v)
    /\ Service.MODE_of (Some v)
       = Exited 2 (Str.cat "argument --mode: invalid choice: " v).
Proof.
  intros v H.
  unfold Dual.MODE_of, Service.MODE_of, parse_mode.
  rewrite H. split; reflexivity.
Qed.

Lemma argparse_accepts_known_mode :
  forall (v : string),
    existsb (String.eqb v) ["fast"; "ultrafast"; "lazy"] = true ->
    Dual.MODE_of (Some v) = Started v /\ Service.MODE_of (Some v) = Started v.
Proof.
  intros v H. unfold Dual.MODE_of, Service.MODE_of, parse_mode.
  rewrite H. split; reflexivity.
Qed.

(** C7, at the failing input. [driftMonitor.py] is never refused at
    start-up, whatever its command line; started with [--mode=bogus] it
    takes [MODE] to be [fast], and its log names that mode only. *)
Theorem monitor_unknown_mode_runs_as_fast :
  (forall (E : env) (argv : list string) (n : nat) (d : disk),
      exists r w, Monitor.program E argv n d = Ran r w)
  /\ Monitor.MODE_of ["driftMonitor.py"; "--mode=bogus"] = "fast"
  /\ Monitor.CHECK_INTERVAL (Monitor.MODE_of ["driftMonitor.py"; "--mode=bogus"]) = 30
  /\ forall (d : disk),
       memo_json d = Absent ->
       Monitor.program (env_of "Linux" (fun _ => false) (fun _ _ _ => Completed "" ""))
         ["driftMonitor.py"; "--mode=bogus"] 0 d
       = Ran (Ok tt)
           {| files := d; memo := VDict []; skew_history := [];
              trace := [Log "Dispatcher start on Linux | Mode=fast" [];
                        Log "Dispatcher complete." []];
              spawned := 0 |}.
Proof.
  split; [|split; [|split]].
  - intros E argv n d. unfold Monitor.program.
    destruct (Monitor.script E (Monitor.MODE_of argv) n (fresh d)) as [r w].
    exists r, w. reflexivity.
  - reflexivity.
  - reflexivity.
  - intros d Hd. unfold Monitor.program, Monitor.script, Monitor.load_memo.
    unfold bindM, get_disk, fresh, exists_, get_file. simpl. rewrite Hd.
    reflexivity.
Qed.

Lemma monitor_unknown_mode_runs_as_fast_witness :
  Monitor.program (env_of "Linux" (fun _ => false) (fun _ _ _ => Completed "" ""))
    ["driftMonitor.py"; "--mode=bogus"] 0
    {| memo_json := Absent; memo_tmp := Absent; writable := true |}
  = Ran (Ok tt)
      {| files := {| memo_json := Absent; memo_tmp := Absent; writable := true |};
         memo := VDict []; skew_history := [];
         trace := [Log "Dispatcher start on Linux | Mode=fast" [];
                   Log "Dispatcher complete." []];
         spawned := 0 |}.
Proof.
  apply (proj2 (proj2 (proj2 monitor_unknown_mode_runs_as_fast))). reflexivity.
Defined.

(* ===================================================================== *)
(** * Which line a probe reads                                            *)
(* ===================================================================== *)

Lemma splitlines_of_empty out :
  nonempty out = false -> Str.splitlines out = [].
Proof. destruct out; [reflexivity|discriminate]. Qed.

Lemma nonempty_of_lines out l ls :
  Str.splitlines out = l :: ls -> nonempty out = true.
Proof.
  intros H. destruct (nonempty out) eqn:Hn; [reflexivity|].
  rewrite (splitlines_of_empty out Hn) in H. discriminate.
Qed.

Lemma chrony_scan_first pre : forall l post,
  forallb (fun x => negb (Str.contains "Last offset" x)) pre = true ->
  Str.contains "Last offset" l = true ->
  Dual.chrony_scan (pre ++ l :: post) = Dual.chrony_line l.
Proof.
  induction pre as [|x pre IH]; intros l post Hpre Hl; simpl.
  - rewrite Hl. reflexivity.
  - simpl in Hpre. apply andb_prop in Hpre. destruct Hpre as [Hx Hpre].
    apply negb_true_iff in Hx. rewrite Hx. apply IH; assumption.
Qed.

Lemma tracking_scan_first pre : forall l post,
  forallb (fun x => negb (Str.contains "Last offset" x)) pre = true ->
  Str.contains "Last offset" l = true ->
  Correction.tracking_scan (pre ++ l :: post) = Correction.tracking_line l.
Proof.
  induction pre as [|x pre IH]; intros l post Hpre Hl; simpl.
  - rewrite Hl. reflexivity.
  - simpl in Hpre. apply andb_prop in Hpre. destruct Hpre as [Hx Hpre].
    apply negb_true_iff in Hx. rewrite Hx. apply IH; assumption.
Qed.

(** C8, the claim as stated fails: of two [Last offset] lines the chrony
    probe of [driftMonitorDual.py] converts the first, not the last. *)
Lemma chrony_probe_reads_first_matching_line :
  let first := "Last offset     : 0.5 seconds" in
  let last := "Last offset     : 0.25 seconds" in
  let out := Str.cat first (Str.cat Str.LF last) in
  let E := env_of "Linux" (fun _ => true) (fun _ _ _ => Completed out "") in
  let d := {| memo_json := Absent; memo_tmp := Absent; writable := true |} in
  Str.splitlines out = [first; last]
  /\ Str.contains "Last offset" first = true
  /\ Str.contains "Last offset" last = true
  /\ Dual.chrony_line first = Some 500000000
  /\ Dual.chrony_line last = Some 250000000
  /\ Dual.chrony_sample out = Some 500000000
  /\ fst (Dual.measure_skew_chrony E (fresh d)) = Ok (Some 500000000)
  /\ fst (Dual.measure_skew_chrony E (fresh d)) <> Ok (Dual.chrony_line last).
Proof. vm_compute. repeat split; intros H; discriminate H. Qed.

(** C8, amended. The stripchart probes ([measure_skew_windows_stripchart]
    of [driftMonitorDual.py], [drift_correction_windows] of
    [dispatcher.py] and [dispatchService.py]) convert the last line that
    contains a comma; the [Last offset] probes ([measure_skew_chrony] of
    [driftMonitorDual.py], [drift_correction_unix] of the other two)
    convert the first line that contains the label. *)
Theorem stripchart_reads_last_chrony_reads_first :
  (forall (out : string) (pre : list string) (l : string),
      filter (Str.contains ",") (Str.splitlines out) = pre ++ [l] ->
      Dual.stripchart_sample out = Dual.stripchart_line (Str.strip l)
      /\ Correction.stripchart_skew out = Correction.stripchart_line l)
  /\ (forall (out : string) (pre : list string) (l : string) (post : list string),
        Str.splitlines out = pre ++ l :: post ->
        forallb (fun x => negb (Str.contains "Last offset" x)) pre = true ->
        Str.contains "Last offset" l = true ->
        Dual.chrony_sample out = Dual.chrony_line l
        /\ Correction.tracking_skew out
           = match Correction.tracking_line l with Ok r => r | Raise _ => None end).
Proof.
  split.
  - intros out pre l H.
    assert (Hne : nonempty out = true).
    { destruct (Str.splitlines out) as [|x xs] eqn:Hs.
      - simpl in H. destruct pre; discriminate H.
      - eapply nonempty_of_lines, Hs. }
    split.
    + unfold Dual.stripchart_sample. rewrite Hne. simpl negb. cbv iota.
      rewrite H, map_app, rev_app_distr. reflexivity.
    + unfold Correction.stripchart_skew, Str.item_last.
      rewrite H, rev_app_distr. reflexivity.
  - intros out pre l post H Hpre Hl.
    assert (Hne : nonempty out = true).
    { destruct pre; simpl in H; eapply nonempty_of_lines, H. }
    split.
    + unfold Dual.chrony_sample. rewrite Hne, H. simpl negb. cbv iota.
      apply chrony_scan_first; assumption.
    + unfold Correction.tracking_skew. rewrite H.
      rewrite tracking_scan_first by assumption. reflexivity.
Qed.

Lemma stripchart_reads_last_chrony_reads_first_witness :
  (let out := Str.cat "15:10:00, -0.0090668s" (Str.cat Str.LF "15:10:02, +0.0100000s") in
   Dual.stripchart_sample out = Dual.stripchart_line (Str.strip "15:10:02, +0.0100000s")
   /\ Correction.stripchart_skew out = Correction.stripchart_line "15:10:02, +0.0100000s")
  /\ (let out := Str.cat "Reference ID    : A9FEA97B"
                   (Str.cat Str.LF
                      (Str.cat "Last offset     : 0.5 seconds"
                         (Str.cat Str.LF "Last offset     : 0.25 seconds"))) in
      Dual.chrony_sample out = Dual.chrony_line "Last offset     : 0.5 seconds"
      /\ Correction.tracking_skew out
         = match Correction.tracking_line "Last offset     : 0.5 seconds" with
           | Ok r => r
           | Raise _ => None
           end).
Proof.
  split.
  - apply (proj1 stripchart_reads_last_chrony_reads_first
             (Str.cat "15:10:00, -0.0090668s" (Str.cat Str.LF "15:10:02, +0.0100000s"))
             ["15:10:00, -0.0090668s"] "15:10:02, +0.0100000s").
    vm_compute. reflexivity.
  - apply (proj2 stripchart_reads_last_chrony_reads_first
             (Str.cat "Reference ID    : A9FEA97B"
                (Str.cat Str.LF
                   (Str.cat "Last offset     : 0.5 seconds"
                      (Str.cat Str.LF "Last offset     : 0.25 seconds"))))
             ["Reference ID    : A9FEA97B"] "Last offset     : 0.5 seconds"
             ["Last offset     : 0.25 seconds"]).
    + vm_compute. reflexivity.
    + vm_compute. reflexivity.
    + vm_compute. reflexivity.
Defined.

(* ===================================================================== *)
(** * [run_cmd] and the probes of [driftMonitorDual.py]                   *)
(* ===================================================================== *)

Lemma and_then_and_then w evs1 k1 evs2 k2 :
  and_then (and_then w evs1 k1) evs2 k2 = and_then w (evs1 ++ evs2) (k2 + k1).
Proof.
  unfold and_then. simpl. rewrite <- app_assoc, Nat.add_assoc. reflexivity.
Qed.

Lemma and_then_nil w : and_then w [] 0 = w.
Proof. destruct w. unfold and_then. simpl. rewrite app_nil_r. reflexivity. Qed.

(** [Dual.run_cmd] in one equation: it returns, with the stripped output
    of a completed command and with the empty string otherwise. *)
Lemma dual_run_cmd_eq E cmd timeout w :
  Dual.run_cmd E cmd timeout w
  = let o := shell E (spawned w) cmd timeout in
    (Ok (run_cmd_output o), and_then w (Spawn cmd timeout :: run_cmd_log cmd o) 1).
Proof.
  unfold Dual.run_cmd, Dual.WithLog.run_cmd, try_except, bindM, spawn, log, emit, ret.
  destruct (shell E (spawned w) cmd timeout) as [out err| |e]; simpl.
  - destruct (nonempty (Str.strip err)); simpl.
    + rewrite and_then_and_then. reflexivity.
    + reflexivity.
  - rewrite and_then_and_then. reflexivity.
  - destruct e; rewrite and_then_and_then; reflexivity.
Qed.

(** [log_to] over sinks that take every line is [log]. *)
Lemma log_to_accepting sink msg args w :
  (forall w0, sink w0 = Ok tt) -> log_to sink msg args w = log msg args w.
Proof. intros Hs. unfold log_to. rewrite Hs. reflexivity. Qed.

(** C10. [run_cmd] of [driftMonitorDual.py] returns for every command,
    timeout and outcome of the subprocess, provided [log] returns: when
    the command times out or cannot be run it logs one [[CMD-ERR]] line
    and returns the empty string. The [log] of its handlers is under no
    [try]: when the command times out or cannot be run and [log] raises,
    the exception leaves [run_cmd]. Every [measure_skew_*] returns
    [None], without raising, when [run_cmd] hands it the empty string. *)
Theorem run_cmd_is_total_and_empty_output_is_no_sample :
  forall (E : env) (cmd : string) (timeout : option Z) (w : world),
    (forall sink, (forall w0, sink w0 = Ok tt) ->
       Dual.WithLog.run_cmd E (log_to sink) cmd timeout w = Dual.run_cmd E cmd timeout w)
    /\ (forall sink e,
          (shell E (spawned w) cmd timeout = TimedOut
           \/ exists e0, shell E (spawned w) cmd timeout = Failed e0) ->
          sink (and_then w [Spawn cmd timeout] 1) = Raise e ->
          Dual.WithLog.run_cmd E (log_to sink) cmd timeout w
          = (Raise e, and_then w [Spawn cmd timeout] 1))
    /\ (exists out w', Dual.run_cmd E cmd timeout w = (Ok out, w'))
    /\ (shell E (spawned w) cmd timeout = TimedOut ->
        Dual.run_cmd E cmd timeout w
        = (Ok "", and_then w [Spawn cmd timeout;
                              Log (Str.cat "[CMD-ERR] Timeout running: " cmd) []] 1))
    /\ (forall e, shell E (spawned w) cmd timeout = Failed e ->
        exists line,
          Dual.run_cmd E cmd timeout w
          = (Ok "", and_then w [Spawn cmd timeout; line] 1)
          /\ probe_event line = true /\ In line (run_cmd_log cmd (Failed e)))
    /\ Dual.stripchart_sample "" = None
    /\ Dual.status_sample "" = Ok None
    /\ Dual.chrony_sample "" = None
    /\ Dual.ntpd_sample "" = None
    /\ (forall w',
          Dual.run_cmd E "w32tm /stripchart /computer:time.windows.com /dataonly /samples:1"
            (Some 10) w = (Ok "", w') ->
          Dual.measure_skew_windows_stripchart E w = (Ok None, w'))
    /\ (forall w',
          Dual.run_cmd E "w32tm /query /status" (Some 6) w = (Ok "", w') ->
          Dual.measure_skew_windows_status E w = (Ok None, w'))
    /\ (forall w1 w2,
          Dual.run_cmd E "w32tm /stripchart /computer:time.windows.com /dataonly /samples:1"
            (Some 10) w = (Ok "", w1) ->
          Dual.run_cmd E "w32tm /query /status" (Some 6) w1 = (Ok "", w2) ->
          Dual.measure_skew_windows E w = (Ok None, w2))
    /\ (forall w',
          Dual.run_cmd E "chronyc tracking" (Some 6) w = (Ok "", w') ->
          Dual.measure_skew_chrony E w = (Ok None, w'))
    /\ (forall w',
          Dual.run_cmd E "ntpq -c rv" (Some 6) w = (Ok "", w') ->
          Dual.measure_skew_ntpd E w = (Ok None, w')).
Proof.
  intros E cmd timeout w.
  split; [|split; [|split; [|split; [|split]]]].
  - intros sink Hs.
    unfold Dual.run_cmd, Dual.WithLog.run_cmd, try_except, bindM, spawn, ret.
    destruct (shell E (spawned w) cmd timeout) as [out err| |e]; cbv beta iota.
    + cbn [fst snd]. destruct (nonempty (Str.strip err)); [|reflexivity].
      rewrite (log_to_accepting sink) by exact Hs.
      destruct (log _ _ _) as [[[]|e] w1]; [reflexivity|].
      destruct e; rewrite (log_to_accepting sink) by exact Hs; reflexivity.
    + rewrite (log_to_accepting sink) by exact Hs. reflexivity.
    + destruct e; rewrite (log_to_accepting sink) by exact Hs; reflexivity.
  - intros sink e H Hs.
    unfold Dual.WithLog.run_cmd, try_except, bindM, spawn, log_to.
    destruct H as [H|[e0 H]]; rewrite H; cbv beta iota.
    + rewrite Hs. reflexivity.
    + destruct e0; rewrite Hs; reflexivity.
  - rewrite dual_run_cmd_eq. eexists. eexists. reflexivity.
  - intros H. rewrite dual_run_cmd_eq, H. reflexivity.
  - intros e H. rewrite dual_run_cmd_eq, H. simpl.
    destruct e; eexists; (split; [reflexivity|split; [reflexivity|left; reflexivity]]).
  - repeat split.
    + intros w' H. unfold Dual.measure_skew_windows_stripchart, bindM. rewrite H. reflexivity.
    + intros w' H. unfold Dual.measure_skew_windows_status, bindM. rewrite H. reflexivity.
    + intros w1 w2 H1 H2.
      unfold Dual.measure_skew_windows, Dual.measure_skew_windows_stripchart,
        Dual.measure_skew_windows_status, bindM.
      rewrite H1. simpl. rewrite H2. reflexivity.
    + intros w' H. unfold Dual.measure_skew_chrony, bindM. rewrite H. reflexivity.
    + intros w' H. unfold Dual.measure_skew_ntpd, bindM. rewrite H. reflexivity.
Qed.

Lemma run_cmd_is_total_and_empty_output_is_no_sample_witness :
  let E := linux_host_timing_out in
  let w := fresh empty_disk in
  let w' := and_then w [Spawn "chronyc tracking" (Some 6);
                        Log "[CMD-ERR] Timeout running: chronyc tracking" []] 1 in
  Dual.WithLog.run_cmd E (log_to accepting) "chronyc tracking" (Some 6) w = (Ok "", w')
  /\ Dual.run_cmd E "chronyc tracking" (Some 6) w = (Ok "", w')
  /\ Dual.measure_skew_chrony E w = (Ok None, w').
Proof.
  destruct (run_cmd_is_total_and_empty_output_is_no_sample
              linux_host_timing_out "chronyc tracking" (Some 6) (fresh empty_disk))
    as (Hlog & _ & _ & Htimeout & _ & _ & _ & _ & _ & _ & _ & _ & Hchrony & _).
  split; [|split].
  - rewrite (Hlog accepting) by reflexivity. apply Htimeout. reflexivity.
  - apply Htimeout. reflexivity.
  - apply Hchrony. apply Htimeout. reflexivity.
Defined.

(** C10, the counterexample. [chronyc tracking] times out while
    [status.log] cannot be appended: the [log] of the handler raises
    [OSError], which leaves [run_cmd]. *)
Lemma run_cmd_propagates_what_log_raises :
  let w := fresh read_only_disk in
  Dual.WithLog.run_cmd linux_host_timing_out (log_to refusing)
    "chronyc tracking" (Some 6) w
  = (Raise (OSError "Permission denied"),
     and_then w [Spawn "chronyc tracking" (Some 6)] 1).
Proof. reflexivity. Qed.

(* ===================================================================== *)
(** * A cycle whose probe fails                                           *)
(* ===================================================================== *)

Lemma run_cmd_log_probe cmd o : forallb probe_event (run_cmd_log cmd o) = true.
Proof.
  destruct o as [out err| |e].
  - unfold run_cmd_log. destruct (nonempty (Str.strip err)); reflexivity.
  - reflexivity.
  - destruct e; reflexivity.
Qed.

Lemma returns_sample_ret x : returns_sample (ret (Some x)).
Proof. intros w r w' H. inversion H. discriminate. Qed.

Lemma returns_sample_bind {A} (c : M A) (k : A -> M (option Z)) :
  (forall a, returns_sample (k a)) -> returns_sample (bindM c k).
Proof.
  intros Hk w r w' H. unfold bindM in H.
  destruct (c w) as [[a|e] w1].
  - eapply Hk, H.
  - inversion H. discriminate.
Qed.

Ltac returns_sample :=
  repeat first [ apply returns_sample_ret
               | apply returns_sample_bind; intros ? ].

(** What follows a sample on Windows stops at its first step, the read
    of the local [memo]. *)
Lemma dual_windows_sample_is_unbound {A} (k : pyval -> M A) (w : world) :
  (m <- Dual.local None ;; k m) w = (Raise UnboundLocalError, w).
Proof. reflexivity. Qed.

Lemma dual_stripchart_eq E w :
  Dual.measure_skew_windows_stripchart E w
  = let cmd := "w32tm /stripchart /computer:time.windows.com /dataonly /samples:1" in
    let o := shell E (spawned w) cmd (Some 10) in
    (Ok (Dual.stripchart_sample (run_cmd_output o)),
     and_then w (Spawn cmd (Some 10) :: run_cmd_log cmd o) 1).
Proof.
  unfold Dual.measure_skew_windows_stripchart, bindM.
  rewrite dual_run_cmd_eq. reflexivity.
Qed.

Lemma dual_status_eq E w :
  Dual.measure_skew_windows_status E w
  = let cmd := "w32tm /query /status" in
    let o := shell E (spawned w) cmd (Some 6) in
    (Dual.status_sample (run_cmd_output o),
     and_then w (Spawn cmd (Some 6) :: run_cmd_log cmd o) 1).
Proof.
  unfold Dual.measure_skew_windows_status, bindM, lift.
  rewrite dual_run_cmd_eq. reflexivity.
Qed.

Lemma dual_chrony_eq E w :
  Dual.measure_skew_chrony E w
  = let cmd := "chronyc tracking" in
    let o := shell E (spawned w) cmd (Some 6) in
    (Ok (Dual.chrony_sample (run_cmd_output o)),
     and_then w (Spawn cmd (Some 6) :: run_cmd_log cmd o) 1).
Proof.
  unfold Dual.measure_skew_chrony, bindM.
  rewrite dual_run_cmd_eq. reflexivity.
Qed.

Lemma dual_ntpd_eq E w :
  Dual.measure_skew_ntpd E w
  = let cmd := "ntpq -c rv" in
    let o := shell E (spawned w) cmd (Some 6) in
    (Ok (Dual.ntpd_sample (run_cmd_output o)),
     and_then w (Spawn cmd (Some 6) :: run_cmd_log cmd o) 1).
Proof.
  unfold Dual.measure_skew_ntpd, bindM.
  rewrite dual_run_cmd_eq. reflexivity.
Qed.

(** A probe only measures: it leaves files, memo and history alone, and
    its events are measuring commands and their [[CMD-ERR]] lines. *)
Lemma dual_probe_only_measures E w r w' :
  dual_probe E w = (r, w') ->
  exists evs k, w' = and_then w evs k /\ forallb probe_event evs = true.
Proof.
  unfold dual_probe, Dual.measure_skew_windows, bindM.
  destruct (IS_WINDOWS E).
  - rewrite dual_stripchart_eq. cbv zeta.
    destruct (Dual.stripchart_sample _) as [n|].
    + intros H. inversion H; subst. eexists. eexists. split; [reflexivity|].
      simpl. apply run_cmd_log_probe.
    + rewrite dual_status_eq. cbv zeta. intros H. inversion H; subst.
      rewrite and_then_and_then. eexists. eexists. split; [reflexivity|].
      rewrite forallb_app. simpl. rewrite !run_cmd_log_probe. reflexivity.
  - destruct (which E "chronyc").
    + rewrite dual_chrony_eq. cbv zeta. intros H. inversion H; subst.
      eexists. eexists. split; [reflexivity|]. simpl. apply run_cmd_log_probe.
    + destruct (which E "ntpq").
      * rewrite dual_ntpd_eq. cbv zeta. intros H. inversion H; subst.
        eexists. eexists. split; [reflexivity|]. simpl. apply run_cmd_log_probe.
      * intros H. inversion H; subst. exists [], O. split; [|reflexivity].
        symmetry. apply and_then_nil.
Qed.

Lemma bindM_eq {A B} (c : M A) (k : A -> M B) (w : world) :
  bindM c k w
  = match c w with
    | (Ok a, w1) => k a w1
    | (Raise e, w1) => (Raise e, w1)
    end.
Proof. reflexivity. Qed.

Lemma dual_cycle_of_probe E MODE w :
  (forall w1, dual_probe E w = (Ok None, w1) ->
     exists line, In line probe_failure_lines
       /\ Dual.cycle E MODE w = (Ok None, and_then w1 [Log line []] 0))
  /\ (forall w', Dual.cycle E MODE w = (Ok None, w') ->
        exists w1, dual_probe E w = (Ok None, w1)).
Proof.
  unfold Dual.cycle, dual_probe, Dual.drift_check_and_correct_windows,
    Dual.drift_check_and_correct_unix.
  destruct (IS_WINDOWS E).
  - rewrite bindM_eq.
    destruct (Dual.measure_skew_windows E w) as [[[n|]|e] w1]; split.
    + intros w2 H. discriminate H.
    + intros w' H. rewrite dual_windows_sample_is_unbound in H. discriminate H.
    + intros w2 H. inversion H; subst. eexists. split; [left; reflexivity|reflexivity].
    + intros w' H. exists w1. reflexivity.
    + intros w2 H. discriminate H.
    + intros w' H. discriminate H.
  - destruct (which E "chronyc").
    + rewrite bindM_eq.
      destruct (Dual.measure_skew_chrony E w) as [[[n|]|e] w1]; split.
      * intros w2 H. discriminate H.
      * intros w' H. exfalso. revert H.
        match goal with |- ?c w1 = _ -> _ =>
          intros H; assert (R : returns_sample c) by returns_sample;
          eapply R; [exact H|reflexivity] end.
      * intros w2 H. inversion H; subst. eexists.
        split; [right; left; reflexivity|reflexivity].
      * intros w' H. exists w1. reflexivity.
      * intros w2 H. discriminate H.
      * intros w' H. discriminate H.
    + destruct (which E "ntpq").
      * rewrite bindM_eq.
        destruct (Dual.measure_skew_ntpd E w) as [[[n|]|e] w1]; split.
        -- intros w2 H. discriminate H.
        -- intros w' H. exfalso. revert H.
           match goal with |- ?c w1 = _ -> _ =>
             intros H; assert (R : returns_sample c) by returns_sample;
             eapply R; [exact H|reflexivity] end.
        -- intros w2 H. inversion H; subst. eexists.
           split; [right; left; reflexivity|reflexivity].
        -- intros w' H. exists w1. reflexivity.
        -- intros w2 H. discriminate H.
        -- intros w' H. discriminate H.
      * split.
        -- intros w1 H. inversion H; subst. eexists.
           split; [right; right; left; reflexivity|reflexivity].
        -- intros w' H. exists w. reflexivity.
Qed.

(** X10. The Dispatch Loop of [driftMonitorDual.py] on a failed probe: nothing
    but the probe's own events and one probe-failure line happens, files,
    memo and history stay as they were, and the loop goes on with the
    frame, the sleep and the next round. *)
Lemma dual_failed_probe_skips_the_cycle :
  forall (E : env) (MODE : string) (w w' : world),
    Dual.cycle E MODE w = (Ok None, w') ->
    exists evs k line,
      w' = and_then w (evs ++ [Log line []]) k
      /\ forallb probe_event evs = true
      /\ In line probe_failure_lines
      /\ files w' = files w /\ memo w' = memo w
      /\ skew_history w' = skew_history w
      /\ forall n,
           Dual.ultrafast_loop_rounds E MODE (S n) w
           = Dual.ultrafast_loop_rounds E MODE n
               (and_then w' [Draw (skew_history w); Sleep (Dual.CHECK_INTERVAL MODE)] 0).
Proof.
  intros E MODE w w' H.
  destruct (dual_cycle_of_probe E MODE w) as [Hfwd Hbwd].
  destruct (Hbwd w' H) as [w1 Hp].
  destruct (Hfwd w1 Hp) as [line [Hline Hc]].
  rewrite Hc in H. inversion H; subst w'. clear H.
  destruct (dual_probe_only_measures E w _ _ Hp) as [evs [k [-> Hevs]]].
  exists evs, k, line.
  rewrite and_then_and_then. rewrite Nat.add_0_l.
  repeat split; try assumption; try reflexivity.
  intros n. simpl Dual.ultrafast_loop_rounds at 1.
  unfold bindM at 1. rewrite Hc.
  unfold bindM at 1. unfold Dual.draw_tui, bindM, get_history, emit.
  simpl. rewrite !and_then_and_then.
  f_equal. unfold and_then. simpl. f_equal.
  rewrite <- !app_assoc. reflexivity.
Qed.

(* ===================================================================== *)
(** * The memo store                                                      *)
(* ===================================================================== *)

Lemma snoc_cat s c t : Str.cat (Str.snoc s c) t = Str.cat s (String c t).
Proof.
  unfold Str.cat, Str.snoc.
  induction s as [|a s IH]; simpl; [reflexivity|]. rewrite IH. reflexivity.
Qed.

Lemma cat_empty_r s : Str.cat s "" = s.
Proof.
  unfold Str.cat. induction s as [|a s IH]; simpl; [reflexivity|].
  rewrite IH. reflexivity.
Qed.

Lemma get_set_file d p f : get_file (set_file d p f) p = f.
Proof. destruct p; reflexivity. Qed.

Lemma set_set_file d p f g : set_file (set_file d p f) p g = set_file d p g.
Proof. destruct p; reflexivity. Qed.

Lemma writable_set_file d p f : writable (set_file d p f) = writable d.
Proof. destruct p; reflexivity. Qed.

Lemma exec_ops_app ops1 : forall ops2 d,
  exec_ops (ops1 ++ ops2) d
  = match exec_ops ops1 d with
    | (d', None) => exec_ops ops2 d'
    | (d', Some e) => (d', Some e)
    end.
Proof.
  induction ops1 as [|o ops1 IH]; intros ops2 d; simpl; [reflexivity|].
  destruct (exec_op o d) as [d'|e]; [apply IH|reflexivity].
Qed.

(** Writing [text] to an open file appends it. *)
Lemma exec_write_text p text : forall d pre,
  get_file d p = Present pre ->
  exec_ops (write_text p text) d = (set_file d p (Present (Str.cat pre text)), None).
Proof.
  unfold write_text.
  induction text as [|c text IH]; intros d pre H; simpl.
  - rewrite cat_empty_r. rewrite <- H. destruct p, d; reflexivity.
  - rewrite H.
    rewrite (IH (set_file d p (Present (Str.snoc pre c))) (Str.snoc pre c))
      by apply get_set_file.
    rewrite set_set_file, snoc_cat. reflexivity.
Qed.

Lemma exec_write_in_place p text d :
  writable d = true ->
  exec_ops (write_in_place p text) d = (set_file d p (Present text), None).
Proof.
  intros H. unfold write_in_place. simpl. rewrite H.
  rewrite (exec_write_text p text _ "") by apply get_set_file.
  rewrite set_set_file. reflexivity.
Qed.

Lemma exec_write_replace text d :
  writable d = true ->
  exec_ops (write_replace MEMO_TMP MEMO_FILE text) d
  = ({| memo_json := Present text; memo_tmp := Absent; writable := true |}, None).
Proof.
  intros H. unfold write_replace.
  rewrite exec_ops_app, exec_write_in_place by exact H.
  simpl. rewrite H. reflexivity.
Qed.

Lemma exec_op_spares_memo o d d' :
  spares_memo o = true -> exec_op o d = Ok d' -> memo_json d' = memo_json d.
Proof.
  destruct o as [[|]|[|] c|src dst]; try discriminate; intros _; simpl.
  - destruct (writable d); intros H; inversion H; reflexivity.
  - destruct (memo_tmp d); intros H; inversion H; reflexivity.
Qed.

Lemma exec_ops_spare_memo ops : forall d,
  forallb spares_memo ops = true ->
  memo_json (fst (exec_ops ops d)) = memo_json d.
Proof.
  induction ops as [|o ops IH]; intros d H; simpl; [reflexivity|].
  simpl in H. apply andb_prop in H. destruct H as [Ho Hops].
  destruct (exec_op o d) as [d'|e] eqn:He; [|reflexivity].
  rewrite (IH d' Hops). eapply exec_op_spares_memo; eassumption.
Qed.

Lemma write_in_place_tmp_spares_memo text :
  forallb spares_memo (write_in_place MEMO_TMP text) = true.
Proof.
  unfold write_in_place, write_text. simpl.
  induction (list_ascii_of_string text) as [|c l IH]; simpl; [reflexivity|exact IH].
Qed.

Lemma forallb_firstn {A} (f : A -> bool) (l : list A) : forall k,
  forallb f l = true -> forallb f (firstn k l) = true.
Proof.
  induction l as [|x l IH]; intros [|k] H; simpl; try reflexivity.
  simpl in H. apply andb_prop in H. destruct H as [Hx Hl].
  rewrite Hx. simpl. apply IH, Hl.
Qed.

(** X11. [save_memo] of [driftMonitorDual.py] is atomic: stopped before its
    last step, the replace, it has not touched the memo file, and a
    restart loads what it would have loaded before the save. *)
Lemma dual_save_memo_is_atomic :
  forall (E : env) (m : pyval) (d : disk) (k : nat),
    (k < List.length (Dual.save_memo_steps E m))%nat ->
    memo_json (interrupted k (Dual.save_memo_steps E m) d) = memo_json d
    /\ fst (Dual.load_memo E (fresh (interrupted k (Dual.save_memo_steps E m) d)))
       = fst (Dual.load_memo E (fresh d))
    /\ trace (snd (Dual.load_memo E (fresh (interrupted k (Dual.save_memo_steps E m) d))))
       = trace (snd (Dual.load_memo E (fresh d))).
Proof.
  intros E m d k Hk.
  assert (Hm : memo_json (interrupted k (Dual.save_memo_steps E m) d) = memo_json d).
  { unfold interrupted, Dual.save_memo_steps, write_replace in *.
    rewrite firstn_app.
    rewrite length_app in Hk.
    remember (write_in_place MEMO_TMP (json_dumps E m)) as ops eqn:Hops.
    simpl in Hk.
    replace (k - List.length ops)%nat with O by lia.
    simpl. rewrite app_nil_r. subst ops.
    apply exec_ops_spare_memo, forallb_firstn, write_in_place_tmp_spares_memo. }
  split; [exact Hm|].
  unfold Dual.load_memo, Dual.WithLog.load_memo, try_except, bindM, get_disk, exists_,
    read_text, lift, fresh.
  simpl. rewrite Hm.
  destruct (memo_json d) as [|text|]; simpl.
  - split; reflexivity.
  - destruct (json_loads E text); split; reflexivity.
  - split; reflexivity.
Qed.

(** What the in-place readers make of the memo file of [d]. *)
Lemma read_last_skew_eq E w :
  Correction.read_last_skew E w
  = (match memo_json (files w) with
     | Absent => Ok (VInt 0)
     | Present text =>
         match json_loads E text with
         | Ok data => Dict.get data "last_skew_ns" (VInt 0)
         | Raise e => Raise e
         end
     | Unreadable => Raise (OSError "Permission denied")
     end, w).
Proof.
  unfold Correction.read_last_skew, bindM, get_disk, exists_, read_text, lift, get_file.
  destruct (memo_json (files w)) as [|text|]; try reflexivity.
  destruct (json_loads E text); reflexivity.
Qed.

Lemma correction_run_cmd_files E cmd w :
  files (snd (Correction.run_cmd E cmd w)) = files w.
Proof.
  unfold Correction.run_cmd, bindM, spawn, log, emit, ret.
  destruct (shell E (spawned w) cmd None) as [out err| |e]; simpl; try reflexivity.
  destruct (nonempty (Str.strip err)); reflexivity.
Qed.

(** [drift_correction_windows] of [dispatcher.py] and
    [dispatchService.py] raises whenever reading the memo does. *)
Lemma correction_raises_with_the_memo E threshold w e :
  (forall w1, files w1 = files w ->
     fst (Correction.read_last_skew E w1) = Raise e) ->
  exists e', fst (Correction.drift_correction_windows E threshold w) = Raise e'.
Proof.
  intros Hread.
  unfold Correction.drift_correction_windows.
  rewrite bindM_eq. unfold log at 1, emit at 1.
  rewrite bindM_eq.
  pose proof (correction_run_cmd_files E
    "w32tm /stripchart /computer:time.windows.com /dataonly /samples:1"
    (and_then w [Log "[INFO] Checking clock skew for high-precision adjustment..." []] 0))
    as Hf.
  destruct (Correction.run_cmd E _ _) as [[output|e0] w1]; [|exists e0; reflexivity].
  simpl in Hf.
  rewrite bindM_eq.
  destruct (Correction.stripchart_skew output) as [x|e1].
  - unfold ret at 1. rewrite bindM_eq.
    pose proof (Hread w1 Hf) as Hr.
    destruct (Correction.read_last_skew E w1) as [[v|e2] w2]; simpl in Hr;
      [discriminate Hr|]. exists e2. reflexivity.
  - rewrite bindM_eq. unfold log at 1, emit at 1. unfold ret at 1.
    rewrite bindM_eq.
    pose proof (Hread (and_then w1
      [Log "[WARN] Could not parse skew, defaulting to forced resync" []] 0) Hf) as Hr.
    destruct (Correction.read_last_skew E _) as [[v|e2] w2]; simpl in Hr;
      [discriminate Hr|]. exists e2. reflexivity.
Qed.

Lemma interrupted_in_place_after_open p text d :
  writable d = true ->
  interrupted 1 (write_in_place p text) d = set_file d p (Present "").
Proof.
  intros H. unfold interrupted, write_in_place. simpl. rewrite H. reflexivity.
Qed.

(** C4, at the failing input. [dispatcher.py], [dispatchService.py] and
    [driftMonitor.py] write the memo file in place. Stopped after the
    first step of the write, they leave an empty memo file behind: where
    the memo read [v0] before, the next run of [dispatcher.py] or
    [dispatchService.py] raises on reading it, and [driftMonitor.py]
    loads the default memo. *)
Theorem in_place_memo_write_is_not_atomic :
  forall (E : env) (skew_ns : spec_float) (data : pyval) (d : disk)
         (text0 : string) (v0 : pyval),
    writable d = true ->
    memo_json d = Present text0 ->
    json_loads E text0 = Ok (VDict [("last_skew_ns", v0)]) ->
    json_loads E "" = Raise JSONDecodeError ->
    let d1 := interrupted 1 (Correction.write_memo_steps E skew_ns) d in
    let d2 := interrupted 1 (Monitor.save_memo_steps E data) d in
    Correction.read_last_skew E (fresh d) = (Ok v0, fresh d)
    /\ memo_json d1 = Present ""
    /\ Correction.read_last_skew E (fresh d1) = (Raise JSONDecodeError, fresh d1)
    /\ (exists e, fst (Dispatcher.drift_correction_windows E (fresh d1)) = Raise e)
    /\ (forall MODE,
          exists e, fst (Service.drift_correction_windows E MODE (fresh d1)) = Raise e)
    /\ Monitor.load_memo E (fresh d) = (Ok (VDict [("last_skew_ns", v0)]), fresh d)
    /\ memo_json d2 = Present ""
    /\ Monitor.load_memo E (fresh d2) = (Ok (VDict []), fresh d2).
Proof.
  intros E skew_ns data d text0 v0 Hw Hd H0 Hempty d1 d2.
  assert (H1 : memo_json d1 = Present "").
  { unfold d1, Correction.write_memo_steps.
    rewrite interrupted_in_place_after_open by exact Hw. reflexivity. }
  assert (H2 : memo_json d2 = Present "").
  { unfold d2, Monitor.save_memo_steps.
    rewrite interrupted_in_place_after_open by exact Hw. reflexivity. }
  assert (Hr : forall w1, files w1 = files (fresh d1) ->
             fst (Correction.read_last_skew E w1) = Raise JSONDecodeError).
  { intros w1 Hf. rewrite read_last_skew_eq, Hf. simpl. rewrite H1, Hempty. reflexivity. }
  split; [|split; [|split; [|split; [|split; [|split; [|split]]]]]].
  - rewrite read_last_skew_eq. simpl. rewrite Hd, H0. reflexivity.
  - exact H1.
  - rewrite read_last_skew_eq. simpl. rewrite H1, Hempty. reflexivity.
  - apply (correction_raises_with_the_memo E _ _ JSONDecodeError Hr).
  - intros MODE. apply (correction_raises_with_the_memo E _ _ JSONDecodeError Hr).
  - unfold Monitor.load_memo, bindM, get_disk, exists_, try_except, read_text, lift, get_file.
    simpl. rewrite Hd, H0. reflexivity.
  - exact H2.
  - unfold Monitor.load_memo, bindM, get_disk, exists_, try_except, read_text, lift, get_file.
    simpl. rewrite H2, Hempty. reflexivity.
Qed.

Lemma in_place_memo_write_is_not_atomic_witness :
  let E := windows_host "15:10:00, -0.0090668s" in
  let v0 := VFloat (Float.of_Z 500) in
  let d := disk_with (VDict [("last_skew_ns", v0)]) in
  let d1 := interrupted 1 (Correction.write_memo_steps E (Float.of_Z (-9066800))) d in
  let d2 := interrupted 1 (Monitor.save_memo_steps E (VDict [("last_skew", VInt 7)])) d in
  Correction.read_last_skew E (fresh d) = (Ok v0, fresh d)
  /\ memo_json d1 = Present ""
  /\ Correction.read_last_skew E (fresh d1) = (Raise JSONDecodeError, fresh d1)
  /\ (exists e, fst (Dispatcher.drift_correction_windows E (fresh d1)) = Raise e)
  /\ (forall MODE,
        exists e, fst (Service.drift_correction_windows E MODE (fresh d1)) = Raise e)
  /\ Monitor.load_memo E (fresh d) = (Ok (VDict [("last_skew_ns", v0)]), fresh d)
  /\ memo_json d2 = Present ""
  /\ Monitor.load_memo E (fresh d2) = (Ok (VDict []), fresh d2).
Proof.
  apply (in_place_memo_write_is_not_atomic
           (windows_host "15:10:00, -0.0090668s")
           (Float.of_Z (-9066800))
           (VDict [("last_skew", VInt 7)])
           (disk_with (VDict [("last_skew_ns", VFloat (Float.of_Z 500))]))
           (MiniJson.dumps (VDict [("last_skew_ns", VFloat (Float.of_Z 500))]))
           (VFloat (Float.of_Z 500))).
  - reflexivity.
  - reflexivity.
  - vm_compute. reflexivity.
  - vm_compute. reflexivity.
Defined.


(** C5, at the failing input. [drift_correction_windows] of
    [dispatcher.py] and [dispatchService.py] reads the memo file without
    a handler: on a memo file that does not parse, the read raises what
    [json.load] raises, and so does the whole correction. *)
Theorem unguarded_memo_read_raises_on_corrupt_file :
  forall (E : env) (w : world) (text : string) (e : exn),
    memo_json (files w) = Present text ->
    json_loads E text = Raise e ->
    Correction.read_last_skew E w = (Raise e, w)
    /\ (exists e', fst (Dispatcher.drift_correction_windows E w) = Raise e')
    /\ (forall MODE,
          exists e', fst (Service.drift_correction_windows E MODE w) = Raise e').
Proof.
  intros E w text e Hm Hj.
  assert (Hr : forall w1, files w1 = files w ->
             fst (Correction.read_last_skew E w1) = Raise e).
  { intros w1 Hf. rewrite read_last_skew_eq, Hf. simpl. rewrite Hm, Hj. reflexivity. }
  split; [|split].
  - rewrite read_last_skew_eq, Hm, Hj. reflexivity.
  - apply (correction_raises_with_the_memo E _ _ e Hr).
  - intros MODE. apply (correction_raises_with_the_memo E _ _ e Hr).
Qed.

Lemma unguarded_memo_read_raises_on_corrupt_file_witness :
  let E := windows_host "15:10:00, -0.0090668s" in
  let w := fresh {| memo_json := Present "{"; memo_tmp := Absent; writable := true |} in
  Correction.read_last_skew E w = (Raise JSONDecodeError, w)
  /\ (exists e', fst (Dispatcher.drift_correction_windows E w) = Raise e')
  /\ (forall MODE,
        exists e', fst (Service.drift_correction_windows E MODE w) = Raise e').
Proof.
  apply (unguarded_memo_read_raises_on_corrupt_file
           (windows_host "15:10:00, -0.0090668s")
           (fresh {| memo_json := Present "{"; memo_tmp := Absent; writable := true |})
           "{" JSONDecodeError).
  - reflexivity.
  - vm_compute. reflexivity.
Defined.

Lemma perform_ok ops w d' :
  exec_ops ops (files w) = (d', None) ->
  perform ops w
  = (Ok tt, {| files := d'; memo := memo w; skew_history := skew_history w;
               trace := trace w; spawned := spawned w |}).
Proof. intros H. unfold perform. rewrite H. reflexivity. Qed.



(* ===================================================================== *)
(** * A failed probe in the other variants                                *)
(* ===================================================================== *)

(** One step of a run: a bind applied to a state, or a primitive. *)
Ltac run_step :=
  first [ rewrite bindM_eq
        | progress unfold ret, lift, get_memo, put_memo, get_history, put_history,
            get_disk, log, emit
        | progress unfold Dict.get, Dict.setitem
        | progress cbv beta iota ].

Lemma monitor_run_cmd_eq E cmd w :
  Monitor.run_cmd E cmd w
  = (Ok (monitor_run_cmd_output (shell E (spawned w) cmd None)),
     and_then w [Spawn cmd None] 1).
Proof.
  unfold Monitor.run_cmd, try_except, bindM, spawn, ret.
  destruct (shell E (spawned w) cmd None); reflexivity.
Qed.

Lemma offset_scan_without_offset lines : forall ns,
  forallb (fun l => negb (Str.contains "Offset" l)) lines = true ->
  Monitor.offset_scan ns lines = ns.
Proof.
  induction lines as [|l lines IH]; intros ns H; simpl; [reflexivity|].
  simpl in H. apply andb_prop in H. destruct H as [Hl Hr].
  apply negb_true_iff in Hl. rewrite Hl. apply IH, Hr.
Qed.

(** C3, at the failing inputs. (1) [driftMonitor.py] has no failed
    probe: when the output of [w32tm /query /status] has no [Offset] line
    (the tool could not be run, or printed an error), the skew is taken
    to be 0, which is in the small band of this file, so that the pass
    logs a skew of 0, issues [w32tm /resync /nowait], and saves the memo.
    (2) In [driftMonitorDual.py] the status probe catches [ValueError]
    only: on an [Offset] line whose number is too long for a finite float
    the conversion raises [OverflowError], which ends the continuous loop
    in its first round, without a probe-failure line. *)
Theorem failed_probe_corrects_in_monitor_and_can_stop_dual :
  (forall (E : env) (w : world) (d : list (string * pyval)),
      memo w = VDict d ->
      writable (files w) = true ->
      forallb (fun l => negb (Str.contains "Offset" l))
        (Str.splitlines
           (monitor_run_cmd_output (shell E (spawned w) "w32tm /query /status" None)))
      = true ->
      Monitor.drift_correction_windows E w
      = (Ok tt,
         {| files := set_file (files w) MEMO_FILE
                       (Present (json_dumps E (VDict (Dict.update d "last_skew" (VInt 0)))));
            memo := VDict (Dict.update d "last_skew" (VInt 0));
            skew_history := Deque.append Monitor.HISTORY_LEN (skew_history w) 0;
            trace := trace w ++
                     [Spawn "w32tm /query /status" None;
                      Log "[INFO] Current skew: {} ns (last: {} ns)"
                        [AVal (VInt 0);
                         AVal (match Dict.lookup d "last_skew" with
                               | Some v => v
                               | None => VInt 0
                               end)];
                      Log "[INFO] Small skew -> gradual resync" [];
                      Spawn "w32tm /resync /nowait" None];
            spawned := 2 + spawned w |}))
  /\ Dual.status_sample huge_offset_line = Raise OverflowError
  /\ Dual.script windows_host_huge_offset "ultrafast" 3 (fresh empty_disk)
     = (Raise OverflowError,
        {| files := empty_disk; memo := VDict []; skew_history := [0; 0; 0; 0];
           trace := [Log "Starting dispatchTUI on Windows | Mode=ultrafast" [];
                     Log "[ULTRAFAST] Entering continuous monitoring loop..." [];
                     Spawn stripchart_command (Some 10);
                     Spawn "w32tm /query /status" (Some 6)];
           spawned := 2 |}).
Proof.
  split; [|split; vm_compute; reflexivity].
  intros E w d Hm Hw Hout.
  unfold Monitor.drift_correction_windows, Monitor.measure_skew_windows.
  repeat first [ rewrite monitor_run_cmd_eq
               | rewrite (offset_scan_without_offset _ 0 Hout)
               | rewrite Hm
               | progress change (Monitor.band_of 0) with SmallAdjust
               | progress simpl memo
               | run_step ].
  unfold Monitor.save_memo, Monitor.save_memo_steps.
  erewrite perform_ok; [|apply exec_write_in_place; exact Hw].
  unfold and_then. simpl. rewrite <- !app_assoc. reflexivity.
Qed.

Lemma failed_probe_corrects_in_monitor_and_can_stop_dual_witness :
  let E := windows_host service_not_started in
  let w := {| files := empty_disk; memo := VDict []; skew_history := [];
              trace := []; spawned := 0 |} in
  Monitor.drift_correction_windows E w
  = (Ok tt,
     {| files := set_file empty_disk MEMO_FILE
                   (Present (MiniJson.dumps (VDict [("last_skew", VInt 0)])));
        memo := VDict [("last_skew", VInt 0)];
        skew_history := [0];
        trace := [Spawn "w32tm /query /status" None;
                  Log "[INFO] Current skew: {} ns (last: {} ns)"
                    [AVal (VInt 0); AVal (VInt 0)];
                  Log "[INFO] Small skew -> gradual resync" [];
                  Spawn "w32tm /resync /nowait" None];
        spawned := 2 |}).
Proof.
  apply (proj1 failed_probe_corrects_in_monitor_and_can_stop_dual
           (windows_host service_not_started)
           {| files := empty_disk; memo := VDict []; skew_history := [];
              trace := []; spawned := 0 |} []).
  - reflexivity.
  - reflexivity.
  - vm_compute. reflexivity.
Defined.

Lemma correction_run_cmd_completed E cmd w out err :
  shell E (spawned w) cmd None = Completed out err ->
  Correction.run_cmd E cmd w
  = (Ok (Str.strip out), and_then w (Spawn cmd None :: correction_run_cmd_log cmd err) 1).
Proof.
  intros H. unfold Correction.run_cmd, bindM, spawn, log, emit, ret, correction_run_cmd_log.
  rewrite H. simpl.
  destruct (nonempty (Str.strip err)); simpl.
  - rewrite and_then_and_then. reflexivity.
  - reflexivity.
Qed.

(** X12. [drift_correction_windows] of [dispatcher.py] and
    [dispatchService.py] on a failed probe, the memo file being readable:
    one warning, which announces a forced resync, and then no band, no
    correcting command and no memo write. *)
Lemma correction_failed_probe_skips_the_correction :
  forall (E : env) (threshold : spec_float) (w : world)
         (out err : string) (e : exn) (v : pyval),
    shell E (spawned w) stripchart_command None = Completed out err ->
    Correction.stripchart_skew (Str.strip out) = Raise e ->
    fst (Correction.read_last_skew E w) = Ok v ->
    Correction.drift_correction_windows E threshold w
    = (Ok tt,
       and_then w
         ([Log "[INFO] Checking clock skew for high-precision adjustment..." [];
           Spawn stripchart_command None]
          ++ correction_run_cmd_log stripchart_command err
          ++ [Log "[WARN] Could not parse skew, defaulting to forced resync" []]) 1).
Proof.
  intros E threshold w out err e v Hsh Hp Hr.
  unfold Correction.drift_correction_windows.
  rewrite read_last_skew_eq in Hr. simpl in Hr.
  repeat first
    [ rewrite (correction_run_cmd_completed E stripchart_command _ out err)
        by exact Hsh
    | rewrite Hp
    | rewrite read_last_skew_eq
    | progress simpl files
    | rewrite Hr
    | run_step ].
  rewrite !and_then_and_then. reflexivity.
Qed.

(* ===================================================================== *)
(** * The end-to-end scenarios, run                                       *)
(* ===================================================================== *)

(** A skew of 500 ns under a threshold of 1000 ns: no action, and no
    correcting command. *)
Example scenario_skew_below_threshold :
  let E := chrony_host "Last offset     : +0.000000500 seconds" in
  let r := Dual.cycle E "ultrafast" (Dual.imported E empty_disk) in
  fst r = Ok (Some 500)
  /\ trace (snd r)
     = [Spawn "chronyc tracking" (Some 6);
        Log "[MEASURE] chrony skew = {} ns (previous {} ns)"
          [AVal (VInt 500); AVal (VInt 0)];
        Log "[DECISION] No adjustment required for Unix (skew within negligible range)" []]
  /\ skew_history (snd r) = [500]
  /\ memo (snd r) = VDict [("last_skew_ns", VInt 500)].
Proof. vm_compute. repeat split; reflexivity. Qed.

(** A skew of -50_000 ns under a threshold of 1000 ns: the small
    adjustment. *)
Example scenario_small_adjustment :
  let E := chrony_host "Last offset     : -0.000050000 seconds" in
  let r := Dual.cycle E "ultrafast" (Dual.imported E empty_disk) in
  fst r = Ok (Some (-50000))
  /\ trace (snd r)
     = [Spawn "chronyc tracking" (Some 6);
        Log "[MEASURE] chrony skew = {} ns (previous {} ns)"
          [AVal (VInt (-50000)); AVal (VInt 0)];
        Spawn "chronyc makestep 0.001 3" (Some 15);
        Log "[ACTION] chronyc makestep 0.001 3 issued (small adjustment)" []].
Proof. vm_compute. repeat split; reflexivity. Qed.

(** A skew of 250_000_000 ns: the forced step. *)
Example scenario_forced_step :
  let E := chrony_host "Last offset     : +0.250000000 seconds" in
  let r := Dual.cycle E "fast" (Dual.imported E empty_disk) in
  fst r = Ok (Some 250000000)
  /\ trace (snd r)
     = [Spawn "chronyc tracking" (Some 6);
        Log "[MEASURE] chrony skew = {} ns (previous {} ns)"
          [AVal (VInt 250000000); AVal (VInt 0)];
        Spawn "chronyc makestep" (Some 15);
        Log "[ACTION] chronyc makestep issued (forced step)" []].
Proof. vm_compute. repeat split; reflexivity. Qed.

(** The same skew of 500 ns measured on Windows: the pass stops at
    [memo.get], with nothing stored, logged or corrected. *)
Example scenario_sample_on_windows :
  let E := windows_host "15:10:00, +0.0000005s" in
  let w := Dual.imported E empty_disk in
  Dual.measure_skew_windows E w
  = (Ok (Some 500), and_then w [Spawn stripchart_command (Some 10)] 1)
  /\ Dual.cycle E "ultrafast" w
     = (Raise UnboundLocalError, and_then w [Spawn stripchart_command (Some 10)] 1).
Proof. vm_compute. split; reflexivity. Qed.

(** A probe that fails: the warning, and the state untouched. *)
Example scenario_probe_unavailable :
  let w := Dual.imported linux_host_timing_out empty_disk in
  let r := Dual.cycle linux_host_timing_out "fast" w in
  r = (Ok None,
       and_then w
         [Spawn "chronyc tracking" (Some 6);
          Log "[CMD-ERR] Timeout running: chronyc tracking" [];
          Log "[WARN] Could not parse skew from Unix tool output" []] 1).
Proof. vm_compute. reflexivity. Qed.

(** In lazy mode no skew is small: one just above the threshold is left
    alone, here by [driftMonitorDual.py] and by [dispatchService.py]. *)
Example scenario_lazy_mode_has_no_small_band :
  Dual.stripchart_sample "15:10:00, +0.0010000s" = Some 1000000
  /\ trace (snd (Dual.cycle (chrony_host "Last offset     : +0.000500000 seconds") "lazy"
                   (Dual.imported (chrony_host "Last offset     : +0.000500000 seconds")
                      empty_disk)))
     = [Spawn "chronyc tracking" (Some 6);
        Log "[MEASURE] chrony skew = {} ns (previous {} ns)"
          [AVal (VInt 500000); AVal (VInt 0)];
        Log "[DECISION] No adjustment required for Unix (skew within negligible range)" []]
  /\ trace (snd (Service.drift_correction_windows
                   (windows_host "15:10:00, +0.0005000s") "lazy" (fresh empty_disk)))
     = [Log "[INFO] Checking clock skew for high-precision adjustment..." [];
        Spawn stripchart_command None;
        Log "[INFO] Current skew: {} ns (last: {} ns)"
          [AVal (VFloat (Float.of_Z 500000)); AVal (VInt 0)];
        Log "[INFO] Skew negligible; no adjustment needed" []].
Proof. vm_compute. repeat split; reflexivity. Qed.

(* ===================================================================== *)
(** * Properties of whole runs                                            *)
(* ===================================================================== *)

Section RunLaws.
Context {A B : Type}.

Lemma emits_only_silent Q (c : M A) :
  (forall w, trace (snd (c w)) = trace w) -> emits_only Q c.
Proof.
  intros Hc w. exists []. rewrite app_nil_r. split; [apply Hc|reflexivity].
Qed.

Lemma emits_only_ret Q (a : A) : emits_only Q (ret a).
Proof. apply emits_only_silent. reflexivity. Qed.

Lemma emits_only_raise Q e : emits_only Q (@raise A e).
Proof. apply emits_only_silent. reflexivity. Qed.

Lemma emits_only_lift Q (x : result A) : emits_only Q (lift x).
Proof. apply emits_only_silent. reflexivity. Qed.

Lemma emits_only_bind Q (c : M A) (k : A -> M B) :
  emits_only Q c -> (forall a, emits_only Q (k a)) -> emits_only Q (bindM c k).
Proof.
  intros Hc Hk w. rewrite bindM_eq.
  destruct (Hc w) as [evs1 [H1 Q1]].
  destruct (c w) as [[a|e] w1].
  - destruct (Hk a w1) as [evs2 [H2 Q2]]. cbn [snd] in H1.
    exists (evs1 ++ evs2). rewrite H2, H1, app_assoc, forallb_app, Q1, Q2.
    split; reflexivity.
  - exists evs1. split; assumption.
Qed.

Lemma emits_only_try Q (body : M A) (handler : exn -> M A) :
  emits_only Q body -> (forall e, emits_only Q (handler e)) ->
  emits_only Q (try_except body handler).
Proof.
  intros Hb Hh w. unfold try_except.
  destruct (Hb w) as [evs1 [H1 Q1]].
  destruct (body w) as [[a|e] w1].
  - exists evs1. split; assumption.
  - destruct (Hh e w1) as [evs2 [H2 Q2]]. cbn [snd] in H1.
    exists (evs1 ++ evs2). rewrite H2, H1, app_assoc, forallb_app, Q1, Q2.
    split; reflexivity.
Qed.

Lemma keeps_ret P (a : A) : keeps P (ret a).
Proof. intros w r w' HP H. inversion H; subst. exact HP. Qed.

Lemma keeps_lift P (x : result A) : keeps P (lift x).
Proof. intros w r w' HP H. inversion H; subst. exact HP. Qed.

Lemma keeps_bind P (c : M A) (k : A -> M B) :
  keeps P c -> (forall a, keeps P (k a)) -> keeps P (bindM c k).
Proof.
  intros Hc Hk w r w' HP H. rewrite bindM_eq in H.
  destruct (c w) as [[a|e] w1] eqn:Hcw.
  - eapply Hk; [eapply Hc; eassumption|exact H].
  - inversion H; subst. eapply Hc; eassumption.
Qed.

Lemma keeps_try P (body : M A) (handler : exn -> M A) :
  keeps P body -> (forall e, keeps P (handler e)) -> keeps P (try_except body handler).
Proof.
  intros Hb Hh w r w' HP H. unfold try_except in H.
  destruct (body w) as [[a|e] w1] eqn:Hbw.
  - inversion H; subst. eapply Hb; eassumption.
  - eapply Hh; [eapply Hb; eassumption|exact H].
Qed.

End RunLaws.

Lemma emits_only_emit Q ev : Q ev = true -> emits_only Q (emit ev).
Proof.
  intros HQ w. exists [ev]. simpl. rewrite HQ. split; reflexivity.
Qed.

Lemma emits_only_log Q msg args : Q (Log msg args) = true -> emits_only Q (log msg args).
Proof. apply emits_only_emit. Qed.

Lemma emits_only_spawn Q E cmd timeout :
  Q (Spawn cmd timeout) = true -> emits_only Q (spawn E cmd timeout).
Proof.
  intros HQ w. unfold spawn.
  exists [Spawn cmd timeout]. simpl. rewrite HQ.
  destruct (shell E (spawned w) cmd timeout); split; reflexivity.
Qed.

Lemma emits_only_perform Q ops : emits_only Q (perform ops).
Proof.
  apply emits_only_silent. intros w. unfold perform.
  destruct (exec_ops ops (files w)) as [d [e|]]; reflexivity.
Qed.

Lemma emits_only_get_memo Q : emits_only Q get_memo.
Proof. apply emits_only_silent. reflexivity. Qed.

Lemma emits_only_put_memo Q m : emits_only Q (put_memo m).
Proof. apply emits_only_silent. reflexivity. Qed.

Lemma emits_only_get_history Q : emits_only Q get_history.
Proof. apply emits_only_silent. reflexivity. Qed.

Lemma emits_only_put_history Q h : emits_only Q (put_history h).
Proof. apply emits_only_silent. reflexivity. Qed.

Lemma emits_only_get_disk Q : emits_only Q get_disk.
Proof. apply emits_only_silent. reflexivity. Qed.

(** Breaks a computation into its steps. *)
Ltac emits_only_step :=
  first
    [ apply emits_only_ret
    | apply emits_only_raise
    | apply emits_only_lift
    | apply emits_only_get_memo
    | apply emits_only_put_memo
    | apply emits_only_get_history
    | apply emits_only_put_history
    | apply emits_only_get_disk
    | apply emits_only_perform
    | apply emits_only_log; reflexivity
    | apply emits_only_emit; reflexivity
    | apply emits_only_spawn; reflexivity
    | apply emits_only_bind; [|intros ?]
    | apply emits_only_try; [|intros ?]
    | match goal with
      | |- emits_only _ (if ?b then _ else _) => destruct b
      | |- emits_only _ (match ?x with _ => _ end) => destruct x
      end ].

Ltac emits_only := repeat emits_only_step.

(* ===================================================================== *)
(** * The subprocesses a run starts                                       *)
(* ===================================================================== *)

Lemma dual_run_cmd_emits Q E cmd timeout :
  Q (Spawn cmd timeout) = true ->
  (forall msg args, Q (Log msg args) = true) ->
  emits_only Q (Dual.run_cmd E cmd timeout).
Proof.
  intros HS HL. unfold Dual.run_cmd, Dual.WithLog.run_cmd.
  apply emits_only_try; [|intros e].
  - apply emits_only_bind; [apply emits_only_spawn, HS|intros oe].
    apply emits_only_bind; [|intros ?; apply emits_only_ret].
    destruct (nonempty _); [apply emits_only_log, HL|apply emits_only_ret].
  - destruct e; (apply emits_only_bind; [apply emits_only_log, HL|intros ?; apply emits_only_ret]).
Qed.

Lemma dual_load_memo_emits Q E :
  (forall msg args, Q (Log msg args) = true) -> emits_only Q (Dual.load_memo E).
Proof.
  intros HL. unfold Dual.load_memo, Dual.WithLog.load_memo.
  apply emits_only_bind.
  - apply emits_only_try; [|intros e].
    + emits_only.
    + apply emits_only_bind; [apply emits_only_log, HL|intros ?; apply emits_only_ret].
  - intros [v|]; apply emits_only_ret.
Qed.

Lemma dual_memoize_emits Q E skew_ns :
  (forall msg args, Q (Log msg args) = true) -> emits_only Q (Dual.memoize E skew_ns).
Proof.
  intros HL. unfold Dual.memoize, Dual.save_memo.
  repeat first [ apply emits_only_log, HL | emits_only_step ].
Qed.

Lemma dual_cycle_emits Q E MODE :
  (forall cmd t, In (cmd, t) dual_commands -> Q (Spawn cmd (Some t)) = true) ->
  (forall msg args, Q (Log msg args) = true) ->
  emits_only Q (Dual.cycle E MODE).
Proof.
  intros HS HL.
  assert (HR : forall cmd t, In (cmd, t) dual_commands ->
                 emits_only Q (Dual.run_cmd E cmd (Some t))).
  { intros cmd t Hin. apply dual_run_cmd_emits; [apply HS, Hin|exact HL]. }
  unfold Dual.cycle, Dual.drift_check_and_correct_windows,
    Dual.drift_check_and_correct_unix, Dual.measure_skew_windows,
    Dual.measure_skew_windows_stripchart, Dual.measure_skew_windows_status,
    Dual.measure_skew_chrony, Dual.measure_skew_ntpd,
    Dual.apply_windows_small, Dual.apply_windows_force,
    Dual.apply_chrony_small, Dual.apply_chrony_force.
  repeat first
    [ apply emits_only_log, HL
    | apply dual_memoize_emits, HL
    | apply HR; simpl; tauto
    | emits_only_step ].
Qed.

Lemma dual_script_emits Q E MODE n :
  (forall cmd t, In (cmd, t) dual_commands -> Q (Spawn cmd (Some t)) = true) ->
  (forall msg args, Q (Log msg args) = true) ->
  (String.eqb MODE "ultrafast" = true ->
   forall h s, Q (Draw h) = true /\ Q (Sleep s) = true) ->
  emits_only Q (Dual.script E MODE n).
Proof.
  intros HS HL HT.
  unfold Dual.script, Dual.main.
  apply emits_only_bind; [apply dual_load_memo_emits, HL|intros m].
  apply emits_only_bind; [apply emits_only_put_memo|intros _].
  apply emits_only_bind; [apply emits_only_log, HL|intros _].
  apply emits_only_bind; [apply emits_only_get_history|intros h].
  apply emits_only_bind; [destruct h; emits_only|intros _].
  destruct (String.eqb MODE "ultrafast") eqn:HM.
  - unfold Dual.ultrafast_loop.
    apply emits_only_bind; [apply emits_only_log, HL|intros _].
    induction n as [|n IH]; simpl; [apply emits_only_ret|].
    apply emits_only_bind; [apply dual_cycle_emits; assumption|intros _].
    apply emits_only_bind; [|intros _].
    { unfold Dual.draw_tui. apply emits_only_bind; [apply emits_only_get_history|intros h'].
      apply emits_only_emit. apply (HT eq_refl h' 0). }
    apply emits_only_bind; [|intros _; exact IH].
    apply emits_only_emit. apply (HT eq_refl [] _).
  - unfold Dual.one_shot_run.
    apply emits_only_bind; [apply emits_only_log, HL|intros _].
    apply emits_only_bind; [apply dual_cycle_emits; assumption|intros _].
    apply emits_only_log, HL.
Qed.

(** X1. Every command [driftMonitorDual.py] hands to [run_cmd], in any
    mode, on any platform and after any number of rounds, is one of its
    nine commands and runs under the timeout the source gives it: 10 s
    for the stripchart, 6 s for the other probes, 15 s for a correcting
    command. None is run without a timeout. *)
Theorem dual_starts_only_its_commands_with_timeouts :
  forall (E : env) (MODE : string) (n : nat),
    emits_only dual_spawn (Dual.script E MODE n).
Proof.
  intros E MODE n. apply dual_script_emits.
  - intros cmd t Hin. simpl in Hin.
    repeat (destruct Hin as [Hin|Hin]; [inversion Hin; subst; reflexivity|]).
    destruct Hin.
  - reflexivity.
  - intros _ h s. split; reflexivity.
Qed.



Lemma monitor_run_cmd_emits Q E cmd :
  Q (Spawn cmd None) = true -> emits_only Q (Monitor.run_cmd E cmd).
Proof.
  intros HS. unfold Monitor.run_cmd.
  apply emits_only_try; [|intros e; apply emits_only_ret].
  apply emits_only_bind; [apply emits_only_spawn, HS|intros oe; apply emits_only_ret].
Qed.

Lemma monitor_load_memo_emits Q E : emits_only Q (Monitor.load_memo E).
Proof. unfold Monitor.load_memo. emits_only. Qed.

Lemma monitor_script_emits Q E MODE n :
  (IS_WINDOWS E = true -> forall cmd, Q (Spawn cmd None) = true) ->
  (forall msg args, Q (Log msg args) = true) ->
  (forall h s, Q (Draw h) = true /\ Q (Sleep s) = true) ->
  emits_only Q (Monitor.script E MODE n).
Proof.
  intros HS HL HT.
  assert (HC : emits_only Q (Monitor.cycle E)).
  { unfold Monitor.cycle. destruct (IS_WINDOWS E); [|apply emits_only_ret].
    unfold Monitor.drift_correction_windows, Monitor.measure_skew_windows,
      Monitor.save_memo.
    repeat first
      [ apply emits_only_log, HL
      | apply monitor_run_cmd_emits, HS, eq_refl
      | emits_only_step ]. }
  unfold Monitor.script, Monitor.main.
  apply emits_only_bind; [apply monitor_load_memo_emits|intros m].
  apply emits_only_bind; [apply emits_only_put_memo|intros _].
  apply emits_only_bind; [apply emits_only_log, HL|intros _].
  destruct (String.eqb MODE "ultrafast").
  - induction n as [|n IH]; simpl; [apply emits_only_ret|].
    apply emits_only_bind; [exact HC|intros _].
    apply emits_only_bind; [|intros _].
    { unfold Monitor.draw_tui. apply emits_only_bind; [apply emits_only_get_history|intros h'].
      apply emits_only_bind; [apply emits_only_lift|intros _].
      apply emits_only_emit. apply (HT h' 0). }
    apply emits_only_bind; [|intros _; exact IH].
    apply emits_only_emit. apply (HT [] _).
  - apply emits_only_bind; [exact HC|intros _]. apply emits_only_log, HL.
Qed.

Lemma correction_run_cmd_emits Q E cmd :
  Q (Spawn cmd None) = true ->
  (forall msg args, Q (Log msg args) = true) ->
  emits_only Q (Correction.run_cmd E cmd).
Proof.
  intros HS HL. unfold Correction.run_cmd.
  apply emits_only_bind; [apply emits_only_spawn, HS|intros oe].
  apply emits_only_bind; [|intros ?; apply emits_only_ret].
  destruct (nonempty _); [apply emits_only_log, HL|apply emits_only_ret].
Qed.

Lemma correction_windows_emits Q E threshold :
  (forall cmd, Q (Spawn cmd None) = true) ->
  (forall msg args, Q (Log msg args) = true) ->
  emits_only Q (Correction.drift_correction_windows E threshold).
Proof.
  intros HS HL.
  unfold Correction.drift_correction_windows, Correction.read_last_skew,
    Correction.write_memo.
  repeat first
    [ apply emits_only_log, HL
    | apply correction_run_cmd_emits; [apply HS|exact HL]
    | emits_only_step ].
Qed.

Lemma correction_unix_emits Q E threshold tool :
  (forall cmd, Q (Spawn cmd None) = true) ->
  (forall msg args, Q (Log msg args) = true) ->
  emits_only Q (Correction.drift_correction_unix E threshold tool).
Proof.
  intros HS HL.
  unfold Correction.drift_correction_unix.
  repeat first
    [ apply emits_only_log, HL
    | apply correction_run_cmd_emits; [apply HS|exact HL]
    | emits_only_step ].
Qed.

(** X3. [run_cmd] of [driftMonitor.py] gives no command a timeout, and
    neither does that of [dispatcher.py] and [dispatchService.py] in
    their drift corrections: every command they run is waited for until
    it ends. *)
Theorem siblings_start_commands_without_timeout :
  forall (E : env) (MODE : string) (n : nat) (threshold : spec_float) (tool : string),
    emits_only unbounded_spawn (Monitor.script E MODE n)
    /\ emits_only unbounded_spawn (Correction.drift_correction_windows E threshold)
    /\ emits_only unbounded_spawn (Correction.drift_correction_unix E threshold tool).
Proof.
  intros E MODE n threshold tool. split; [|split].
  - apply monitor_script_emits; try reflexivity. intros h s. split; reflexivity.
  - apply correction_windows_emits; reflexivity.
  - apply correction_unix_emits; reflexivity.
Qed.

(* ===================================================================== *)
(** * What a run keeps                                                    *)
(* ===================================================================== *)

Lemma keeps_step {A} (P : world -> Prop) (c : M A) :
  (forall w, P w -> P (snd (c w))) -> keeps P c.
Proof. intros H w r w' HP Hc. specialize (H w HP). rewrite Hc in H. exact H. Qed.

Lemma keeps_snd {A} (P : world -> Prop) (c : M A) w :
  keeps P c -> P w -> P (snd (c w)).
Proof. intros K HP. destruct (c w) as [r w'] eqn:H. eapply K; eassumption. Qed.

Lemma spawn_frame E cmd timeout w :
  snd (spawn E cmd timeout w) = and_then w [Spawn cmd timeout] 1.
Proof.
  unfold spawn. destruct (shell E (spawned w) cmd timeout); reflexivity.
Qed.

Lemma perform_frame ops w :
  memo (snd (perform ops w)) = memo w
  /\ skew_history (snd (perform ops w)) = skew_history w
  /\ trace (snd (perform ops w)) = trace w.
Proof.
  unfold perform. destruct (exec_ops ops (files w)) as [d [e|]]; repeat split; reflexivity.
Qed.

Lemma frames_within_and_then N w evs k :
  forallb (frame_within N) evs = true ->
  frames_within N w -> frames_within N (and_then w evs k).
Proof.
  intros Hevs [Hh Ht]. split; [exact Hh|].
  cbn [trace and_then]. rewrite forallb_app, Ht, Hevs. reflexivity.
Qed.

Lemma keeps_frames_emit N ev :
  frame_within N ev = true -> keeps (frames_within N) (emit ev).
Proof.
  intros Hev. apply keeps_step. intros w HP. unfold emit. cbn [snd].
  apply frames_within_and_then; [|exact HP]. simpl. rewrite Hev. reflexivity.
Qed.

Lemma keeps_frames_spawn N E cmd timeout : keeps (frames_within N) (spawn E cmd timeout).
Proof.
  apply keeps_step. intros w HP. rewrite spawn_frame.
  apply frames_within_and_then; [reflexivity|exact HP].
Qed.

Lemma keeps_frames_perform N ops : keeps (frames_within N) (perform ops).
Proof.
  apply keeps_step. intros w HP. unfold frames_within.
  destruct (perform_frame ops w) as (_ & -> & ->). exact HP.
Qed.

Lemma keeps_frames_append N {B} x (rest : M B) :
  keeps (frames_within N) rest ->
  keeps (frames_within N)
    (h <- get_history ;; put_history (Deque.append N h x) ;;; rest).
Proof.
  intros Hrest w r w' [Hh Ht] H.
  rewrite bindM_eq in H. unfold get_history in H. rewrite bindM_eq in H.
  unfold put_history in H.
  eapply Hrest; [|exact H].
  split; [|exact Ht]. cbn [skew_history]. apply append_length. exact Hh.
Qed.

Lemma keeps_frames_draw N :
  keeps (frames_within N) (h <- get_history ;; emit (Draw h)).
Proof.
  apply keeps_step. intros w HP.
  rewrite bindM_eq. unfold get_history, emit. cbn [snd].
  apply frames_within_and_then; [|exact HP].
  destruct HP as [Hh _]. simpl. apply Nat.leb_le in Hh. rewrite Hh. reflexivity.
Qed.

Lemma keeps_frames_monitor_draw N E :
  keeps (frames_within N) (Monitor.draw_tui E).
Proof.
  intros w r w' HP H. unfold Monitor.draw_tui in H.
  rewrite bindM_eq in H. unfold get_history in H. rewrite bindM_eq in H.
  unfold lift in H.
  destruct (Graph.to_result _); [|inversion H; subst; exact HP].
  unfold emit in H. inversion H; subst.
  apply frames_within_and_then; [|exact HP].
  destruct HP as [Hh _]. simpl. apply Nat.leb_le in Hh. rewrite Hh. reflexivity.
Qed.

Ltac keeps_frames_step :=
  first
    [ apply keeps_ret
    | apply keeps_lift
    | apply keeps_frames_spawn
    | apply keeps_frames_perform
    | apply keeps_frames_append
    | apply keeps_frames_draw
    | apply keeps_frames_emit; reflexivity
    | apply keeps_step; intros ? HP; exact HP
    | apply keeps_bind; [|intros ?]
    | apply keeps_try; [|intros ?]
    | match goal with
      | |- keeps _ (if ?b then _ else _) => destruct b
      | |- keeps _ (match ?x with _ => _ end) => destruct x
      end ].

Lemma dual_cycle_keeps_frames E MODE :
  keeps (frames_within Dual.HISTORY_LEN) (Dual.cycle E MODE).
Proof.
  unfold Dual.cycle, Dual.drift_check_and_correct_windows,
    Dual.drift_check_and_correct_unix, Dual.measure_skew_windows,
    Dual.measure_skew_windows_stripchart, Dual.measure_skew_windows_status,
    Dual.measure_skew_chrony, Dual.measure_skew_ntpd,
    Dual.apply_windows_small, Dual.apply_windows_force,
    Dual.apply_chrony_small, Dual.apply_chrony_force, Dual.memoize,
    Dual.save_memo, Dual.run_cmd, Dual.WithLog.run_cmd, log.
  repeat keeps_frames_step.
Qed.

Lemma monitor_cycle_keeps_frames E :
  keeps (frames_within Monitor.HISTORY_LEN) (Monitor.cycle E).
Proof.
  unfold Monitor.cycle, Monitor.drift_correction_windows, Monitor.measure_skew_windows,
    Monitor.save_memo, Monitor.run_cmd, log.
  repeat keeps_frames_step.
Qed.

Lemma dual_script_keeps_frames E MODE n :
  keeps (frames_within Dual.HISTORY_LEN) (Dual.script E MODE n).
Proof.
  unfold Dual.script, Dual.main.
  apply keeps_bind;
    [unfold Dual.load_memo, Dual.WithLog.load_memo, log; repeat keeps_frames_step|intros m].
  apply keeps_bind; [keeps_frames_step|intros _].
  apply keeps_bind; [unfold log; keeps_frames_step|intros _].
  assert (K : keeps (frames_within Dual.HISTORY_LEN)
                (if String.eqb MODE "ultrafast" then Dual.ultrafast_loop E MODE n
                 else Dual.one_shot_run E MODE)).
  { destruct (String.eqb MODE "ultrafast").
    - unfold Dual.ultrafast_loop.
      apply keeps_bind; [unfold log; keeps_frames_step|intros _].
      induction n as [|n IH]; simpl; [apply keeps_ret|].
      apply keeps_bind; [apply dual_cycle_keeps_frames|intros _].
      apply keeps_bind; [apply keeps_frames_draw|intros _].
      apply keeps_bind; [keeps_frames_step|intros _; exact IH].
    - unfold Dual.one_shot_run.
      apply keeps_bind; [unfold log; keeps_frames_step|intros _].
      apply keeps_bind; [apply dual_cycle_keeps_frames|intros _].
      unfold log; keeps_frames_step. }
  apply keeps_step. intros w HP.
  rewrite bindM_eq. unfold get_history. cbv beta iota.
  destruct HP as [Hh Ht].
  destruct (skew_history w) as [|z l] eqn:Hs; rewrite bindM_eq.
  - unfold put_history. cbv beta iota.
    apply keeps_snd; [exact K|].
    split; [simpl; unfold Dual.HISTORY_LEN; lia|exact Ht].
  - unfold ret. cbv beta iota.
    apply keeps_snd; [exact K|].
    split; [rewrite Hs; exact Hh|exact Ht].
Qed.

Lemma monitor_script_keeps_frames E MODE n :
  keeps (frames_within Monitor.HISTORY_LEN) (Monitor.script E MODE n).
Proof.
  unfold Monitor.script, Monitor.main.
  apply keeps_bind; [unfold Monitor.load_memo; repeat keeps_frames_step|intros m].
  apply keeps_bind; [keeps_frames_step|intros _].
  apply keeps_bind; [unfold log; keeps_frames_step|intros _].
  destruct (String.eqb MODE "ultrafast").
  - induction n as [|n IH]; simpl; [apply keeps_ret|].
    apply keeps_bind; [apply monitor_cycle_keeps_frames|intros _].
    apply keeps_bind; [apply keeps_frames_monitor_draw|intros _].
    apply keeps_bind; [keeps_frames_step|intros _; exact IH].
  - apply keeps_bind; [apply monitor_cycle_keeps_frames|intros _].
    unfold log; keeps_frames_step.
Qed.

(** X4. The history never outgrows [HISTORY_LEN]: after any number of
    rounds of [driftMonitorDual.py] it holds at most 80 samples and every
    frame of the TUI was drawn from at most 80; for [driftMonitor.py] the
    bound is 50. *)
Theorem history_and_frames_stay_within_history_len :
  forall (E : env) (MODE : string) (n : nat) (d : disk),
    frames_within 80 (snd (Dual.script E MODE n (fresh d)))
    /\ frames_within 50 (snd (Monitor.script E MODE n (fresh d))).
Proof.
  intros E MODE n d. split.
  - apply keeps_snd; [apply dual_script_keeps_frames|].
    split; [simpl; lia|reflexivity].
  - apply keeps_snd; [apply monitor_script_keeps_frames|].
    split; [simpl; lia|reflexivity].
Qed.

(* ===================================================================== *)
(** * Runs that leave the memo alone                                      *)
(* ===================================================================== *)

Lemma monitor_idle_loop E MODE n : forall w text,
  IS_WINDOWS E = false ->
  MonitorGraph.render_graph (columns E) (skew_history w) = Graph.Value text ->
  Monitor.ultrafast_loop E MODE n w
  = (Ok tt,
     and_then w
       (List.concat (repeat [Draw (skew_history w); Sleep (Monitor.CHECK_INTERVAL MODE)] n)) 0).
Proof.
  induction n as [|n IH]; intros w text HW Hg.
  - simpl. unfold ret. rewrite and_then_nil. reflexivity.
  - simpl Monitor.ultrafast_loop. unfold Monitor.cycle. rewrite HW.
    repeat run_step. unfold Monitor.draw_tui. repeat run_step.
    rewrite Hg. cbn [Graph.to_result]. repeat run_step.
    rewrite (IH _ text) by (try exact HW; exact Hg).
    rewrite !and_then_and_then. reflexivity.
Qed.

(** The first frame that cannot be drawn ends the loop. *)
Lemma monitor_idle_loop_stops E MODE n w e :
  IS_WINDOWS E = false ->
  Graph.to_result (MonitorGraph.render_graph (columns E) (skew_history w)) = Raise e ->
  Monitor.ultrafast_loop E MODE (S n) w = (Raise e, w).
Proof.
  intros HW Hg.
  simpl Monitor.ultrafast_loop. unfold Monitor.cycle. rewrite HW.
  repeat run_step. unfold Monitor.draw_tui. repeat run_step.
  rewrite Hg. reflexivity.
Qed.

Lemma holds_from_spec f : forall n k,
  holds_from n k f = true -> forall z, k <= z < k + Z.of_nat n -> f z = true.
Proof.
  induction n as [|n IH]; intros k H z Hz; [lia|].
  simpl in H. apply andb_prop in H. destruct H as [Hk Hn].
  destruct (Z.eq_dec z k) as [->|Hne]; [exact Hk|].
  apply (IH (k + 1) Hn). lia.
Qed.

(** [1 / k] is a float for the widths a terminal reports. *)
Lemma monitor_unit_scale_defined :
  holds_from (Z.to_nat 32767) 1
    (fun k => match Graph.truediv_int 1 k with
              | Graph.Value _ => true
              | _ => false
              end) = true.
Proof. vm_compute. reflexivity. Qed.

(** Without a sample the graph is empty, on a terminal of two columns or
    more. *)
Lemma monitor_graph_of_no_sample cols :
  2 <= cols <= 65535 -> MonitorGraph.render_graph cols [] = Graph.Value [].
Proof.
  intros Hc. unfold MonitorGraph.render_graph, MonitorGraph.scale.
  change (MonitorGraph.max_val []) with 1.
  assert (Hk : 1 <= cols / 2 < 1 + Z.of_nat (Z.to_nat 32767)).
  { assert (1 <= cols / 2) by (apply Z.div_le_lower_bound; lia).
    assert (cols / 2 < 32768) by (apply Z.div_lt_upper_bound; lia).
    lia. }
  pose proof (holds_from_spec _ _ _ monitor_unit_scale_defined _ Hk) as H.
  cbv beta in H.
  destruct (Graph.truediv_int 1 (cols / 2)); [reflexivity|discriminate H|discriminate H].
Qed.

(** X5. [driftMonitor.py] has no probe and no correction for a host that
    is not Windows: there a run hands no command to [run_cmd] and leaves
    the memo file, the memo and the history as they were. In fast and
    lazy mode it logs its two lines and ends. In ultrafast mode every
    round draws the same history and sleeps, as long as the graph of that
    history can be made; when it cannot, the first frame raises and ends
    the run after the start line. On a terminal of one column the graph
    cannot be made: [ZeroDivisionError]; without a sample, as the memory
    is after the import, it can be made on every terminal of 2 to 65535
    columns. The console and the status log take what they are given. *)
Theorem monitor_does_nothing_off_windows :
  forall (E : env) (MODE : string) (n : nat) (w : world),
    IS_WINDOWS E = false ->
    let start :=
      Log (Str.cat "Dispatcher start on " (Str.cat (system E) (Str.cat " | Mode=" MODE))) [] in
    let graph := MonitorGraph.render_graph (columns E) (skew_history w) in
    (String.eqb MODE "ultrafast" = false ->
     Monitor.main E MODE n w
     = (Ok tt, and_then w [start; Log "Dispatcher complete." []] 0))
    /\ (String.eqb MODE "ultrafast" = true ->
        forall text, graph = Graph.Value text ->
        Monitor.main E MODE n w
        = (Ok tt,
           and_then w
             (start :: List.concat
                         (repeat [Draw (skew_history w);
                                  Sleep (Monitor.CHECK_INTERVAL MODE)] n)) 0))
    /\ (String.eqb MODE "ultrafast" = true ->
        forall e, Graph.to_result graph = Raise e ->
        Monitor.main E MODE (S n) w = (Raise e, and_then w [start] 0))
    /\ (columns E / 2 = 0 -> graph = Graph.RaisesZeroDivisionError)
    /\ (skew_history w = [] -> 2 <= columns E <= 65535 -> graph = Graph.Value []).
Proof.
  intros E MODE n w HW start graph.
  split; [|split; [|split; [|split]]].
  - intros HM. unfold Monitor.main. repeat run_step. rewrite HM.
    unfold Monitor.cycle. rewrite HW. repeat run_step.
    rewrite and_then_and_then. reflexivity.
  - intros HM text Hg. unfold Monitor.main. repeat run_step. rewrite HM.
    rewrite (monitor_idle_loop E MODE n _ text) by (try exact HW; exact Hg).
    rewrite and_then_and_then. reflexivity.
  - intros HM e Hg. unfold Monitor.main. repeat run_step. rewrite HM.
    rewrite (monitor_idle_loop_stops E MODE n _ e) by (try exact HW; exact Hg).
    reflexivity.
  - intros Hz. unfold graph, MonitorGraph.render_graph, MonitorGraph.scale,
      Graph.truediv_int.
    rewrite Hz. reflexivity.
  - intros Hh Hc. unfold graph. rewrite Hh. apply monitor_graph_of_no_sample, Hc.
Qed.

Lemma monitor_does_nothing_off_windows_witness :
  let w := fresh empty_disk in
  let start := Log "Dispatcher start on Linux | Mode=ultrafast" [] in
  Monitor.main linux_host_timing_out "ultrafast" 3 w
  = (Ok tt,
     and_then w [start; Draw []; Sleep 1; Draw []; Sleep 1; Draw []; Sleep 1] 0)
  /\ Monitor.main (on_terminal 1 linux_host_timing_out) "ultrafast" 3 w
     = (Raise ZeroDivisionError, and_then w [start] 0).
Proof.
  split.
  - apply (proj1 (proj2 (monitor_does_nothing_off_windows
                           linux_host_timing_out "ultrafast" 3 (fresh empty_disk)
                           eq_refl)) eq_refl []).
    apply (proj2 (proj2 (proj2 (proj2 (monitor_does_nothing_off_windows
                                         linux_host_timing_out "ultrafast" 3
                                         (fresh empty_disk) eq_refl))))).
    + reflexivity.
    + vm_compute. split; discriminate.
  - apply (proj1 (proj2 (proj2 (monitor_does_nothing_off_windows
                                  (on_terminal 1 linux_host_timing_out) "ultrafast" 2
                                  (fresh empty_disk) eq_refl))) eq_refl ZeroDivisionError).
    rewrite (proj1 (proj2 (proj2 (proj2 (monitor_does_nothing_off_windows
                                           (on_terminal 1 linux_host_timing_out)
                                           "ultrafast" 2 (fresh empty_disk) eq_refl))))
               eq_refl).
    reflexivity.
Defined.

Lemma correction_run_cmd_frame E cmd w :
  files (snd (Correction.run_cmd E cmd w)) = files w
  /\ memo (snd (Correction.run_cmd E cmd w)) = memo w.
Proof.
  unfold Correction.run_cmd, bindM, spawn, log, emit, ret.
  destruct (shell E (spawned w) cmd None) as [out err| |e]; simpl; try (split; reflexivity).
  destruct (nonempty (Str.strip err)); split; reflexivity.
Qed.

Lemma keeps_files_memo_run_cmd d m E cmd :
  keeps (fun w => files w = d /\ memo w = m) (Correction.run_cmd E cmd).
Proof.
  apply keeps_step. intros w HP.
  destruct (correction_run_cmd_frame E cmd w) as [-> ->]. exact HP.
Qed.

(** X6. The Unix drift correction of [dispatcher.py] and
    [dispatchService.py] keeps no memo: whatever it measures and whichever
    command it applies, it reads nothing from [memo.json] and leaves the
    file and the memo in memory as they were; its result and its events
    are the same on every disk. *)
Theorem correction_unix_keeps_no_memo :
  forall (E : env) (threshold : spec_float) (tool : string) (w : world) (d : disk),
    let run := Correction.drift_correction_unix E threshold tool in
    let w_d := {| files := d; memo := memo w; skew_history := skew_history w;
                  trace := trace w; spawned := spawned w |} in
    files (snd (run w)) = files w
    /\ memo (snd (run w)) = memo w
    /\ fst (run w_d) = fst (run w)
    /\ trace (snd (run w_d)) = trace (snd (run w))
    /\ files (snd (run w_d)) = d.
Proof.
  intros E threshold tool w d run w_d.
  assert (K : forall d' m' w0, files w0 = d' -> memo w0 = m' ->
                files (snd (run w0)) = d' /\ memo (snd (run w0)) = m').
  { intros d' m' w0 Hd Hm.
    apply (keeps_snd (fun w => files w = d' /\ memo w = m')); [|split; assumption].
    unfold run, Correction.drift_correction_unix, log.
    repeat first
      [ apply keeps_files_memo_run_cmd
      | apply keeps_ret
      | apply keeps_step; intros ? HP; exact HP
      | apply keeps_bind; [|intros ?]
      | match goal with
        | |- keeps _ (match ?x with _ => _ end) => destruct x
        end ]. }
  destruct (K (files w) (memo w) w eq_refl eq_refl) as [Hf Hm].
  destruct (K d (memo w) w_d eq_refl eq_refl) as [Hf' _].
  split; [exact Hf|]. split; [exact Hm|].
  unfold run, Correction.drift_correction_unix.
  unfold Correction.run_cmd, log, emit, spawn, bindM, ret. simpl.
  destruct (shell E (spawned w) (Str.cat tool " tracking") None) as [out err| |e];
    simpl; [|repeat split; solve [reflexivity | exact Hf']..].
  destruct (nonempty (Str.strip err)); simpl;
    (destruct (Correction.tracking_skew (Str.strip out)) as [x|]; simpl;
     [|repeat split; reflexivity]);
    (destruct (band_float threshold (Float.abs x)); simpl;
     [repeat split; reflexivity| |]);
    match goal with
    | |- context [shell E ?k ?c None] =>
        destruct (shell E k c None) as [out2 err2| |e2]; simpl;
        [destruct (nonempty (Str.strip err2)); simpl|..]
    end; repeat split; reflexivity.
Qed.

(* ===================================================================== *)
(** * A cycle that measured a skew                                        *)
(* ===================================================================== *)

Lemma commands_of_app evs1 evs2 :
  commands_of (evs1 ++ evs2) = commands_of evs1 ++ commands_of evs2.
Proof.
  induction evs1 as [|ev evs1 IH]; [reflexivity|].
  destruct ev; simpl; rewrite IH; reflexivity.
Qed.

Lemma commands_of_run_cmd_log cmd o : commands_of (run_cmd_log cmd o) = [].
Proof.
  destruct o as [out err| |e]; simpl.
  - destruct (nonempty (Str.strip err)); reflexivity.
  - reflexivity.
  - destruct e; reflexivity.
Qed.

(** [Dual.save_memo] in one equation. *)
Lemma dual_save_memo_eq E m w :
  Dual.save_memo E m w
  = if writable (files w)
    then (Ok tt, {| files := disk_after_save (json_dumps E m); memo := memo w;
                    skew_history := skew_history w; trace := trace w;
                    spawned := spawned w |})
    else (Ok tt, and_then w [Log "[WARN] Could not save memo: {}"
                               [AExn (OSError "Permission denied")]] 0).
Proof.
  unfold Dual.save_memo, try_except, Dual.save_memo_steps.
  destruct (writable (files w)) eqn:Hw.
  - rewrite (perform_ok _ w _ (exec_write_replace (json_dumps E m) (files w) Hw)).
    reflexivity.
  - unfold perform, write_replace, write_in_place. simpl. rewrite Hw.
    unfold log, emit, and_then. simpl. destruct w; reflexivity.
Qed.

(** [Dual.memoize] in one equation, for a memo that is a [dict]. *)
Lemma dual_memoize_eq E s w d :
  memo w = VDict d ->
  Dual.memoize E s w
  = let m' := VDict (Dict.update d "last_skew_ns" (VInt s)) in
    (Ok (match Dict.lookup d "last_skew_ns" with Some v => v | None => VInt 0 end),
     {| files := if writable (files w) then disk_after_save (json_dumps E m')
                 else files w;
        memo := m';
        skew_history := Deque.append Dual.HISTORY_LEN (skew_history w) s;
        trace := trace w
                 ++ (if writable (files w) then []
                     else [Log "[WARN] Could not save memo: {}"
                             [AExn (OSError "Permission denied")]]);
        spawned := spawned w |}).
Proof.
  intros Hm. unfold Dual.memoize.
  rewrite bindM_eq. unfold get_memo. rewrite Hm.
  repeat run_step. rewrite dual_save_memo_eq. cbn [files].
  destruct (writable (files w)); repeat run_step; cbn.
  - rewrite app_nil_r. reflexivity.
  - reflexivity.
Qed.

(** What follows a sample in every branch of the cycle: the memo, the
    [[MEASURE]] line, and the command of the band. *)
Lemma dual_after_sample E w d s msg (act : M unit) cmds :
  memo w = VDict d ->
  (forall w0, exists evs k,
      act w0 = (Ok tt, and_then w0 evs k) /\ commands_of evs = cmds) ->
  exists w',
    (last <- Dual.memoize E s ;;
     log msg [AVal (VInt s); AVal last] ;;;
     act ;;;
     ret (Some s)) w = (Ok (Some s), w')
    /\ memo w' = VDict (Dict.update d "last_skew_ns" (VInt s))
    /\ skew_history w' = Deque.append Dual.HISTORY_LEN (skew_history w) s
    /\ files w'
       = (if writable (files w)
          then disk_after_save (json_dumps E (VDict (Dict.update d "last_skew_ns" (VInt s))))
          else files w)
    /\ commands_of (trace w') = commands_of (trace w) ++ cmds
    /\ In (Log msg [AVal (VInt s);
                    AVal (match Dict.lookup d "last_skew_ns" with
                          | Some v => v | None => VInt 0 end)]) (trace w').
Proof.
  intros Hm Hact.
  rewrite bindM_eq, (dual_memoize_eq E s w d Hm). cbv zeta.
  repeat run_step.
  match goal with |- context [act ?w0] => destruct (Hact w0) as [evs [k [Ha Hc]]] end.
  rewrite Ha. repeat run_step.
  eexists. split; [reflexivity|].
  cbn [memo skew_history files trace and_then].
  repeat split.
  - rewrite !commands_of_app, Hc.
    destruct (writable (files w)); simpl; rewrite ?app_nil_r; reflexivity.
  - apply in_or_app. left. apply in_or_app. right. left. reflexivity.
Qed.

Lemma dual_run_then_log E cmd msg w0 :
  exists evs k,
    (Dual.run_cmd E cmd (Some 15) ;;; log msg []) w0 = (Ok tt, and_then w0 evs k)
    /\ commands_of evs = [cmd].
Proof.
  rewrite bindM_eq, dual_run_cmd_eq. cbv zeta. unfold log, emit.
  rewrite and_then_and_then. eexists. eexists. split; [reflexivity|].
  simpl. rewrite commands_of_app, commands_of_run_cmd_log. reflexivity.
Qed.

(** X7. A cycle of [driftMonitorDual.py] whose probe measured [s]. On
    Windows it raises [UnboundLocalError] at [memo.get], right after the
    probe: [save_memo(memo := memo)] makes [memo] a local variable of
    [drift_check_and_correct_windows], so that nothing is stored, saved,
    logged or corrected there. On the other platforms, the memo being a
    [dict], it returns [s] whatever becomes of the memo file and of the
    correcting command: it stores [s] under [last_skew_ns] in the memo,
    appends it to the history, replaces [memo.json] when [LOG_DIR] can be
    written and leaves the disk alone otherwise, logs [s] with the value
    the memo held before, and after the probe starts exactly the command
    of the band of [abs(s)]: none, the gradual one, or the forced one. *)
Theorem dual_cycle_with_a_sample :
  forall (E : env) (MODE : string) (w w1 : world) (d : list (string * pyval)) (s : Z),
    memo w = VDict d ->
    dual_probe E w = (Ok (Some s), w1) ->
    (IS_WINDOWS E = true ->
     Dual.cycle E MODE w = (Raise UnboundLocalError, w1))
    /\ (IS_WINDOWS E = false ->
        exists w' msg,
          Dual.cycle E MODE w = (Ok (Some s), w')
          /\ memo w' = VDict (Dict.update d "last_skew_ns" (VInt s))
          /\ skew_history w' = Deque.append Dual.HISTORY_LEN (skew_history w) s
          /\ files w'
             = (if writable (files w)
                then disk_after_save
                       (json_dumps E (VDict (Dict.update d "last_skew_ns" (VInt s))))
                else files w)
          /\ commands_of (trace w')
             = commands_of (trace w1)
               ++ dual_correction E (band (Dual.PRECISION_THRESHOLD_NS MODE) (Z.abs s))
          /\ In (Log msg [AVal (VInt s);
                          AVal (match Dict.lookup d "last_skew_ns" with
                                | Some v => v | None => VInt 0 end)]) (trace w')).
Proof.
  intros E MODE w w1 d s Hm Hp.
  destruct (dual_probe_only_measures E w _ _ Hp) as [pevs [pk [Hw1 _]]].
  assert (Hm1 : memo w1 = VDict d) by (subst w1; exact Hm).
  assert (Hh1 : skew_history w1 = skew_history w) by (subst w1; reflexivity).
  assert (Hf1 : files w1 = files w) by (subst w1; reflexivity).
  unfold Dual.cycle, dual_probe in *.
  split; intros HW; rewrite HW in *.
  - unfold Dual.drift_check_and_correct_windows.
    rewrite bindM_eq, Hp. apply dual_windows_sample_is_unbound.
  - unfold Dual.drift_check_and_correct_unix,
      Dual.apply_chrony_small, Dual.apply_chrony_force, dual_correction.
    rewrite <- Hh1, <- Hf1.
    assert (Hlog : forall msg w0, exists evs k,
               log msg [] w0 = (Ok tt, and_then w0 evs k) /\ commands_of evs = []).
    { intros msg w0. exists [Log msg []], O. split; reflexivity. }
    destruct (which E "chronyc"); [|destruct (which E "ntpq")];
      try discriminate Hp;
      rewrite bindM_eq, Hp;
      destruct (band (Dual.PRECISION_THRESHOLD_NS MODE) (Z.abs s));
      (edestruct (dual_after_sample E w1 d s) as [w' H];
       [exact Hm1| |exists w'; eexists; exact H]);
      first [apply Hlog | intros w0; apply dual_run_then_log].
Qed.

Lemma dual_cycle_with_a_sample_witness :
  let out := "Last offset     : -0.009066800 seconds" in
  let s := -9066800 in
  (let E := windows_host "15:10:00, -0.0090668s" in
   let w := Dual.imported E empty_disk in
   Dual.cycle E "fast" w = (Raise UnboundLocalError, snd (dual_probe E w)))
  /\ (let E := chrony_host out in
      let w := Dual.imported E empty_disk in
      exists w' msg,
        Dual.cycle E "fast" w = (Ok (Some s), w')
        /\ memo w' = VDict (Dict.update [] "last_skew_ns" (VInt s))
        /\ skew_history w' = Deque.append Dual.HISTORY_LEN (skew_history w) s
        /\ files w'
           = (if writable (files w)
              then disk_after_save
                     (json_dumps E (VDict (Dict.update [] "last_skew_ns" (VInt s))))
              else files w)
        /\ commands_of (trace w')
           = commands_of (trace (snd (dual_probe E w)))
             ++ dual_correction E (band (Dual.PRECISION_THRESHOLD_NS "fast") (Z.abs s))
        /\ In (Log msg [AVal (VInt s);
                        AVal (match Dict.lookup [] "last_skew_ns" with
                              | Some v => v | None => VInt 0 end)]) (trace w')).
Proof.
  split.
  - apply (proj1 (dual_cycle_with_a_sample
                    (windows_host "15:10:00, -0.0090668s") "fast"
                    (Dual.imported (windows_host "15:10:00, -0.0090668s") empty_disk)
                    (snd (dual_probe (windows_host "15:10:00, -0.0090668s")
                            (Dual.imported (windows_host "15:10:00, -0.0090668s")
                               empty_disk)))
                    [] (-9066800) eq_refl eq_refl)).
    reflexivity.
  - apply (proj2 (dual_cycle_with_a_sample
                    (chrony_host "Last offset     : -0.009066800 seconds") "fast"
                    (Dual.imported (chrony_host "Last offset     : -0.009066800 seconds")
                       empty_disk)
                    (snd (dual_probe (chrony_host "Last offset     : -0.009066800 seconds")
                            (Dual.imported
                               (chrony_host "Last offset     : -0.009066800 seconds")
                               empty_disk)))
                    [] (-9066800) eq_refl eq_refl)).
    reflexivity.
Defined.

(* ===================================================================== *)
(** * A pass of [driftMonitor.py]                                         *)
(* ===================================================================== *)




(* ===================================================================== *)
(** * The Windows correction of [dispatcher.py] and [dispatchService.py]  *)
(* ===================================================================== *)

Lemma correction_write_memo_eq E x w :
  Correction.write_memo E x w
  = if writable (files w)
    then (Ok tt,
          {| files := set_file (files w) MEMO_FILE
                        (Present (json_dumps E (VDict [("last_skew_ns", VFloat x)])));
             memo := memo w; skew_history := skew_history w;
             trace := trace w; spawned := spawned w |})
    else (Raise (OSError "Permission denied"), w).
Proof.
  unfold Correction.write_memo, Correction.write_memo_steps.
  destruct (writable (files w)) eqn:Hw.
  - rewrite (perform_ok _ w _ (exec_write_in_place MEMO_FILE _ (files w) Hw)).
    reflexivity.
  - unfold perform, write_in_place. simpl. rewrite Hw. destruct w; reflexivity.
Qed.

Lemma commands_of_correction_log cmd err :
  commands_of (correction_run_cmd_log cmd err) = [].
Proof. unfold correction_run_cmd_log. destruct (nonempty _); reflexivity. Qed.

(** X9. The Windows correction of [dispatcher.py] and
    [dispatchService.py], when the stripchart gave the skew [x] and the
    memo file could be read. When the last skew it read can be formatted
    with [.0f] and the commands complete: after the stripchart it starts
    exactly the command of the band of [abs(x)], then writes [memo.json]
    in place as a dict with the one key [last_skew_ns]; when [LOG_DIR]
    cannot be written it raises [OSError] after the correcting command,
    with the disk as it was. When the last skew cannot be formatted (a
    string, a list, [null], an [int] beyond the range of [float]) the
    correction raises at its [[INFO]] line, right after the stripchart:
    no command corrects and the memo file stays as it was. *)
Theorem correction_windows_with_a_sample :
  forall (E : env) (threshold : spec_float) (w : world)
         (out err : string) (x : spec_float) (v : pyval),
    shell E (spawned w) stripchart_command None = Completed out err ->
    Correction.stripchart_skew (Str.strip out) = Ok x ->
    fst (Correction.read_last_skew E w) = Ok v ->
    (forall shown,
       format_f v = Ok shown ->
       (forall cmd, exists out' err',
           shell E (S (spawned w)) cmd None = Completed out' err') ->
       exists w',
         Correction.drift_correction_windows E threshold w
         = (if writable (files w) then Ok tt else Raise (OSError "Permission denied"), w')
         /\ files w'
            = (if writable (files w)
               then set_file (files w) MEMO_FILE
                      (Present (json_dumps E (VDict [("last_skew_ns", VFloat x)])))
               else files w)
         /\ commands_of (trace w')
            = commands_of (trace w)
              ++ stripchart_command
                 :: windows_correction (band_float threshold (Float.abs x))
         /\ In (Log "[INFO] Current skew: {} ns (last: {} ns)"
                  [AVal (VFloat x); AVal shown])
               (trace w'))
    /\ (forall e,
          format_f v = Raise e ->
          Correction.drift_correction_windows E threshold w
          = (Raise e,
             and_then w
               ([Log "[INFO] Checking clock skew for high-precision adjustment..." [];
                 Spawn stripchart_command None]
                ++ correction_run_cmd_log stripchart_command err) 1)).
Proof.
  intros E threshold w out err x v Hsh Hp Hr.
  rewrite read_last_skew_eq in Hr. simpl in Hr.
  split.
  - intros shown Hf Hall.
    unfold Correction.drift_correction_windows.
    repeat first
      [ rewrite (correction_run_cmd_completed E stripchart_command _ out err)
          by exact Hsh
      | rewrite Hp
      | rewrite read_last_skew_eq
      | progress simpl files
      | rewrite Hr
      | rewrite Hf
      | run_step ].
    destruct (band_float threshold (Float.abs x)).
    + repeat first [ rewrite correction_write_memo_eq | run_step ]. cbn [files and_then].
      destruct (writable (files w)); eexists; (split; [reflexivity|]);
        cbn [files trace and_then]; (split; [reflexivity|]);
        (split; [repeat first [ rewrite commands_of_app
                               | rewrite commands_of_correction_log
                               | progress simpl ];
                 rewrite <- ?app_assoc; reflexivity|]);
        repeat rewrite in_app_iff; cbn [In]; auto 20.
    + destruct (Hall "w32tm /resync /nowait") as [out' [err' Hx]].
      rewrite bindM_eq.
      rewrite (correction_run_cmd_completed E "w32tm /resync /nowait" _ out' err')
        by exact Hx.
      repeat first [ rewrite correction_write_memo_eq | run_step ]. cbn [files and_then].
      destruct (writable (files w)); eexists; (split; [reflexivity|]);
        cbn [files trace and_then]; (split; [reflexivity|]);
        (split; [repeat first [ rewrite commands_of_app
                               | rewrite commands_of_correction_log
                               | progress simpl ];
                 rewrite <- ?app_assoc; reflexivity|]);
        repeat rewrite in_app_iff; cbn [In]; auto 20.
    + destruct (Hall "w32tm /resync /force") as [out' [err' Hx]].
      rewrite bindM_eq.
      rewrite (correction_run_cmd_completed E "w32tm /resync /force" _ out' err')
        by exact Hx.
      repeat first [ rewrite correction_write_memo_eq | run_step ]. cbn [files and_then].
      destruct (writable (files w)); eexists; (split; [reflexivity|]);
        cbn [files trace and_then]; (split; [reflexivity|]);
        (split; [repeat first [ rewrite commands_of_app
                               | rewrite commands_of_correction_log
                               | progress simpl ];
                 rewrite <- ?app_assoc; reflexivity|]);
        repeat rewrite in_app_iff; cbn [In]; auto 20.
  - intros e Hf.
    unfold Correction.drift_correction_windows.
    repeat first
      [ rewrite (correction_run_cmd_completed E stripchart_command _ out err)
          by exact Hsh
      | rewrite Hp
      | rewrite read_last_skew_eq
      | progress simpl files
      | rewrite Hr
      | rewrite Hf
      | run_step ].
    rewrite !and_then_and_then. reflexivity.
Qed.

Lemma correction_windows_with_a_sample_witness :
  let E := windows_host "15:10:00, +0.0000668s" in
  (exists w',
      Dispatcher.drift_correction_windows E (fresh empty_disk) = (Ok tt, w')
      /\ memo_json (files w')
         = Present (json_dumps E (VDict [("last_skew_ns", VFloat (Float.of_Z 66800))]))
      /\ commands_of (trace w') = [stripchart_command; "w32tm /resync /nowait"])
  /\ (let w := fresh (disk_with (VDict [("last_skew_ns", VInt (10 ^ 400))])) in
      Dispatcher.drift_correction_windows E w
      = (Raise OverflowError,
         and_then w
           [Log "[INFO] Checking clock skew for high-precision adjustment..." [];
            Spawn stripchart_command None] 1)).
Proof.
  split.
  - destruct (proj1 (correction_windows_with_a_sample
                       (windows_host "15:10:00, +0.0000668s") Dispatcher.threshold
                       (fresh empty_disk) "15:10:00, +0.0000668s" ""
                       (Float.of_Z 66800) (VInt 0)
                       eq_refl ltac:(vm_compute; reflexivity) eq_refl)
                (VInt 0) eq_refl)
      as [w' (H1 & H2 & H3 & _)].
    + intros cmd. exists "15:10:00, +0.0000668s", "". reflexivity.
    + exists w'. split; [exact H1|]. split.
      * rewrite H2. reflexivity.
      * rewrite H3. vm_compute. reflexivity.
  - apply (proj2 (correction_windows_with_a_sample
                    (windows_host "15:10:00, +0.0000668s") Dispatcher.threshold
                    (fresh (disk_with (VDict [("last_skew_ns", VInt (10 ^ 400))])))
                    "15:10:00, +0.0000668s" ""
                    (Float.of_Z 66800) (VInt (10 ^ 400))
                    eq_refl ltac:(vm_compute; reflexivity)
                    ltac:(vm_compute; reflexivity))).
    vm_compute. reflexivity.
Defined.

(* ===================================================================== *)
(** * Instances                                                           *)
(* ===================================================================== *)

Lemma dual_failed_probe_skips_the_cycle_witness :
  let E := linux_host_timing_out in
  let w := Dual.imported E empty_disk in
  let w' := snd (Dual.cycle E "ultrafast" w) in
  exists evs k line,
    w' = and_then w (evs ++ [Log line []]) k
    /\ forallb probe_event evs = true
    /\ In line probe_failure_lines
    /\ files w' = files w /\ memo w' = memo w
    /\ skew_history w' = skew_history w
    /\ forall n,
         Dual.ultrafast_loop_rounds E "ultrafast" (S n) w
         = Dual.ultrafast_loop_rounds E "ultrafast" n
             (and_then w' [Draw (skew_history w);
                           Sleep (Dual.CHECK_INTERVAL "ultrafast")] 0).
Proof.
  apply (dual_failed_probe_skips_the_cycle linux_host_timing_out "ultrafast"
           (Dual.imported linux_host_timing_out empty_disk)
           (snd (Dual.cycle linux_host_timing_out "ultrafast"
                   (Dual.imported linux_host_timing_out empty_disk)))).
  vm_compute. reflexivity.
Defined.

Lemma dual_save_memo_is_atomic_witness :
  let E := windows_host "" in
  let m := VDict [("last_skew_ns", VInt 7)] in
  let d := disk_with (VDict [("last_skew_ns", VInt 12)]) in
  memo_json (interrupted 5 (Dual.save_memo_steps E m) d) = memo_json d
  /\ fst (Dual.load_memo E (fresh (interrupted 5 (Dual.save_memo_steps E m) d)))
     = fst (Dual.load_memo E (fresh d))
  /\ trace (snd (Dual.load_memo E (fresh (interrupted 5 (Dual.save_memo_steps E m) d))))
     = trace (snd (Dual.load_memo E (fresh d))).
Proof.
  apply (dual_save_memo_is_atomic (windows_host "")
           (VDict [("last_skew_ns", VInt 7)])
           (disk_with (VDict [("last_skew_ns", VInt 12)])) 5).
  vm_compute. lia.
Defined.

Lemma correction_failed_probe_skips_the_correction_witness :
  let E := windows_host service_not_started in
  let w := fresh (disk_with (VDict [("last_skew_ns", VInt 12)])) in
  Dispatcher.drift_correction_windows E w
  = (Ok tt,
     and_then w
       ([Log "[INFO] Checking clock skew for high-precision adjustment..." [];
         Spawn stripchart_command None]
        ++ correction_run_cmd_log stripchart_command ""
        ++ [Log "[WARN] Could not parse skew, defaulting to forced resync" []]) 1).
Proof.
  apply (correction_failed_probe_skips_the_correction
           (windows_host service_not_started) Dispatcher.threshold
           (fresh (disk_with (VDict [("last_skew_ns", VInt 12)])))
           service_not_started "" IndexError (VInt 12)).
  - reflexivity.
  - vm_compute. reflexivity.
  - vm_compute. reflexivity.
Defined.

(* ===================================================================== *)
(** * What [load_memo] hands to the cycle                                 *)
(* ===================================================================== *)

Lemma dual_load_memo_value E w :
  exists evs,
    Dual.load_memo E w = (Ok (memo_on_disk E (files w)), and_then w evs 0)
    /\ commands_of evs = [].
Proof.
  unfold Dual.load_memo, Dual.WithLog.load_memo, memo_on_disk, try_except, bindM, get_disk, exists_,
    read_text, lift, get_file, log, emit, ret.
  destruct (memo_json (files w)) as [|text|]; simpl.
  - exists []. rewrite and_then_nil. split; reflexivity.
  - destruct (json_loads E text) as [v|e]; simpl.
    + exists []. rewrite and_then_nil. split; reflexivity.
    + eexists. split; reflexivity.
  - eexists. split; reflexivity.
Qed.

Lemma monitor_load_memo_value E w :
  Monitor.load_memo E w = (Ok (memo_on_disk E (files w)), w).
Proof.
  unfold Monitor.load_memo, memo_on_disk, try_except, bindM, get_disk, exists_,
    read_text, lift, get_file, ret.
  destruct (memo_json (files w)) as [|text|]; simpl; try reflexivity.
  destruct (json_loads E text); reflexivity.
Qed.

(** [Dual.WithLog.load_memo] in one equation: the handler logs, and what
    its [log] raises leaves [load_memo]. *)
Lemma dual_load_memo_with_log E (lg : string -> list arg -> M unit) w :
  Dual.WithLog.load_memo E lg w
  = match memo_json (files w) with
    | Absent => (Ok (VDict []), w)
    | Present text =>
        match json_loads E text with
        | Ok v => (Ok v, w)
        | Raise e =>
            match lg "[WARN] Could not load memo: {}" [AExn e] w with
            | (Ok _, w') => (Ok (VDict []), w')
            | (Raise e', w') => (Raise e', w')
            end
        end
    | Unreadable =>
        match lg "[WARN] Could not load memo: {}"
                [AExn (OSError "Permission denied")] w with
        | (Ok _, w') => (Ok (VDict []), w')
        | (Raise e', w') => (Raise e', w')
        end
    end.
Proof.
  unfold Dual.WithLog.load_memo, try_except, bindM, get_disk, exists_,
    read_text, lift, get_file, ret.
  destruct (memo_json (files w)) as [|text|]; simpl.
  - reflexivity.
  - destruct (json_loads E text) as [v|e]; simpl; [reflexivity|].
    destruct (lg _ _ w) as [[[]|e'] w']; reflexivity.
  - destruct (lg _ _ w) as [[[]|e'] w']; reflexivity.
Qed.

(** X13. [load_memo] at import, whatever [memo.json] is (missing,
    unreadable, not JSON). That of [driftMonitor.py], under a bare
    [except], always returns: what the file parses to, and the default
    memo otherwise; it changes nothing. That of [driftMonitorDual.py]
    returns the same of its own reading of the file, and logs a warning
    when it takes the default, provided [log] returns; its handler is
    under no [try], so that with a file it cannot read or parse an
    exception of [log] leaves [load_memo] and ends the import. Neither
    starts a command or writes the disk. *)
Theorem guarded_load_memo_always_returns :
  (forall (E : env) (d : disk),
      Monitor.load_memo E (fresh d) = (Ok (memo_on_disk E d), fresh d))
  /\ (forall (E : env) (sink : world -> result unit) (d : disk),
        (forall w, sink w = Ok tt) ->
        exists evs,
          Dual.WithLog.load_memo E (log_to sink) (fresh d)
          = (Ok (memo_on_disk E d), and_then (fresh d) evs 0)
          /\ commands_of evs = []
          /\ Dual.load_memo E (fresh d)
             = (Ok (memo_on_disk E d), and_then (fresh d) evs 0))
  /\ (forall (E : env) (sink : world -> result unit) (d : disk) (e : exn),
        sink (fresh d) = Raise e ->
        (memo_json d = Unreadable
         \/ exists text e', memo_json d = Present text /\ json_loads E text = Raise e') ->
        Dual.WithLog.load_memo E (log_to sink) (fresh d) = (Raise e, fresh d))
  /\ (forall (E : env) (sink : world -> result unit) (d : disk),
        (memo_json d = Absent
         \/ exists text v, memo_json d = Present text /\ json_loads E text = Ok v) ->
        Dual.WithLog.load_memo E (log_to sink) (fresh d)
        = (Ok (memo_on_disk E d), fresh d)).
Proof.
  split; [|split; [|split]].
  - intros E d. apply monitor_load_memo_value.
  - intros E sink d Hs.
    unfold Dual.load_memo. rewrite !dual_load_memo_with_log.
    unfold memo_on_disk, log_to, log, emit. cbn [files fresh]. rewrite Hs.
    destruct (memo_json d) as [|text|].
    + exists []. rewrite and_then_nil. repeat split; reflexivity.
    + destruct (json_loads E text) as [v|e'].
      * exists []. rewrite and_then_nil. repeat split; reflexivity.
      * eexists. repeat split; reflexivity.
    + eexists. repeat split; reflexivity.
  - intros E sink d e Hs Hd.
    rewrite dual_load_memo_with_log. unfold log_to. cbn [files fresh].
    destruct Hd as [->|[text [e' [-> ->]]]]; rewrite Hs; reflexivity.
  - intros E sink d Hd.
    rewrite dual_load_memo_with_log. unfold memo_on_disk. cbn [files fresh].
    destruct Hd as [->|[text [v [-> ->]]]]; reflexivity.
Qed.

Lemma guarded_load_memo_always_returns_witness :
  let E := chrony_host "" in
  let d := {| memo_json := Present "{"; memo_tmp := Absent; writable := false |} in
  Monitor.load_memo E (fresh d) = (Ok (VDict []), fresh d)
  /\ Dual.load_memo E (fresh d)
     = (Ok (VDict []),
        and_then (fresh d) [Log "[WARN] Could not load memo: {}" [AExn JSONDecodeError]] 0)
  /\ Dual.WithLog.load_memo E (log_to refusing) (fresh d)
     = (Raise (OSError "Permission denied"), fresh d).
Proof.
  split; [|split].
  - apply (proj1 guarded_load_memo_always_returns (chrony_host "")).
  - reflexivity.
  - apply (proj1 (proj2 (proj2 guarded_load_memo_always_returns)) (chrony_host "")).
    + reflexivity.
    + right. exists "{", JSONDecodeError. split; reflexivity.
Defined.

Lemma dual_imported_memo E d text v :
  memo_json d = Present text ->
  json_loads E text = Ok v ->
  memo (Dual.imported E d) = v.
Proof.
  intros Hd Hj.
  assert (Hmd : memo_on_disk E d = v).
  { unfold memo_on_disk. rewrite Hd, Hj. reflexivity. }
  unfold Dual.imported.
  rewrite !bindM_eq.
  destruct (dual_load_memo_value E (fresh d)) as [evs [-> _]].
  exact Hmd.
Qed.

Lemma monitor_imported_memo E d text v :
  memo_json d = Present text ->
  json_loads E text = Ok v ->
  memo (monitor_imported E d) = v.
Proof.
  intros Hd Hj.
  unfold monitor_imported.
  rewrite !bindM_eq, monitor_load_memo_value.
  unfold memo_on_disk. cbn [files fresh memo put_memo snd]. rewrite Hd, Hj. reflexivity.
Qed.

(** X14. [load_memo] of [driftMonitorDual.py] does not check what it
    loads. A [memo.json] that holds JSON other than an object becomes the
    memo as it is, and off Windows the first cycle whose probe measures a
    skew raises [AttributeError] at [memo.get(...)], right after the
    probe: nothing is saved, logged or corrected. On Windows the cycle
    stops at the same line with [UnboundLocalError], [memo] being an
    unbound local of [drift_check_and_correct_windows] there, whatever
    the memo holds. *)
Theorem dual_non_object_memo_stops_the_cycle :
  forall (E : env) (MODE : string) (d : disk) (text : string) (v : pyval)
         (s : Z) (w1 : world),
    memo_json d = Present text ->
    json_loads E text = Ok v ->
    is_dict v = false ->
    dual_probe E (Dual.imported E d) = (Ok (Some s), w1) ->
    memo (Dual.imported E d) = v
    /\ Dual.cycle E MODE (Dual.imported E d)
       = (Raise (if IS_WINDOWS E then UnboundLocalError else AttributeError), w1).
Proof.
  intros E MODE d text v s w1 Hd Hj Hv Hp.
  pose proof (dual_imported_memo E d text v Hd Hj) as H1.
  split; [exact H1|].
  destruct (dual_probe_only_measures E _ _ _ Hp) as [pevs [pk [Hw1 _]]].
  assert (Hm1 : memo w1 = v) by (subst w1; exact H1).
  unfold Dual.cycle, dual_probe in *.
  unfold Dual.drift_check_and_correct_windows, Dual.drift_check_and_correct_unix.
  destruct (IS_WINDOWS E).
  - rewrite bindM_eq, Hp. apply dual_windows_sample_is_unbound.
  - destruct (which E "chronyc"); [|destruct (which E "ntpq")];
      try discriminate Hp;
      rewrite bindM_eq, Hp; unfold Dual.memoize;
      rewrite !bindM_eq; unfold get_memo; rewrite Hm1;
      destruct v; try discriminate Hv; reflexivity.
Qed.

Lemma dual_non_object_memo_stops_the_cycle_witness :
  let d := {| memo_json := Present "[]"; memo_tmp := Absent; writable := true |} in
  (let E := chrony_host "Last offset     : +0.000066800 seconds" in
   memo (Dual.imported E d) = VList []
   /\ Dual.cycle E "fast" (Dual.imported E d)
      = (Raise AttributeError, snd (dual_probe E (Dual.imported E d))))
  /\ (let E := windows_host "15:10:00, +0.0000668s" in
      memo (Dual.imported E d) = VList []
      /\ Dual.cycle E "fast" (Dual.imported E d)
         = (Raise UnboundLocalError, snd (dual_probe E (Dual.imported E d)))).
Proof.
  split.
  - apply (dual_non_object_memo_stops_the_cycle
             (chrony_host "Last offset     : +0.000066800 seconds") "fast"
             {| memo_json := Present "[]"; memo_tmp := Absent; writable := true |}
             "[]" (VList []) 66800).
    + reflexivity.
    + vm_compute. reflexivity.
    + reflexivity.
    + vm_compute. reflexivity.
  - apply (dual_non_object_memo_stops_the_cycle
             (windows_host "15:10:00, +0.0000668s") "fast"
             {| memo_json := Present "[]"; memo_tmp := Absent; writable := true |}
             "[]" (VList []) 66800).
    + reflexivity.
    + vm_compute. reflexivity.
    + reflexivity.
    + vm_compute. reflexivity.
Defined.

(** X15. The same in [driftMonitor.py]: with a [memo.json] that holds
    JSON other than an object, a pass on Windows raises [AttributeError]
    right after the status query, before the history, the correcting
    command and the memo write. *)
Theorem monitor_non_object_memo_stops_the_pass :
  forall (E : env) (d : disk) (text : string) (v : pyval),
    memo_json d = Present text ->
    json_loads E text = Ok v ->
    is_dict v = false ->
    memo (monitor_imported E d) = v
    /\ Monitor.drift_correction_windows E (monitor_imported E d)
       = (Raise AttributeError,
          and_then (monitor_imported E d) [Spawn "w32tm /query /status" None] 1).
Proof.
  intros E d text v Hd Hj Hv.
  pose proof (monitor_imported_memo E d text v Hd Hj) as H2.
  split; [exact H2|].
  unfold Monitor.drift_correction_windows, Monitor.measure_skew_windows.
  rewrite bindM_eq, bindM_eq, monitor_run_cmd_eq.
  unfold ret at 1. rewrite bindM_eq. unfold get_memo at 1.
  cbn [memo and_then]. rewrite H2.
  destruct v; try discriminate Hv; reflexivity.
Qed.

Lemma monitor_non_object_memo_stops_the_pass_witness :
  let E := windows_host "Phase Offset: 0.2500000s" in
  let d := {| memo_json := Present "7"; memo_tmp := Absent; writable := true |} in
  memo (monitor_imported E d) = VInt 7
  /\ Monitor.drift_correction_windows E (monitor_imported E d)
     = (Raise AttributeError,
        and_then (monitor_imported E d) [Spawn "w32tm /query /status" None] 1).
Proof.
  apply (monitor_non_object_memo_stops_the_pass
           (windows_host "Phase Offset: 0.2500000s")
           {| memo_json := Present "7"; memo_tmp := Absent; writable := true |}
           "7" (VInt 7)).
  - reflexivity.
  - vm_compute. reflexivity.
  - reflexivity.
Defined.

(* ===================================================================== *)
(** * Which line the other probes read                                    *)
(* ===================================================================== *)

Lemma monitor_offset_scan_cons ns line rest :
  Monitor.offset_scan ns (line :: rest)
  = if Str.contains "Offset" line then
      match monitor_offset_line line with
      | Ok n => Monitor.offset_scan n rest
      | Raise _ => Monitor.offset_scan ns rest
      end
    else Monitor.offset_scan ns rest.
Proof. reflexivity. Qed.

Lemma monitor_offset_scan_skips lines : forall ns,
  forallb (fun x => negb (monitor_offset_parses x)) lines = true ->
  Monitor.offset_scan ns lines = ns.
Proof.
  induction lines as [|x lines IH]; intros ns H; [reflexivity|].
  rewrite monitor_offset_scan_cons.
  simpl in H. apply andb_prop in H. destruct H as [Hx Hl].
  unfold monitor_offset_parses in Hx.
  destruct (Str.contains "Offset" x); [|apply IH, Hl].
  destruct (monitor_offset_line x); [discriminate Hx|apply IH, Hl].
Qed.

Lemma monitor_offset_scan_last pre : forall ns l post n,
  Str.contains "Offset" l = true ->
  monitor_offset_line l = Ok n ->
  forallb (fun x => negb (monitor_offset_parses x)) post = true ->
  Monitor.offset_scan ns (pre ++ l :: post) = n.
Proof.
  induction pre as [|x pre IH]; intros ns l post n Hl Hn Hpost.
  - simpl app. rewrite monitor_offset_scan_cons, Hl, Hn.
    apply monitor_offset_scan_skips, Hpost.
  - simpl app. rewrite monitor_offset_scan_cons.
    destruct (Str.contains "Offset" x); [destruct (monitor_offset_line x)|];
      apply IH; assumption.
Qed.

(** X16. The status parser of [driftMonitor.py] reads the last line that
    contains [Offset] and parses; the lines before it, parsable or not,
    do not matter. When no line is one, the skew is 0. *)
Theorem monitor_reads_last_parsable_offset :
  forall (E : env) (w : world) (pre post : list string) (l : string) (n : Z),
    Str.splitlines (monitor_run_cmd_output (shell E (spawned w) "w32tm /query /status" None))
    = pre ++ l :: post ->
    Str.contains "Offset" l = true ->
    monitor_offset_line l = Ok n ->
    forallb (fun x => negb (monitor_offset_parses x)) post = true ->
    fst (Monitor.measure_skew_windows E w) = Ok n
    /\ (forall lines,
          forallb (fun x => negb (monitor_offset_parses x)) lines = true ->
          Monitor.offset_scan 0 lines = 0).
Proof.
  intros E w pre post l n Hout Hl Hn Hpost. split.
  - unfold Monitor.measure_skew_windows.
    rewrite bindM_eq, monitor_run_cmd_eq. unfold ret. cbn [fst].
    rewrite Hout. f_equal. apply monitor_offset_scan_last; assumption.
  - intros lines. apply monitor_offset_scan_skips.
Qed.

Lemma monitor_reads_last_parsable_offset_witness :
  let out := Str.cat "Phase Offset: 0.5s"
               (Str.cat Str.LF (Str.cat "Phase Offset: 0.25s"
                  (Str.cat Str.LF "Offset: unknown"))) in
  fst (Monitor.measure_skew_windows (windows_host out) (fresh empty_disk))
  = Ok 250000000
  /\ (forall lines,
        forallb (fun x => negb (monitor_offset_parses x)) lines = true ->
        Monitor.offset_scan 0 lines = 0).
Proof.
  apply (monitor_reads_last_parsable_offset
           (windows_host (Str.cat "Phase Offset: 0.5s"
               (Str.cat Str.LF (Str.cat "Phase Offset: 0.25s"
                  (Str.cat Str.LF "Offset: unknown")))))
           (fresh empty_disk)
           ["Phase Offset: 0.5s"] ["Offset: unknown"] "Phase Offset: 0.25s" 250000000).
  - vm_compute. reflexivity.
  - reflexivity.
  - vm_compute. reflexivity.
  - vm_compute. reflexivity.
Defined.

Lemma status_scan_first pre : forall l post g,
  forallb (fun x => match status_candidate x with None => true | Some _ => false end) pre
  = true ->
  status_candidate l = Some g ->
  Dual.status_scan (pre ++ l :: post)
  = match (let* skew_s := Float.of_string g in Float.seconds_to_ns skew_s) with
    | Ok n => Ok (Some n)
    | Raise e => if is_ValueError e then Dual.status_scan post else Raise e
    end.
Proof.
  induction pre as [|x pre IH]; intros l post g Hpre Hl.
  - simpl app. unfold status_candidate in Hl. simpl.
    destruct (Str.contains "Offset" l || Str.contains "Local Clock" l)%bool;
      [|discriminate Hl].
    rewrite Hl. reflexivity.
  - simpl in Hpre. apply andb_prop in Hpre. destruct Hpre as [Hx Hpre].
    simpl app. simpl Dual.status_scan. unfold status_candidate in Hx.
    destruct (Str.contains "Offset" x || Str.contains "Local Clock" x)%bool.
    + destruct (Dual.offset_search x); [discriminate Hx|]. apply IH; assumption.
    + apply IH; assumption.
Qed.

Lemma ntpd_scan_first pre : forall t post,
  forallb (fun x => negb (Str.startswith "offset=" x)) pre = true ->
  Str.startswith "offset=" t = true ->
  Dual.ntpd_scan (pre ++ t :: post) = Dual.ntpd_token t.
Proof.
  induction pre as [|x pre IH]; intros t post Hpre Ht; cbn [app Dual.ntpd_scan].
  - rewrite Ht. reflexivity.
  - cbn [forallb] in Hpre. apply andb_prop in Hpre. destruct Hpre as [Hx Hpre].
    apply negb_true_iff in Hx. rewrite Hx. apply IH; assumption.
Qed.

(** X17. The status probe of [driftMonitorDual.py] converts the first
    match of its pattern on the first line that mentions [Offset] or
    [Local Clock] and has a match; a conversion that raises anything but
    [ValueError] is not caught. Lines after it are read only after a
    [ValueError]. *)
Theorem dual_status_reads_first_match :
  forall (out : string) (pre post : list string) (l g : string),
    Str.splitlines out = pre ++ l :: post ->
    forallb (fun x => match status_candidate x with None => true | Some _ => false end) pre
    = true ->
    status_candidate l = Some g ->
    Dual.status_sample out
    = match (let* skew_s := Float.of_string g in Float.seconds_to_ns skew_s) with
      | Ok n => Ok (Some n)
      | Raise e => if is_ValueError e then Dual.status_scan post else Raise e
      end.
Proof.
  intros out pre post l g Hout Hpre Hl.
  assert (Hne : nonempty out = true).
  { destruct pre; simpl in Hout; eapply nonempty_of_lines, Hout. }
  unfold Dual.status_sample. rewrite Hne, Hout. simpl negb. cbv iota.
  apply status_scan_first; assumption.
Qed.

Lemma dual_status_reads_first_match_witness :
  let out := Str.cat "Leap Indicator: 0(no warning)"
               (Str.cat Str.LF (Str.cat "Phase Offset: 0.0000668s"
                  (Str.cat Str.LF "Local Clock Offset: 9.5s"))) in
  Dual.status_sample out = Ok (Some 66800).
Proof.
  refine (dual_status_reads_first_match _ ["Leap Indicator: 0(no warning)"]
            ["Local Clock Offset: 9.5s"] "Phase Offset: 0.0000668s" "0.0000668" _ _ _).
  - vm_compute. reflexivity.
  - vm_compute. reflexivity.
  - vm_compute. reflexivity.
Defined.

(** X18. The [ntpq] probe of [driftMonitorDual.py] reads the first token
    of the output, commas taken as blanks, that starts with [offset=];
    when that token does not convert the probe gives up, whatever
    follows. *)
Theorem dual_ntpd_reads_first_offset_token :
  forall (out : string) (pre post : list string) (t : string),
    Str.split_ws (Str.replace "," " " out) = pre ++ t :: post ->
    forallb (fun x => negb (Str.startswith "offset=" x)) pre = true ->
    Str.startswith "offset=" t = true ->
    Dual.ntpd_sample out = Dual.ntpd_token t.
Proof.
  intros out pre post t Hout Hpre Ht.
  assert (Hne : nonempty out = true).
  { destruct out; [|reflexivity]. destruct pre; discriminate Hout. }
  unfold Dual.ntpd_sample. rewrite Hne, Hout. simpl negb. cbv iota.
  apply ntpd_scan_first; assumption.
Qed.

Lemma dual_ntpd_reads_first_offset_token_witness :
  Dual.ntpd_sample "associd=0 status=0615, offset=+0.123, offset=7.0"
  = Some 123000000.
Proof.
  refine (dual_ntpd_reads_first_offset_token
            "associd=0 status=0615, offset=+0.123, offset=7.0"
            ["associd=0"; "status=0615"] ["offset=7.0"] "offset=+0.123" _ _ _).
  - vm_compute. reflexivity.
  - reflexivity.
  - reflexivity.
Defined.

(* ===================================================================== *)
(** * The sign of a skew                                                  *)
(* ===================================================================== *)

Lemma binary_round_aux_opp s m e l :
  binary_round_aux Float.prec Float.emax (negb s) m e l
  = SFopp (binary_round_aux Float.prec Float.emax s m e l).
Proof.
  unfold binary_round_aux.
  destruct (shr_fexp Float.prec Float.emax m e l) as [mrs' e'].
  destruct (shr_fexp Float.prec Float.emax _ e' loc_Exact) as [mrs'' e''].
  destruct (shr_m mrs''); try reflexivity.
  destruct (e'' <=? Float.emax - Float.prec); reflexivity.
Qed.

Lemma binary_round_opp s m e :
  binary_round Float.prec Float.emax (negb s) m e
  = SFopp (binary_round Float.prec Float.emax s m e).
Proof.
  unfold binary_round.
  destruct (shl_align m e _) as [mz ez].
  apply binary_round_aux_opp.
Qed.

Lemma of_decimal_opp d k :
  Float.of_decimal true d k = SFopp (Float.of_decimal false d k).
Proof.
  unfold Float.of_decimal.
  destruct d as [|p|p]; try reflexivity.
  destruct (0 <=? k) eqn:Hk.
  - apply Z.leb_le in Hk.
    assert (Hpos : 0 < Z.pos p * 10 ^ k) by (apply Z.mul_pos_pos; [lia|apply Z.pow_pos_nonneg; lia]).
    destruct (Z.pos p * 10 ^ k) as [|q|q] eqn:Hq; try lia.
    unfold binary_normalize. cbn [Z.opp].
    apply (binary_round_opp false).
  - destruct (SFdiv_core_binary Float.prec Float.emax (Z.pos p) 0 (10 ^ (- k)) 0)
      as [[q e] l].
    apply (binary_round_aux_opp false).
Qed.

Lemma f1e9_finite : Float.f1e9 = S754_finite false 8388608000000000 (-23).
Proof. vm_compute. reflexivity. Qed.

Lemma mul_f1e9_opp x :
  Float.mul (SFopp x) Float.f1e9 = SFopp (Float.mul x Float.f1e9).
Proof.
  rewrite f1e9_finite. unfold Float.mul.
  destruct x as [s|s| |s m e]; try reflexivity.
  - cbn [SFopp SFmul]. destruct s; reflexivity.
  - cbn [SFopp SFmul]. destruct s; reflexivity.
  - cbn [SFopp SFmul]. rewrite !xorb_false_r. apply binary_round_aux_opp.
Qed.

Lemma to_int_opp y :
  Float.to_int (SFopp y)
  = match Float.to_int y with Ok n => Ok (- n) | Raise e => Raise e end.
Proof.
  destruct y as [s|s| |s m e]; try reflexivity.
  cbn [SFopp Float.to_int]. cbv zeta.
  destruct s; cbn [negb]; f_equal; lia.
Qed.

(** X19. The conversion [int(float(text) * 1e9)] of the probes treats a
    skew and its negative alike: for the same digits, a minus sign negates
    the nanoseconds (truncation is toward zero, and an overflow stays an
    overflow), so both fall in the same band. *)
Theorem skew_sign_does_not_change_the_band :
  forall (d k t : Z),
    match Float.seconds_to_ns (Float.of_decimal false d k),
          Float.seconds_to_ns (Float.of_decimal true d k) with
    | Ok n, Ok n' => n' = - n /\ band t (Z.abs n') = band t (Z.abs n)
    | Raise e, Raise e' => e = e'
    | _, _ => False
    end.
Proof.
  intros d k t. unfold Float.seconds_to_ns.
  rewrite of_decimal_opp, mul_f1e9_opp, to_int_opp.
  destruct (Float.to_int (Float.mul (Float.of_decimal false d k) Float.f1e9)) as [n|e].
  - split; [reflexivity|]. rewrite Z.abs_opp. reflexivity.
  - reflexivity.
Qed.

(* ===================================================================== *)
(** * The fallback of the Windows probe                                   *)
(* ===================================================================== *)

(** X20. [measure_skew_windows] of [driftMonitorDual.py] asks the status
    query only when the stripchart gave no sample: with a sample from the
    stripchart it returns that sample and has started one command; without
    one it returns what the status probe makes of the second command's
    output, error included. *)
Theorem dual_windows_probe_falls_back_to_status :
  forall (E : env) (w : world),
    let r := Dual.measure_skew_windows E w in
    let o1 := shell E (spawned w) stripchart_command (Some 10) in
    let o2 := shell E (S (spawned w)) "w32tm /query /status" (Some 6) in
    match Dual.stripchart_sample (run_cmd_output o1) with
    | Some n =>
        fst r = Ok (Some n)
        /\ commands_of (trace (snd r)) = commands_of (trace w) ++ [stripchart_command]
    | None =>
        fst r = Dual.status_sample (run_cmd_output o2)
        /\ commands_of (trace (snd r))
           = commands_of (trace w) ++ [stripchart_command; "w32tm /query /status"]
    end.
Proof.
  intros E w. cbv zeta.
  unfold Dual.measure_skew_windows. rewrite bindM_eq, dual_stripchart_eq. cbv zeta.
  fold stripchart_command.
  destruct (Dual.stripchart_sample _) as [n|].
  - unfold ret. cbn [fst snd trace and_then]. split; [reflexivity|].
    rewrite commands_of_app. simpl. rewrite commands_of_run_cmd_log. reflexivity.
  - rewrite dual_status_eq. cbv zeta. cbn [fst snd trace and_then spawned].
    split; [reflexivity|].
    repeat first [ rewrite commands_of_app
                 | rewrite commands_of_run_cmd_log
                 | progress simpl ].
    rewrite <- ?app_assoc. reflexivity.
Qed.

(* ===================================================================== *)
(** * The graph of [driftMonitorDual.py]                                  *)
(* ===================================================================== *)

Lemma map_seq_const {A} (f : Z -> A) (x : A) len : forall a,
  (forall i, (a <= i < a + len)%nat -> f (Z.of_nat i) = x) ->
  map f (map Z.of_nat (seq a len)) = repeat x len.
Proof.
  induction len as [|len IH]; intros a H; [reflexivity|].
  simpl. rewrite H by lia. f_equal. apply IH. intros i Hi. apply H. lia.
Qed.

Lemma string_length_list s :
  String.length s = List.length (list_ascii_of_string s).
Proof. induction s as [|c s IH]; simpl; [reflexivity|]. rewrite IH. reflexivity. Qed.

Lemma plot_w_bounds width :
  20 <= Graph.plot_w width /\ 10 <= Graph.center width
  /\ 2 * Graph.center width <= Graph.plot_w width
  /\ Graph.center width < Graph.plot_w width.
Proof.
  unfold Graph.center, Graph.plot_w.
  pose proof (Z.div_mod (Z.max 20 (width - 20)) 2 ltac:(lia)) as Hd.
  pose proof (Z.mod_pos_bound (Z.max 20 (width - 20)) 2 ltac:(lia)) as Hm.
  lia.
Qed.

Lemma cell_cases center o c :
  Graph.cell center o c
  = if c =? center then Graph.bar
    else if (center + o <=? c) && (c <? center) then "?"%char
    else if (center <? c) && (c <=? center + o) then Graph.bar
    else " "%char.
Proof.
  unfold Graph.cell. cbv zeta.
  destruct (Z.eqb_spec c center); [reflexivity|].
  destruct (Z.leb_spec (center + Z.min o 0) c), (Z.ltb_spec c center),
    (Z.ltb_spec o 0), (Z.leb_spec (center + o) c), (Z.ltb_spec center c),
    (Z.leb_spec c (center + Z.max o 0)), (Z.ltb_spec 0 o), (Z.leb_spec c (center + o));
    simpl; try reflexivity; lia.
Qed.

(** X21. A row of the graph of [driftMonitorDual.py] has [plot_w]
    cells, at least 20: blanks, then for a negative offset its question
    marks up to the axis, the axis at [center], then for a positive offset
    its bars, then blanks. A bar longer than its half of the plot is cut
    at the edge, and the bar of a positive offset is drawn with the
    character of the axis. *)
Theorem graph_row_shape :
  forall (width o : Z),
    let W := Z.to_nat (Graph.plot_w width) in
    let C := Z.to_nat (Graph.center width) in
    let L := Z.to_nat (Z.min (- o) (Graph.center width)) in
    let R := Z.to_nat (Z.min o (Graph.plot_w width - 1 - Graph.center width)) in
    list_ascii_of_string (Graph.row width o)
    = repeat " "%char (C - L) ++ repeat "?"%char L ++ [Graph.bar]
      ++ repeat Graph.bar R ++ repeat " "%char (W - 1 - C - R)
    /\ String.length (Graph.row width o) = W
    /\ (20 <= W)%nat.
Proof.
  intros width o W C L R.
  destruct (plot_w_bounds width) as (HW & HC & H2 & HCW).
  assert (Hrow : list_ascii_of_string (Graph.row width o)
                 = repeat " "%char (C - L) ++ repeat "?"%char L ++ [Graph.bar]
                   ++ repeat Graph.bar R ++ repeat " "%char (W - 1 - C - R)).
  { unfold Graph.row, Graph.range. rewrite list_ascii_of_string_of_list_ascii.
    fold W. set (rest := (W - 1 - C - R)%nat).
    assert (HWsum : W = ((C - L) + (L + (1 + (R + rest))))%nat)
      by (subst rest W C L R; lia).
    rewrite HWsum.
    rewrite !seq_app, !map_app. simpl seq at 3. simpl map at 5.
    cbn [Nat.add].
    repeat f_equal.
    - apply map_seq_const. intros i Hi. rewrite cell_cases.
      destruct (Z.eqb_spec (Z.of_nat i) (Graph.center width)); [subst rest W C L R; lia|].
      destruct (Z.leb_spec (Graph.center width + o) (Z.of_nat i)),
        (Z.ltb_spec (Z.of_nat i) (Graph.center width)),
        (Z.ltb_spec (Graph.center width) (Z.of_nat i)),
        (Z.leb_spec (Z.of_nat i) (Graph.center width + o));
        simpl; try reflexivity; subst rest W C L R; lia.
    - apply map_seq_const. intros i Hi. rewrite cell_cases.
      destruct (Z.eqb_spec (Z.of_nat i) (Graph.center width)); [subst rest W C L R; lia|].
      destruct (Z.leb_spec (Graph.center width + o) (Z.of_nat i)),
        (Z.ltb_spec (Z.of_nat i) (Graph.center width)),
        (Z.ltb_spec (Graph.center width) (Z.of_nat i)),
        (Z.leb_spec (Z.of_nat i) (Graph.center width + o));
        simpl; try reflexivity; subst rest W C L R; lia.
    - rewrite cell_cases.
      replace (Z.of_nat (C - L + L)) with (Graph.center width) by (subst rest W C L R; lia).
      rewrite Z.eqb_refl. reflexivity.
    - apply map_seq_const. intros i Hi. rewrite cell_cases.
      destruct (Z.eqb_spec (Z.of_nat i) (Graph.center width)); [subst rest W C L R; lia|].
      destruct (Z.leb_spec (Graph.center width + o) (Z.of_nat i)),
        (Z.ltb_spec (Z.of_nat i) (Graph.center width)),
        (Z.ltb_spec (Graph.center width) (Z.of_nat i)),
        (Z.leb_spec (Z.of_nat i) (Graph.center width + o));
        simpl; try reflexivity; subst rest W C L R; lia.
    - apply map_seq_const. intros i Hi. rewrite cell_cases.
      destruct (Z.eqb_spec (Z.of_nat i) (Graph.center width)); [subst rest W C L R; lia|].
      destruct (Z.leb_spec (Graph.center width + o) (Z.of_nat i)),
        (Z.ltb_spec (Z.of_nat i) (Graph.center width)),
        (Z.ltb_spec (Graph.center width) (Z.of_nat i)),
        (Z.leb_spec (Z.of_nat i) (Graph.center width + o));
        simpl; try reflexivity; subst rest W C L R; lia. }
  split; [exact Hrow|]. split; [|subst W; lia].
  unfold Graph.row, Graph.range.
  rewrite string_length_list, list_ascii_of_string_of_list_ascii.
  rewrite !length_map, length_seq. reflexivity.
Qed.

Lemma graph_rows_offsets width sc : forall h rs,
  Graph.rows width sc h = Graph.Value rs ->
  exists os,
    Forall2 (fun val o => Graph.offs sc val = Graph.Value o) h os
    /\ rs = map (Graph.row width) os.
Proof.
  induction h as [|val h IH]; intros rs H.
  - inversion H. exists []. split; [constructor|reflexivity].
  - simpl in H. destruct (Graph.offs sc val) as [o| |] eqn:Ho; try discriminate H.
    simpl in H. destruct (Graph.rows width sc h) as [rs'| |]; try discriminate H.
    simpl in H. inversion H; subst rs.
    destruct (IH rs' eq_refl) as [os [Hos Hrs]].
    exists (o :: os). split; [constructor; assumption|]. simpl. rewrite Hrs. reflexivity.
Qed.

Lemma last_lines_of_graph {A} (x : A) (l : list A) :
  Graph.last_lines (Nat.min 40 (List.length (x :: l))) (x :: l)
  = if (List.length l <? 40)%nat then x :: l else Deque.lastn 40 l.
Proof.
  unfold Graph.last_lines, Deque.lastn. cbn [List.length].
  destruct (Nat.ltb_spec (List.length l) 40) as [Hlt|Hge].
  - rewrite Nat.min_r by lia. rewrite Nat.sub_diag. reflexivity.
  - rewrite Nat.min_l by lia.
    replace (S (List.length l) - 40)%nat with (S (List.length l - 40)) by lia.
    reflexivity.
Qed.

(** X22. What [render_graph] of [driftMonitorDual.py] returns, when it
    returns: one row for each sample, drawn at the offset computed from
    the sample and the scale, under the header line. It keeps the last 40
    lines: from 40 samples on, the header is cut and only the rows of the
    last 40 samples are left. *)
Theorem graph_keeps_the_last_forty_lines :
  forall (width : Z) (skew_history : list Z) (text : string),
    Graph.render_graph width skew_history = Graph.Value text ->
    exists sc os,
      Graph.scale width skew_history = Graph.Value sc
      /\ Forall2 (fun val o => Graph.offs sc val = Graph.Value o) skew_history os
      /\ text
         = Graph.join
             (if (List.length skew_history <? 40)%nat
              then Graph.header skew_history :: map (Graph.row width) os
              else map (Graph.row width) (Deque.lastn 40 os)).
Proof.
  intros width h text H. unfold Graph.render_graph in H.
  destruct (Graph.scale width h) as [sc| |]; try discriminate H.
  cbn [Graph.and_after] in H.
  destruct (Graph.rows width sc h) as [rs| |] eqn:Hrs; try discriminate H.
  cbn [Graph.and_after] in H. cbv zeta in H.
  set (t := Graph.join _) in H. injection H as <-. subst t.
  destruct (graph_rows_offsets width sc h rs Hrs) as [os [Hos ->]].
  exists sc, os. split; [reflexivity|]. split; [exact Hos|].
  rewrite last_lines_of_graph, length_map.
  rewrite <- (Forall2_length Hos).
  destruct (List.length h <? 40)%nat; [reflexivity|].
  unfold Deque.lastn. rewrite skipn_map, length_map. reflexivity.
Qed.

Lemma graph_keeps_the_last_forty_lines_witness :
  let h := [0; 0; 0; 0; -66800; 250000000] in
  exists sc os,
    Graph.scale 50 h = Graph.Value sc
    /\ Forall2 (fun val o => Graph.offs sc val = Graph.Value o) h os
    /\ Graph.join
         [Graph.header h; Graph.row 50 0; Graph.row 50 0; Graph.row 50 0; Graph.row 50 0;
          Graph.row 50 0; Graph.row 50 14]
       = Graph.join
           (if (List.length h <? 40)%nat
            then Graph.header h :: map (Graph.row 50) os
            else map (Graph.row 50) (Deque.lastn 40 os)).
Proof.
  apply (graph_keeps_the_last_forty_lines 50 [0; 0; 0; 0; -66800; 250000000]).
  vm_compute. reflexivity.
Defined.

Lemma truediv_int_defined a b :
  b <> 0 -> Graph.truediv_int a b <> Graph.RaisesZeroDivisionError.
Proof.
  intros Hb. unfold Graph.truediv_int.
  destruct (Z.eqb_spec b 0); [contradiction|].
  destruct (a =? 0); [discriminate|].
  destruct (SFdiv_core_binary _ _ _ _ _ _) as [[q e] l].
  destruct (binary_round_aux _ _ _ _ _ _); discriminate.
Qed.

Lemma graph_offs_defined sc val :
  Graph.offs sc val <> Graph.RaisesZeroDivisionError.
Proof.
  unfold Graph.offs.
  destruct (Graph.le_zero sc) eqn:Hle; [discriminate|].
  assert (Hround : forall x, Graph.round x <> Graph.RaisesZeroDivisionError)
    by (intros [s|s| |s m e]; discriminate).
  destruct sc as [z|f]; unfold Graph.truediv.
  - simpl in Hle. apply Z.leb_gt in Hle.
    pose proof (truediv_int_defined val z ltac:(lia)) as Hd.
    destruct (Graph.truediv_int val z); [apply Hround|discriminate|contradiction].
  - destruct (Graph.finite_or_overflow (Float.of_Z val)) as [x| |] eqn:Hx;
      [|discriminate|destruct (Float.of_Z val); discriminate Hx].
    cbn [Graph.and_after]. unfold Graph.truediv_float.
    destruct f as [s|s| |s m e]; try apply Hround.
    destruct s; discriminate Hle.
Qed.

(** X23. [render_graph] of [driftMonitorDual.py] never divides by zero,
    whatever the width of the terminal and the history: the plot is at
    least 20 columns wide, so [center - 1] is not 0, and a sample is
    divided by the scale only where the scale is positive. *)
Theorem graph_never_divides_by_zero :
  forall (width : Z) (skew_history : list Z),
    Graph.render_graph width skew_history <> Graph.RaisesZeroDivisionError.
Proof.
  intros width h. unfold Graph.render_graph.
  assert (Hsc : Graph.scale width h <> Graph.RaisesZeroDivisionError).
  { unfold Graph.scale. destruct (0 <? Graph.max_abs h); [|discriminate].
    destruct (plot_w_bounds width) as (_ & HC & _).
    pose proof (truediv_int_defined (Graph.max_abs h) (Graph.center width - 1)
                  ltac:(lia)) as Hd.
    destruct (Graph.truediv_int _ _); [discriminate|discriminate|contradiction]. }
  destruct (Graph.scale width h) as [sc| |]; [|discriminate|contradiction].
  cbn [Graph.and_after].
  assert (Hrows : forall l, Graph.rows width sc l <> Graph.RaisesZeroDivisionError).
  { induction l as [|val l IH]; [discriminate|]. simpl.
    pose proof (graph_offs_defined sc val) as Ho.
    destruct (Graph.offs sc val); [|discriminate|contradiction]. simpl.
    destruct (Graph.rows width sc l); [discriminate|discriminate|contradiction]. }
  specialize (Hrows h).
  destruct (Graph.rows width sc h); [discriminate|discriminate|contradiction].
Qed.

(* ===================================================================== *)
(** * The service configuration                                           *)
(* ===================================================================== *)

Lemma messages_of_app evs1 evs2 :
  messages_of (evs1 ++ evs2) = messages_of evs1 ++ messages_of evs2.
Proof.
  induction evs1 as [|ev evs1 IH]; [reflexivity|].
  destruct ev; simpl; rewrite IH; reflexivity.
Qed.

Lemma bindC_eq {A B} (c : Config.C A) (k : A -> Config.C B) s :
  Config.bindC c k s
  = match c s with
    | (Ok a, s') => k a s'
    | (Raise e, s') => (Raise e, s')
    end.
Proof. reflexivity. Qed.

Lemma performs_ret {A} (a : A) : performs (Config.retC a) a [] 0.
Proof.
  intros s. exists s. unfold Config.retC.
  rewrite !app_nil_r, Nat.add_0_r. repeat split; reflexivity.
Qed.

Lemma performs_bind {A B} (c : Config.C A) (k : A -> Config.C B) a b
  cmds1 cmds2 n1 n2 :
  performs c a cmds1 n1 ->
  performs (k a) b cmds2 n2 ->
  performs (Config.bindC c k) b (cmds1 ++ cmds2) (n1 + n2).
Proof.
  intros Hc Hk s. rewrite bindC_eq.
  destruct (Hc s) as [s1 (-> & C1 & R1 & F1)].
  destruct (Hk s1) as [s2 (-> & C2 & R2 & F2)].
  exists s2. split; [reflexivity|].
  rewrite C2, C1, R2, R1, F2, F1, !app_assoc.
  repeat split; lia.
Qed.

Lemma performs_then {A B} (c : Config.C A) (k : A -> Config.C B) a b
  cmds1 cmds2 n1 n2 cmds n :
  performs c a cmds1 n1 ->
  performs (k a) b cmds2 n2 ->
  cmds = cmds1 ++ cmds2 -> n = (n1 + n2)%nat ->
  performs (Config.bindC c k) b cmds n.
Proof. intros Hc Hk -> ->. apply (performs_bind c k a b); assumption. Qed.

(** What a step of the correction does, inside the configuration. *)
Lemma performs_lift {A} (c : M A) a cmds :
  (forall w, exists evs k,
      c w = (Ok a, and_then w evs k) /\ commands_of evs = cmds) ->
  performs (Config.liftC c) a cmds 0.
Proof.
  intros Hc s. unfold Config.liftC.
  destruct (Hc (Config.run_state s)) as [evs [k (-> & Hcmds)]].
  eexists. split; [reflexivity|].
  unfold config_commands. cbn [Config.run_state Config.reports trace and_then files].
  rewrite commands_of_app, Hcmds, Nat.add_0_r.
  repeat split; reflexivity.
Qed.

Lemma performs_log msg : performs (Config.log msg) tt [] 0.
Proof.
  apply performs_lift. intros w.
  exists [Log msg []], O. split; reflexivity.
Qed.

Lemma performs_write_report a b : performs (Config.write_report a b) tt [] 1.
Proof.
  intros s. eexists. split; [reflexivity|].
  unfold config_commands. cbn [Config.run_state Config.reports].
  rewrite !app_nil_r, length_app. repeat split; reflexivity.
Qed.

Section CompletingShell.
Variable E : env.
Variables out err : string -> string.
Hypothesis Hshell : forall k cmd, shell E k cmd None = Completed (out cmd) (err cmd).

Lemma correction_run_cmd_runs cmd w :
  exists evs k,
    Correction.run_cmd E cmd w = (Ok (Str.strip (out cmd)), and_then w evs k)
    /\ commands_of evs = [cmd]
    /\ filter (fun m => negb (Str.startswith "[CMD-ERR] " m)) (messages_of evs) = [].
Proof.
  rewrite (correction_run_cmd_completed E cmd w (out cmd) (err cmd)) by apply Hshell.
  eexists. eexists. split; [reflexivity|].
  unfold correction_run_cmd_log.
  destruct (nonempty (Str.strip (err cmd))); split; reflexivity.
Qed.

Lemma performs_run_cmd cmd :
  performs (Config.run_cmd E cmd) (Str.strip (out cmd)) [cmd] 0.
Proof.
  apply performs_lift. intros w.
  destruct (correction_run_cmd_runs cmd w) as [evs [k (H1 & H2 & _)]].
  exists evs, k. split; assumption.
Qed.

Lemma performs_run_all cmds : performs (Config.run_all E cmds) tt cmds 0.
Proof.
  induction cmds as [|cmd cmds IH]; [apply performs_ret|].
  simpl Config.run_all.
  eapply performs_then; [apply performs_run_cmd|exact IH|reflexivity..].
Qed.

End CompletingShell.

Lemma tried_first ok pre : forall p post,
  forallb (fun x => negb (ok x)) pre = true -> ok p = true ->
  tried ok (pre ++ p :: post) = pre ++ [p]
  /\ existsb ok (pre ++ p :: post) = true
  /\ forall failure,
       pool_lines ok failure (pre ++ p :: post)
       = map failure pre ++ [Str.cat "[OK] Configured " p].
Proof.
  induction pre as [|x pre IH]; intros p post Hpre Hp.
  - simpl. rewrite Hp. repeat split; reflexivity.
  - simpl in Hpre. apply andb_prop in Hpre. destruct Hpre as [Hx Hpre].
    apply negb_true_iff in Hx. destruct (IH p post Hpre Hp) as (H1 & H2 & H3).
    cbn [app tried existsb pool_lines map]. rewrite Hx, H1, H2.
    repeat split. intros failure. rewrite H3. reflexivity.
Qed.

Lemma tried_none ok pools :
  forallb (fun x => negb (ok x)) pools = true ->
  tried ok pools = pools
  /\ existsb ok pools = false
  /\ forall failure, pool_lines ok failure pools = map failure pools.
Proof.
  induction pools as [|x pools IH]; intros H.
  - repeat split; reflexivity.
  - simpl in H. apply andb_prop in H. destruct H as [Hx H].
    apply negb_true_iff in Hx. destruct (IH H) as (H1 & H2 & H3).
    cbn [tried existsb pool_lines map]. rewrite Hx, H1, H2.
    repeat split. intros failure. rewrite H3. reflexivity.
Qed.

Section PoolLoops.
Variable E : env.
Variables out err : string -> string.
Hypothesis Hshell : forall k cmd, shell E k cmd None = Completed (out cmd) (err cmd).

Lemma config_run_cmd_eq cmd s :
  exists s',
    Config.run_cmd E cmd s = (Ok (Str.strip (out cmd)), s')
    /\ config_commands s' = config_commands s ++ [cmd]
    /\ config_lines s' = config_lines s
    /\ Config.reports s' = Config.reports s
    /\ files (Config.run_state s') = files (Config.run_state s).
Proof.
  unfold Config.run_cmd, Config.liftC.
  destruct (correction_run_cmd_runs E out err Hshell cmd (Config.run_state s))
    as [evs [k (-> & Hc & Hm)]].
  eexists. split; [reflexivity|].
  unfold config_commands, config_lines, config_messages.
  cbn [Config.run_state Config.reports trace and_then files].
  rewrite commands_of_app, messages_of_app, filter_app, Hc, Hm, app_nil_r.
  repeat split; reflexivity.
Qed.

Lemma config_log_eq msg s :
  Str.startswith "[CMD-ERR] " msg = false ->
  exists s',
    Config.log msg s = (Ok tt, s')
    /\ config_commands s' = config_commands s
    /\ config_lines s' = config_lines s ++ [msg]
    /\ Config.reports s' = Config.reports s
    /\ files (Config.run_state s') = files (Config.run_state s).
Proof.
  intros Hmsg. eexists. split; [reflexivity|].
  unfold config_commands, config_lines, config_messages.
  cbn [Config.run_state Config.reports trace and_then files].
  rewrite commands_of_app, messages_of_app, filter_app.
  cbn [commands_of messages_of filter]. rewrite Hmsg, app_nil_r.
  repeat split; reflexivity.
Qed.

Lemma unix_pools_eq tool pools : forall s,
  let ok := answered out (Config.unix_pool_cmd tool) in
  exists s',
    Config.unix_pools E tool pools s = (Ok (existsb ok pools), s')
    /\ config_commands s'
       = config_commands s ++ map (Config.unix_pool_cmd tool) (tried ok pools)
    /\ config_lines s' = config_lines s ++ pool_lines ok unix_pool_failure pools
    /\ Config.reports s' = Config.reports s
    /\ files (Config.run_state s') = files (Config.run_state s).
Proof.
  induction pools as [|pool pools IH]; intros s ok.
  - exists s. simpl. rewrite !app_nil_r. repeat split; reflexivity.
  - cbn [Config.unix_pools]. rewrite bindC_eq.
    destruct (config_run_cmd_eq (Config.unix_pool_cmd tool pool) s)
      as [s1 (-> & C1 & L1 & R1 & F1)].
    cbn [existsb tried pool_lines]. fold ok.
    change (nonempty (Str.strip (out (Config.unix_pool_cmd tool pool)))) with (ok pool).
    destruct (ok pool).
    + rewrite bindC_eq.
      destruct (config_log_eq (Str.cat "[OK] Configured " pool) s1 eq_refl)
        as [s2 (-> & C2 & L2 & R2 & F2)].
      exists s2. split; [reflexivity|].
      rewrite C2, C1, L2, L1, R2, R1, F2, F1. repeat split; reflexivity.
    + rewrite bindC_eq.
      destruct (config_log_eq
                  (Str.cat "[FAIL] Pool " (Str.cat pool ": could not configure")) s1 eq_refl)
        as [s2 (-> & C2 & L2 & R2 & F2)].
      destruct (IH s2) as [s3 (-> & C3 & L3 & R3 & F3)].
      exists s3. split; [reflexivity|].
      rewrite C3, C2, C1, L3, L2, L1, R3, R2, R1, F3, F2, F1, <- !app_assoc.
      repeat split; reflexivity.
Qed.

Lemma windows_pools_eq pools : forall s,
  let ok := answered out Config.windows_pool_cmd in
  exists s',
    Config.windows_pools E pools s = (Ok (existsb ok pools), s')
    /\ config_commands s'
       = config_commands s ++ map Config.windows_pool_cmd (tried ok pools)
         ++ (if existsb ok pools then ["w32tm /resync /force"] else [])
    /\ config_lines s' = config_lines s ++ pool_lines ok windows_pool_failure pools
    /\ Config.reports s' = Config.reports s
    /\ files (Config.run_state s') = files (Config.run_state s).
Proof.
  induction pools as [|pool pools IH]; intros s ok.
  - exists s. simpl. rewrite !app_nil_r. repeat split; reflexivity.
  - cbn [Config.windows_pools]. rewrite bindC_eq.
    destruct (config_run_cmd_eq (Config.windows_pool_cmd pool) s)
      as [s1 (-> & C1 & L1 & R1 & F1)].
    cbn [existsb tried pool_lines]. fold ok.
    change (nonempty (Str.strip (out (Config.windows_pool_cmd pool)))) with (ok pool).
    destruct (ok pool).
    + rewrite bindC_eq.
      destruct (config_log_eq (Str.cat "[OK] Configured " pool) s1 eq_refl)
        as [s2 (-> & C2 & L2 & R2 & F2)].
      rewrite bindC_eq.
      destruct (config_run_cmd_eq "w32tm /resync /force" s2)
        as [s3 (-> & C3 & L3 & R3 & F3)].
      exists s3. split; [reflexivity|].
      rewrite C3, C2, C1, L3, L2, L1, R3, R2, R1, F3, F2, F1, <- !app_assoc.
      repeat split; reflexivity.
    + rewrite bindC_eq.
      destruct (config_log_eq (Str.cat "[FAIL] Could not configure " pool) s1 eq_refl)
        as [s2 (-> & C2 & L2 & R2 & F2)].
      destruct (IH s2) as [s3 (-> & C3 & L3 & R3 & F3)].
      exists s3. split; [reflexivity|].
      rewrite C3, C2, C1, L3, L2, L1, R3, R2, R1, F3, F2, F1, <- !app_assoc.
      repeat split; reflexivity.
Qed.

End PoolLoops.

(** X24. The pool loops of [unix_config] and [windows_config]
    ([dispatcher.py], [dispatchService.py]), every command completing: the
    pools are tried in the order of [POOLS] until the first whose command
    prints something; each pool before it gets a [[FAIL]] line, it gets
    the [[OK]] line (on Windows followed by a forced resync), and no
    later pool is tried. *)
Theorem pools_are_tried_until_the_first_answers :
  forall (E : env) (out err : string -> string) (tool : string)
         (pre post : list string) (p : string) (s : Config.state),
    (forall k cmd, shell E k cmd None = Completed (out cmd) (err cmd)) ->
    forallb (fun x => negb (answered out (Config.unix_pool_cmd tool) x)) pre = true ->
    answered out (Config.unix_pool_cmd tool) p = true ->
    forallb (fun x => negb (answered out Config.windows_pool_cmd x)) pre = true ->
    answered out Config.windows_pool_cmd p = true ->
    (exists s',
        Config.unix_pools E tool (pre ++ p :: post) s = (Ok true, s')
        /\ config_commands s'
           = config_commands s ++ map (Config.unix_pool_cmd tool) (pre ++ [p])
        /\ config_lines s'
           = config_lines s ++ map unix_pool_failure pre
             ++ [Str.cat "[OK] Configured " p])
    /\ (exists s',
          Config.windows_pools E (pre ++ p :: post) s = (Ok true, s')
          /\ config_commands s'
             = config_commands s ++ map Config.windows_pool_cmd (pre ++ [p])
               ++ ["w32tm /resync /force"]
          /\ config_lines s'
             = config_lines s ++ map windows_pool_failure pre
               ++ [Str.cat "[OK] Configured " p]).
Proof.
  intros E out err tool pre post p s Hshell Hu Hup Hw Hwp. split.
  - destruct (unix_pools_eq E out err Hshell tool (pre ++ p :: post) s)
      as [s' (H & C & L & _)].
    destruct (tried_first _ pre p post Hu Hup) as (T1 & T2 & T3).
    cbv zeta in H, C, L. rewrite T1, T2, ?T3 in *.
    exists s'. repeat split; assumption.
  - destruct (windows_pools_eq E out err Hshell (pre ++ p :: post) s)
      as [s' (H & C & L & _)].
    destruct (tried_first _ pre p post Hw Hwp) as (T1 & T2 & T3).
    cbv zeta in H, C, L. rewrite T1, T2, ?T3 in *.
    exists s'. repeat split; assumption.
Qed.

Lemma pools_are_tried_until_the_first_answers_witness :
  let E := host_answering "Linux" "pool.ntp.org" "200 OK" in
  let s := config_start empty_disk in
  (exists s',
      Config.unix_pools E "chronyc" DispatcherMain.POOLS s = (Ok true, s')
      /\ config_commands s'
         = config_commands s
           ++ map (Config.unix_pool_cmd "chronyc") (["pool.chrony.eu"] ++ ["pool.ntp.org"])
      /\ config_lines s'
         = config_lines s ++ map unix_pool_failure ["pool.chrony.eu"]
           ++ [Str.cat "[OK] Configured " "pool.ntp.org"])
  /\ (exists s',
        Config.windows_pools E DispatcherMain.POOLS s = (Ok true, s')
        /\ config_commands s'
           = config_commands s
             ++ map Config.windows_pool_cmd (["pool.chrony.eu"] ++ ["pool.ntp.org"])
             ++ ["w32tm /resync /force"]
        /\ config_lines s'
           = config_lines s ++ map windows_pool_failure ["pool.chrony.eu"]
             ++ [Str.cat "[OK] Configured " "pool.ntp.org"]).
Proof.
  apply (pools_are_tried_until_the_first_answers
           (host_answering "Linux" "pool.ntp.org" "200 OK")
           (answers_to "pool.ntp.org" "200 OK") (fun _ => "") "chronyc"
           ["pool.chrony.eu"] ["time.cloudflare.com"; "time.google.com"] "pool.ntp.org"
           (config_start empty_disk)).
  - intros k cmd. reflexivity.
  - vm_compute. reflexivity.
  - vm_compute. reflexivity.
  - vm_compute. reflexivity.
  - vm_compute. reflexivity.
Defined.

(** X25. When no pool answers, each loop tries every pool of [POOLS] in
    order, logs a [[FAIL]] line for each, starts no resync and ends with
    [success] false. *)
Theorem pools_are_all_tried_when_none_answers :
  forall (E : env) (out err : string -> string) (tool : string)
         (pools : list string) (s : Config.state),
    (forall k cmd, shell E k cmd None = Completed (out cmd) (err cmd)) ->
    forallb (fun x => negb (answered out (Config.unix_pool_cmd tool) x)) pools = true ->
    forallb (fun x => negb (answered out Config.windows_pool_cmd x)) pools = true ->
    (exists s',
        Config.unix_pools E tool pools s = (Ok false, s')
        /\ config_commands s'
           = config_commands s ++ map (Config.unix_pool_cmd tool) pools
        /\ config_lines s' = config_lines s ++ map unix_pool_failure pools)
    /\ (exists s',
          Config.windows_pools E pools s = (Ok false, s')
          /\ config_commands s' = config_commands s ++ map Config.windows_pool_cmd pools
          /\ config_lines s' = config_lines s ++ map windows_pool_failure pools).
Proof.
  intros E out err tool pools s Hshell Hu Hw. split.
  - destruct (unix_pools_eq E out err Hshell tool pools s) as [s' (H & C & L & _)].
    destruct (tried_none _ pools Hu) as (T1 & T2 & T3).
    cbv zeta in H, C, L. rewrite T1, T2, ?T3 in *.
    exists s'. repeat split; assumption.
  - destruct (windows_pools_eq E out err Hshell pools s) as [s' (H & C & L & _)].
    destruct (tried_none _ pools Hw) as (T1 & T2 & T3).
    cbv zeta in H, C, L. rewrite T1, T2, ?T3, app_nil_r in *.
    exists s'. repeat split; assumption.
Qed.

Lemma pools_are_all_tried_when_none_answers_witness :
  let E := host_answering "Linux" "which" "/usr/bin/chronyc" in
  let s := config_start empty_disk in
  (exists s',
      Config.unix_pools E "chronyc" ServiceMain.POOLS s = (Ok false, s')
      /\ config_commands s'
         = config_commands s ++ map (Config.unix_pool_cmd "chronyc") ServiceMain.POOLS
      /\ config_lines s' = config_lines s ++ map unix_pool_failure ServiceMain.POOLS)
  /\ (exists s',
        Config.windows_pools E ServiceMain.POOLS s = (Ok false, s')
        /\ config_commands s'
           = config_commands s ++ map Config.windows_pool_cmd ServiceMain.POOLS
        /\ config_lines s' = config_lines s ++ map windows_pool_failure ServiceMain.POOLS).
Proof.
  apply (pools_are_all_tried_when_none_answers
           (host_answering "Linux" "which" "/usr/bin/chronyc")
           (answers_to "which" "/usr/bin/chronyc") (fun _ => "") "chronyc"
           ServiceMain.POOLS (config_start empty_disk)).
  - intros k cmd. reflexivity.
  - vm_compute. reflexivity.
  - vm_compute. reflexivity.
Defined.

Section ConfigRuns.
Variable E : env.
Variables out err : string -> string.
Hypothesis Hshell : forall k cmd, shell E k cmd None = Completed (out cmd) (err cmd).

Lemma performs_unix_pools tool pools :
  performs (Config.unix_pools E tool pools)
    (existsb (answered out (Config.unix_pool_cmd tool)) pools)
    (map (Config.unix_pool_cmd tool)
       (tried (answered out (Config.unix_pool_cmd tool)) pools)) 0.
Proof.
  intros s.
  destruct (unix_pools_eq E out err Hshell tool pools s) as [s' (H & C & _ & R & F)].
  exists s'. rewrite R, Nat.add_0_r. repeat split; assumption.
Qed.

Lemma performs_windows_pools pools :
  performs (Config.windows_pools E pools)
    (existsb (answered out Config.windows_pool_cmd) pools)
    (map Config.windows_pool_cmd (tried (answered out Config.windows_pool_cmd) pools)
     ++ (if existsb (answered out Config.windows_pool_cmd) pools
         then ["w32tm /resync /force"] else [])) 0.
Proof.
  intros s.
  destruct (windows_pools_eq E out err Hshell pools s) as [s' (H & C & _ & R & F)].
  exists s'. rewrite R, Nat.add_0_r. repeat split; assumption.
Qed.

Lemma performs_find_tool bins :
  performs (Config.find_tool E bins)
    (find (answered out which_cmd) bins)
    (map which_cmd (tried (answered out which_cmd) bins)) 0.
Proof.
  induction bins as [|bin bins IH]; [apply performs_ret|].
  unfold answered, which_cmd in *.
  cbn [Config.find_tool find tried map].
  destruct (nonempty (Str.strip (out (Str.cat "which " bin)))) eqn:Hb.
  - eapply performs_then;
      [apply (performs_run_cmd E out err Hshell)
      |cbv beta; rewrite Hb; apply performs_ret|reflexivity..].
  - eapply performs_then;
      [apply (performs_run_cmd E out err Hshell)
      |cbv beta; rewrite Hb; exact IH|reflexivity..].
Qed.

(** The Unix correction, every command completing. *)
Lemma correction_unix_runs threshold tool w :
  exists evs k,
    Correction.drift_correction_unix E threshold tool w = (Ok tt, and_then w evs k)
    /\ commands_of evs
       = Str.cat tool " tracking"
         :: unix_correction threshold tool (Str.strip (out (Str.cat tool " tracking"))).
Proof.
  unfold Correction.drift_correction_unix, unix_correction.
  repeat first
    [ rewrite correction_run_cmd_completed with (out := out _) (err := err _)
        by apply Hshell
    | run_step ].
  destruct (Correction.tracking_skew _) as [x|].
  - repeat run_step.
    destruct (band_float threshold (Float.abs x));
      repeat first
        [ rewrite correction_run_cmd_completed with (out := out _) (err := err _)
            by apply Hshell
        | run_step ];
      rewrite ?and_then_and_then; eexists; eexists; (split; [reflexivity|]);
      repeat first [ rewrite commands_of_app
                   | rewrite commands_of_correction_log
                   | progress simpl ];
      reflexivity.
  - unfold ret. rewrite ?and_then_and_then. eexists. eexists. split; [reflexivity|].
    repeat first [ rewrite commands_of_app
                 | rewrite commands_of_correction_log
                 | progress simpl ];
    reflexivity.
Qed.

Lemma performs_unix_config POOLS (rest : string -> Config.C unit)
  (rest_cmds : string -> list string) :
  (forall tool, performs (rest tool) tt (rest_cmds tool) 0) ->
  performs (Config.unix_config E POOLS rest) tt
    (unix_config_commands out POOLS
     ++ match unix_tool out with Some tool => rest_cmds tool | None => [] end)
    (match unix_tool out with Some _ => 1 | None => 0 end).
Proof.
  intros Hrest. unfold Config.unix_config, unix_config_commands, unix_tool.
  pose proof (performs_find_tool ["chronyc"; "ntpsec-ntpdate"]) as Hfind.
  destruct (find (answered out which_cmd) ["chronyc"; "ntpsec-ntpdate"]) as [tool|].
  - rewrite <- ?app_assoc.
    eapply performs_then; [apply performs_log| |reflexivity..].
    eapply performs_then; [exact Hfind| |reflexivity..].
    cbv beta iota.
    eapply performs_then; [apply performs_unix_pools| |reflexivity..].
    eapply performs_then;
      [destruct (existsb _ POOLS); [apply performs_ret|apply performs_log]
      | |reflexivity..].
    eapply performs_then; [apply (performs_run_cmd E out err Hshell)| |reflexivity..].
    eapply performs_then; [apply (performs_run_cmd E out err Hshell)| |reflexivity..].
    eapply performs_then; [apply performs_write_report| |reflexivity..].
    eapply performs_then; [apply performs_log|apply Hrest|reflexivity..].
  - rewrite !app_nil_r.
    eapply performs_then; [apply performs_log| |reflexivity..].
    eapply performs_then; [exact Hfind|apply performs_log| |reflexivity].
    rewrite app_nil_r. reflexivity.
Qed.

End ConfigRuns.

(** X26. A run of [dispatcher.py] and of [dispatchService.py] on a host
    that is not Windows, every command completing. Both look for
    [chronyc], then [ntpsec-ntpdate], configure the pools with the tool
    found and write one report. Then [dispatcher.py] always corrects with
    [chronyc], whichever tool it found and even when it found none, while
    [dispatchService.py] corrects with the tool found and stops after
    the search when there is none. Neither touches the disk. *)
Theorem unix_runs_of_dispatcher_and_service :
  forall (E : env) (out err : string -> string) (MODE python_path script_path : string)
         (nssm_found : bool),
    (forall k cmd, shell E k cmd None = Completed (out cmd) (err cmd)) ->
    IS_WINDOWS E = false ->
    performs (DispatcherMain.main E python_path script_path) tt
      (unix_config_commands out DispatcherMain.POOLS
       ++ "chronyc tracking"
          :: unix_correction Dispatcher.threshold "chronyc"
               (Str.strip (out "chronyc tracking")))
      (match unix_tool out with Some _ => 1 | None => 0 end)
    /\ performs (ServiceMain.main E MODE python_path script_path nssm_found) tt
         (unix_config_commands out ServiceMain.POOLS
          ++ match unix_tool out with
             | Some tool =>
                 Str.cat tool " tracking"
                 :: unix_correction (Service.PRECISION_THRESHOLD_NS MODE) tool
                      (Str.strip (out (Str.cat tool " tracking")))
             | None => []
             end)
         (match unix_tool out with Some _ => 1 | None => 0 end).
Proof.
  intros E out err MODE py script nssm Hshell HW. split.
  - assert (Hcfg : performs (DispatcherMain.unix_config E) tt
                     (unix_config_commands out DispatcherMain.POOLS)
                     (match unix_tool out with Some _ => 1 | None => 0 end)).
    { pose proof (performs_unix_config E out err Hshell DispatcherMain.POOLS
                    (fun _ => Config.retC tt) (fun _ => [])
                    (fun _ => performs_ret tt)) as H.
      intros s0. destruct (H s0) as [s' (H1 & H2 & H3 & H4)].
      exists s'. split; [exact H1|]. split; [|split; assumption].
      rewrite H2. destruct (unix_tool out); cbv beta; rewrite app_nil_r; reflexivity. }
    assert (Hcorr : performs (Config.liftC (Dispatcher.drift_correction_unix E)) tt
                      ("chronyc tracking"
                       :: unix_correction Dispatcher.threshold "chronyc"
                            (Str.strip (out "chronyc tracking"))) 0).
    { apply performs_lift. intros w.
      apply (correction_unix_runs E out err Hshell Dispatcher.threshold "chronyc" w). }
    unfold DispatcherMain.main. rewrite HW.
    eapply performs_then; [apply performs_log| |reflexivity|reflexivity].
    eapply performs_then;
      [eapply performs_then; [exact Hcfg|exact Hcorr|reflexivity|reflexivity]
      |apply performs_log| |].
    + rewrite app_nil_r. reflexivity.
    + lia.
  - assert (Hcfg : performs (ServiceMain.unix_config E MODE) tt
                     (unix_config_commands out ServiceMain.POOLS
                      ++ match unix_tool out with
                         | Some tool =>
                             Str.cat tool " tracking"
                             :: unix_correction (Service.PRECISION_THRESHOLD_NS MODE) tool
                                  (Str.strip (out (Str.cat tool " tracking")))
                         | None => []
                         end)
                     (match unix_tool out with Some _ => 1 | None => 0 end)).
    { unfold ServiceMain.unix_config.
      apply (performs_unix_config E out err Hshell ServiceMain.POOLS
               (fun tool => Config.liftC (Service.drift_correction_unix E MODE tool))
               (fun tool =>
                  Str.cat tool " tracking"
                  :: unix_correction (Service.PRECISION_THRESHOLD_NS MODE) tool
                       (Str.strip (out (Str.cat tool " tracking"))))).
      intros tool. apply performs_lift. intros w.
      apply (correction_unix_runs E out err Hshell
               (Service.PRECISION_THRESHOLD_NS MODE) tool w). }
    unfold ServiceMain.main. rewrite HW.
    eapply performs_then; [apply performs_log| |reflexivity|reflexivity].
    eapply performs_then; [exact Hcfg|apply performs_log| |].
    + rewrite app_nil_r. reflexivity.
    + lia.
Qed.

Lemma unix_runs_of_dispatcher_and_service_witness :
  let E := host_answering "Linux" "no such word" "" in
  performs (DispatcherMain.main E "python3" "dispatcher.py") tt
    ["which chronyc"; "which ntpsec-ntpdate"; "chronyc tracking"] 0
  /\ performs (ServiceMain.main E "fast" "python3" "dispatcher.py" false) tt
       ["which chronyc"; "which ntpsec-ntpdate"] 0.
Proof.
  apply (unix_runs_of_dispatcher_and_service
           (host_answering "Linux" "no such word" "")
           (answers_to "no such word" "") (fun _ => "")
           "fast" "python3" "dispatcher.py" false).
  - intros k cmd. reflexivity.
  - reflexivity.
Defined.

(** X27. [windows_config] of [dispatcher.py], every command completing:
    the three registry edits, the service query, the two enabling
    commands only when the query printed [STOPPED] or, in any case of
    letters, [DISABLED], the restart of the service, the pools up to the
    first that answers with its forced resync, the two telemetry queries
    and the scheduled task, in this order; one report is written and the
    disk is left alone. *)
Theorem windows_config_of_dispatcher :
  forall (E : env) (out err : string -> string) (python_path script_path : string),
    (forall k cmd, shell E k cmd None = Completed (out cmd) (err cmd)) ->
    performs (DispatcherMain.windows_config E python_path script_path) tt
      (windows_config_commands out python_path script_path) 1.
Proof.
  intros E out err py script Hshell.
  assert (Hstatus : performs (Config.log_windows_status E) tt
                      ["w32tm /query /status"; "w32tm /query /peers"] 1).
  { unfold Config.log_windows_status.
    eapply performs_then; [apply performs_log| |reflexivity|reflexivity].
    eapply performs_then;
      [apply (performs_run_cmd E out err Hshell)| |reflexivity|reflexivity].
    eapply performs_then;
      [apply (performs_run_cmd E out err Hshell)| |reflexivity|reflexivity].
    eapply performs_then; [apply performs_write_report|apply performs_log
                          |reflexivity|reflexivity]. }
  assert (Htask : performs (Config.create_windows_task E py script) tt
                    [Config.task_cmd py script "TimeSyncTelemetry"] 0).
  { unfold Config.create_windows_task. cbv zeta.
    eapply performs_then;
      [apply (performs_run_cmd E out err Hshell)|apply performs_log
      |reflexivity|reflexivity]. }
  unfold DispatcherMain.windows_config, Config.windows_config, windows_config_commands.
  eapply performs_then; [apply performs_log| |reflexivity|reflexivity].
  eapply performs_then;
    [apply (performs_run_all E out err Hshell)| |reflexivity|reflexivity].
  eapply performs_then;
    [apply (performs_run_cmd E out err Hshell)| |reflexivity|reflexivity].
  cbv beta. fold (service_stopped (Str.strip (out "sc query w32time"))).
  assert (Hen : performs
                  (if service_stopped (Str.strip (out "sc query w32time"))
                   then
                     Config.bindC
                       (Config.log
                          "[WARN] Windows Time service not running or disabled, enabling...")
                       (fun _ =>
                        Config.bindC (Config.run_cmd E "sc config w32time start= auto")
                          (fun _ =>
                           Config.bindC (Config.run_cmd E "sc start w32time")
                             (fun _ => Config.retC tt)))
                   else Config.retC tt) tt
                  (if service_stopped (Str.strip (out "sc query w32time"))
                   then ["sc config w32time start= auto"; "sc start w32time"] else []) 0).
  { destruct (service_stopped (Str.strip (out "sc query w32time"))).
    - eapply performs_then; [apply performs_log| |reflexivity|reflexivity].
      eapply performs_then;
        [apply (performs_run_cmd E out err Hshell)| |reflexivity|reflexivity].
      eapply performs_then;
        [apply (performs_run_cmd E out err Hshell)|apply performs_ret
        |reflexivity|reflexivity].
    - apply performs_ret. }
  eapply performs_then; [exact Hen| |reflexivity|reflexivity].
  eapply performs_then;
    [apply (performs_run_cmd E out err Hshell)| |reflexivity|reflexivity].
  eapply performs_then;
    [apply (performs_run_cmd E out err Hshell)| |reflexivity|reflexivity].
  eapply performs_then;
    [apply (performs_windows_pools E out err Hshell)| |rewrite <- app_assoc; reflexivity
    |reflexivity].
  eapply performs_then;
    [destruct (existsb _ DispatcherMain.POOLS); [apply performs_ret|apply performs_log]
    | |reflexivity|reflexivity].
  eapply performs_then; [exact Hstatus|exact Htask|reflexivity|reflexivity].
Qed.

Lemma windows_config_of_dispatcher_witness :
  let E := host_answering "Windows" "sc query" "STATE : 1  stopped (disabled)" in
  performs (DispatcherMain.windows_config E "python.exe" "dispatcher.py") tt
    (windows_config_commands (answers_to "sc query" "STATE : 1  stopped (disabled)")
       "python.exe" "dispatcher.py") 1
  /\ service_stopped "STATE : 1  stopped (disabled)" = true
  /\ Str.contains "STOPPED" "STATE : 1  stopped (disabled)" = false.
Proof.
  split; [|split; reflexivity].
  apply (windows_config_of_dispatcher
           (host_answering "Windows" "sc query" "STATE : 1  stopped (disabled)")
           (answers_to "sc query" "STATE : 1  stopped (disabled)") (fun _ => "")
           "python.exe" "dispatcher.py").
  intros k cmd. reflexivity.
Defined.

(** X28. [run_cmd] of [dispatcher.py] and [dispatchService.py] has no
    handler. On a host that is not Windows, when the first command,
    [which chronyc], cannot be started, its exception leaves [main]:
    nothing else is started and [Dispatcher complete.] is not logged. *)
Theorem failing_command_ends_the_run :
  forall (E : env) (MODE python_path script_path : string) (nssm_found : bool)
         (s : Config.state) (e : exn),
    IS_WINDOWS E = false ->
    shell E (spawned (Config.run_state s)) "which chronyc" None = Failed e ->
    (exists s',
        DispatcherMain.main E python_path script_path s = (Raise e, s')
        /\ config_commands s' = config_commands s ++ ["which chronyc"]
        /\ config_lines s'
           = config_lines s
             ++ [Str.cat "Dispatcher start on " (system E);
                 "Configuring Unix NTP client..."])
    /\ (exists s',
          ServiceMain.main E MODE python_path script_path nssm_found s = (Raise e, s')
          /\ config_commands s' = config_commands s ++ ["which chronyc"]
          /\ config_lines s'
             = config_lines s
               ++ [Str.cat "Dispatcher start on "
                     (Str.cat (system E) (Str.cat " | Mode=" MODE));
                   "Configuring Unix NTP client..."]).
Proof.
  intros E MODE py script nssm s e HW Hsh.
  assert (Hrun : forall s1,
             spawned (Config.run_state s1) = spawned (Config.run_state s) ->
             Config.run_cmd E "which chronyc" s1
             = (Raise e,
                {| Config.run_state :=
                     and_then (Config.run_state s1) [Spawn "which chronyc" None] 1;
                   Config.reports := Config.reports s1 |})).
  { intros s1 Hs1. unfold Config.run_cmd, Config.liftC, Correction.run_cmd.
    rewrite bindM_eq. unfold spawn. rewrite Hs1, Hsh. reflexivity. }
  split.
  - unfold DispatcherMain.main, DispatcherMain.unix_config, Config.unix_config.
    rewrite HW. cbn [Config.find_tool].
    change (Str.cat "which " "chronyc") with "which chronyc".
    repeat first
      [ rewrite bindC_eq
      | rewrite Hrun by reflexivity
      | progress (unfold Config.log, Config.liftC, log, emit;
                  cbn [Config.run_state Config.reports])
      | progress cbv beta iota ].
    eexists. split; [reflexivity|].
    unfold config_commands, config_lines, config_messages.
    cbn [Config.run_state trace and_then].
    rewrite <- !app_assoc, !commands_of_app, !messages_of_app, !filter_app.
    cbn [commands_of messages_of filter app].
    rewrite app_nil_r. split; reflexivity.
  - unfold ServiceMain.main, ServiceMain.unix_config, Config.unix_config.
    rewrite HW. cbn [Config.find_tool].
    change (Str.cat "which " "chronyc") with "which chronyc".
    repeat first
      [ rewrite bindC_eq
      | rewrite Hrun by reflexivity
      | progress (unfold Config.log, Config.liftC, log, emit;
                  cbn [Config.run_state Config.reports])
      | progress cbv beta iota ].
    eexists. split; [reflexivity|].
    unfold config_commands, config_lines, config_messages.
    cbn [Config.run_state trace and_then].
    rewrite <- !app_assoc, !commands_of_app, !messages_of_app, !filter_app.
    cbn [commands_of messages_of filter app].
    rewrite app_nil_r. split; reflexivity.
Qed.

Lemma failing_command_ends_the_run_witness :
  let E := host_without_shell "Linux" in
  let s := config_start empty_disk in
  let e := OSError "No such file or directory" in
  (exists s',
      DispatcherMain.main E "python3" "dispatcher.py" s = (Raise e, s')
      /\ config_commands s' = config_commands s ++ ["which chronyc"]
      /\ config_lines s'
         = config_lines s
           ++ [Str.cat "Dispatcher start on " (system E);
               "Configuring Unix NTP client..."])
  /\ (exists s',
        ServiceMain.main E "lazy" "python3" "dispatcher.py" false s = (Raise e, s')
        /\ config_commands s' = config_commands s ++ ["which chronyc"]
        /\ config_lines s'
           = config_lines s
             ++ [Str.cat "Dispatcher start on "
                   (Str.cat (system E) (Str.cat " | Mode=" "lazy"));
                 "Configuring Unix NTP client..."]).
Proof.
  apply (failing_command_ends_the_run (host_without_shell "Linux") "lazy" "python3"
           "dispatcher.py" false (config_start empty_disk)
           (OSError "No such file or directory")).
  - reflexivity.
  - reflexivity.
Defined.

(* ===================================================================== *)
(** * The graph of [driftMonitor.py]                                      *)
(* ===================================================================== *)

Lemma monitor_setitem_defined line i x :
  MonitorGraph.setitem line i x <> Graph.RaisesZeroDivisionError.
Proof. unfold MonitorGraph.setitem. cbv zeta. destruct (_ && _); discriminate. Qed.

Lemma monitor_fill_defined indices x : forall line,
  MonitorGraph.fill line indices x <> Graph.RaisesZeroDivisionError.
Proof.
  induction indices as [|i rest IH]; intros line; [discriminate|].
  simpl. pose proof (monitor_setitem_defined line i x) as H.
  destruct (MonitorGraph.setitem line i x); [apply IH|discriminate|contradiction].
Qed.

Lemma monitor_row_defined cols o :
  MonitorGraph.row cols o <> Graph.RaisesZeroDivisionError.
Proof.
  unfold MonitorGraph.row. cbv zeta.
  pose proof (monitor_setitem_defined (repeat MonitorGraph.blank (Z.to_nat cols))
                (cols / 2) MonitorGraph.axis) as H.
  destruct (MonitorGraph.setitem _ _ _); [|discriminate|contradiction].
  cbn [Graph.and_after].
  destruct (0 <? o); [apply monitor_fill_defined|].
  destruct (o <? 0); [apply monitor_fill_defined|discriminate].
Qed.

Lemma monitor_offset_defined sc val :
  MonitorGraph.offset sc val <> Graph.RaisesZeroDivisionError.
Proof.
  unfold MonitorGraph.offset.
  destruct (SFltb (S754_zero false) sc) eqn:Hsc; [|discriminate].
  unfold Graph.truediv.
  destruct (Graph.finite_or_overflow (Float.of_Z val)) as [x| |] eqn:Hx;
    [|discriminate|destruct (Float.of_Z val); discriminate Hx].
  cbn [Graph.and_after]. unfold Graph.truediv_float.
  destruct sc as [s|s| |s m e]; try discriminate Hsc;
    cbn [Graph.and_after]; destruct (Float.to_int _); discriminate.
Qed.

(** X29. [render_graph] of [driftMonitor.py] raises [ZeroDivisionError]
    exactly when [cols // 2] is 0: on a terminal of one column every
    frame fails, whatever the history, and from two columns on no frame
    divides by zero. *)
Theorem monitor_graph_divides_by_zero_on_one_column :
  forall (cols : Z) (skew_history : list Z),
    MonitorGraph.render_graph cols skew_history = Graph.RaisesZeroDivisionError
    <-> cols / 2 = 0.
Proof.
  intros cols h. unfold MonitorGraph.render_graph, MonitorGraph.scale. split.
  - intros H. destruct (Z.eq_dec (cols / 2) 0) as [Hz|Hz]; [exact Hz|exfalso].
    pose proof (truediv_int_defined (MonitorGraph.max_val h) (cols / 2) Hz) as Hd.
    destruct (Graph.truediv_int _ _) as [sc| |]; [|discriminate H|contradiction].
    cbn [Graph.and_after] in H.
    assert (Hrows : forall l, MonitorGraph.rows cols sc l <> Graph.RaisesZeroDivisionError).
    { induction l as [|val l IH]; [discriminate|]. simpl.
      pose proof (monitor_offset_defined sc val) as Ho.
      destruct (MonitorGraph.offset sc val) as [o| |]; [|discriminate|contradiction].
      cbn [Graph.and_after].
      pose proof (monitor_row_defined cols o) as Hr.
      destruct (MonitorGraph.row cols o); [|discriminate|contradiction].
      cbn [Graph.and_after].
      destruct (MonitorGraph.rows cols sc l); [discriminate|discriminate|contradiction]. }
    specialize (Hrows h).
    destruct (MonitorGraph.rows cols sc h); [discriminate H|discriminate H|contradiction].
  - intros Hz. unfold Graph.truediv_int. rewrite Hz. reflexivity.
Qed.

Lemma firstn_repeat_le {A} (x : A) k n :
  (k <= n)%nat -> firstn k (repeat x n) = repeat x k.
Proof.
  revert n. induction k as [|k IH]; intros n H; [reflexivity|].
  destruct n as [|n]; [lia|]. simpl. rewrite IH by lia. reflexivity.
Qed.

Lemma skipn_repeat_le {A} (x : A) k n :
  skipn k (repeat x n) = repeat x (n - k).
Proof.
  revert n. induction k as [|k IH]; intros n.
  - rewrite Nat.sub_0_r. reflexivity.
  - destruct n as [|n]; [reflexivity|]. simpl. apply IH.
Qed.

Lemma monitor_setitem_at line (a : nat) x :
  (a < List.length line)%nat ->
  MonitorGraph.setitem line (Z.of_nat a) x
  = Graph.Value (firstn a line ++ x :: skipn (S a) line).
Proof.
  intros H. unfold MonitorGraph.setitem. cbv zeta.
  destruct (Z.ltb_spec (Z.of_nat a) 0) as [Hn|_]; [lia|].
  destruct (Z.leb_spec 0 (Z.of_nat a)) as [_|Hn]; [|lia].
  destruct (Z.ltb_spec (Z.of_nat a) (Z.of_nat (List.length line))) as [_|Hn]; [|lia].
  simpl. rewrite Nat2Z.id. reflexivity.
Qed.

(** A run of assignments at [a], [a + 1], ..., [a + n - 1]. *)
Lemma monitor_fill_run x n : forall (a : nat) line,
  (a + n <= List.length line)%nat ->
  MonitorGraph.fill line (map (fun k => Z.of_nat a + Z.of_nat k) (seq 0 n)) x
  = Graph.Value (firstn a line ++ repeat x n ++ skipn (a + n) line).
Proof.
  induction n as [|n IH]; intros a line H.
  - simpl. rewrite Nat.add_0_r, firstn_skipn. reflexivity.
  - cbn [seq map MonitorGraph.fill]. rewrite Z.add_0_r.
    rewrite monitor_setitem_at by lia. cbn [Graph.and_after].
    rewrite <- seq_shift, map_map.
    rewrite (map_ext _ (fun k => Z.of_nat (S a) + Z.of_nat k))
      by (intros k; cbv beta; rewrite !Nat2Z.inj_succ; lia).
    rewrite IH.
    2:{ rewrite length_app, length_firstn. cbn [List.length]. rewrite length_skipn. lia. }
    f_equal.
    assert (Hf : List.length (firstn a line) = a) by (rewrite length_firstn; lia).
    replace (firstn (S a) (firstn a line ++ x :: skipn (S a) line))
      with (firstn a line ++ [x]).
    2:{ rewrite firstn_app, Hf. replace (S a - a)%nat with 1%nat by lia.
        rewrite (firstn_all2 (firstn a line)) by (rewrite Hf; lia). reflexivity. }
    replace (skipn (S a + n) (firstn a line ++ x :: skipn (S a) line))
      with (skipn (a + S n) line).
    2:{ rewrite skipn_app, Hf.
        rewrite (skipn_all2 (firstn a line)) by (rewrite Hf; lia).
        replace (S a + n - a)%nat with (S n) by lia.
        cbn [app]. rewrite skipn_cons, skipn_skipn. f_equal. lia. }
    rewrite <- app_assoc. reflexivity.
Qed.

Lemma monitor_range_from (a : nat) (b : Z) :
  MonitorGraph.range (Z.of_nat a) b
  = map (fun k => Z.of_nat a + Z.of_nat k) (seq 0 (Z.to_nat (b - Z.of_nat a))).
Proof. reflexivity. Qed.

(** X30. The rows of the graph of [driftMonitor.py] on a terminal of at
    least three columns. A sample of offset 0 has the axis at
    [cols // 2] among blanks. A negative offset that fits draws its cells
    to the left of the axis. A positive offset draws its cells from the
    column of the axis on, up to the last column but one: it overwrites
    the axis, so such a row has no axis. *)
Theorem monitor_graph_row_shape :
  forall (cols o : Z),
    3 <= cols ->
    let C := Z.to_nat (cols / 2) in
    let W := Z.to_nat cols in
    let K := Z.to_nat (Z.min o (cols - 1 - cols / 2)) in
    (o = 0 ->
     MonitorGraph.row cols o
     = Graph.Value (repeat MonitorGraph.blank C ++ MonitorGraph.axis
                    :: repeat MonitorGraph.blank (W - C - 1)))
    /\ (- (cols / 2) <= o < 0 ->
        MonitorGraph.row cols o
        = Graph.Value (repeat MonitorGraph.blank (C - Z.to_nat (- o))
                       ++ repeat MonitorGraph.upper_block (Z.to_nat (- o))
                       ++ MonitorGraph.axis :: repeat MonitorGraph.blank (W - C - 1)))
    /\ (0 < o ->
        MonitorGraph.row cols o
        = Graph.Value (repeat MonitorGraph.blank C
                       ++ repeat MonitorGraph.lower_block K
                       ++ repeat MonitorGraph.blank (W - C - K))
        /\ (1 <= K)%nat).
Proof.
  intros cols o Hcols C W K.
  assert (Hdiv : 1 <= cols / 2 /\ 2 * (cols / 2) <= cols /\ cols / 2 + 1 < cols).
  { pose proof (Z.div_mod cols 2 ltac:(lia)) as Hd.
    pose proof (Z.mod_pos_bound cols 2 ltac:(lia)) as Hm. lia. }
  assert (HC : cols / 2 = Z.of_nat C) by (subst C; lia).
  assert (HCW : (C + 1 < W)%nat) by (subst C W; lia).
  assert (Haxis : MonitorGraph.setitem (repeat MonitorGraph.blank W) (cols / 2)
                    MonitorGraph.axis
                  = Graph.Value (repeat MonitorGraph.blank C ++ MonitorGraph.axis
                                 :: repeat MonitorGraph.blank (W - C - 1))).
  { rewrite HC, monitor_setitem_at by (rewrite repeat_length; lia).
    rewrite firstn_repeat_le by lia. rewrite skipn_repeat_le.
    replace (W - S C)%nat with (W - C - 1)%nat by lia. reflexivity. }
  unfold MonitorGraph.row. cbv zeta. fold W. rewrite Haxis. cbn [Graph.and_after].
  split; [|split].
  - intros ->. reflexivity.
  - intros Ho.
    destruct (Z.ltb_spec 0 o) as [Hp|_]; [lia|].
    destruct (Z.ltb_spec o 0) as [_|Hn]; [|lia].
    replace (cols / 2 + o) with (Z.of_nat (C - Z.to_nat (- o))) by lia.
    rewrite HC, monitor_range_from.
    replace (Z.to_nat (Z.of_nat C - Z.of_nat (C - Z.to_nat (- o))))
      with (Z.to_nat (- o)) by lia.
    rewrite monitor_fill_run
      by (rewrite length_app, repeat_length; cbn [List.length]; rewrite repeat_length; lia).
    f_equal.
    rewrite firstn_app, repeat_length, firstn_repeat_le by lia.
    replace (C - Z.to_nat (- o) - C)%nat with O by lia. cbn [firstn]. rewrite app_nil_r.
    replace (C - Z.to_nat (- o) + Z.to_nat (- o))%nat with C by lia.
    rewrite skipn_app, repeat_length, skipn_repeat_le, Nat.sub_diag.
    reflexivity.
  - intros Ho.
    destruct (Z.ltb_spec 0 o) as [_|Hp]; [|lia].
    split; [|subst K; lia].
    rewrite HC, monitor_range_from.
    replace (Z.to_nat (Z.min (Z.of_nat C + o) (cols - 1) - Z.of_nat C)) with K
      by (subst K; lia).
    rewrite monitor_fill_run
      by (rewrite length_app, repeat_length; cbn [List.length]; rewrite repeat_length;
          subst K; lia).
    f_equal.
    rewrite firstn_app, repeat_length, firstn_repeat_le, Nat.sub_diag by lia.
    cbn [firstn]. rewrite app_nil_r. f_equal. f_equal.
    rewrite skipn_app, repeat_length, skipn_repeat_le.
    replace (C - (C + K))%nat with O by lia. cbn [repeat app].
    replace (C + K - C)%nat with (S (K - 1)) by (subst K; lia).
    cbn [skipn]. rewrite skipn_repeat_le. f_equal. subst K. lia.
Qed.

Lemma monitor_graph_row_shape_witness :
  MonitorGraph.row 9 0
  = Graph.Value [32; 32; 32; 32; 9474; 32; 32; 32; 32]%N
  /\ MonitorGraph.row 9 (-2)
     = Graph.Value [32; 32; 9600; 9600; 9474; 32; 32; 32; 32]%N
  /\ MonitorGraph.row 9 2
     = Graph.Value [32; 32; 32; 32; 9604; 9604; 32; 32; 32]%N.
Proof.
  destruct (monitor_graph_row_shape 9 0) as (H0 & _ & _); [lia|].
  destruct (monitor_graph_row_shape 9 (-2)) as (_ & Hn & _); [lia|].
  destruct (monitor_graph_row_shape 9 2) as (_ & _ & Hp); [lia|].
  split; [apply H0; reflexivity|].
  split; [apply Hn; vm_compute; split; [discriminate|reflexivity]|].
  apply Hp. reflexivity.
Defined.
